(** * Leanvox Python client: request-execution core

    A shallow embedding of [leanvox/_auth.py], [leanvox/errors.py],
    [leanvox/_http.py], [leanvox/client.py], [leanvox/_resources.py] and the
    dataclasses of [leanvox/types.py], and the properties of the credential
    resolver, the error classifier, the retrying executors, the generation
    orchestrator and the resources.

    Layout: the Python values the code manipulates ([Py]), then one module
    per source file or class, then the theorems. *)

From Stdlib Require Import String Ascii List ZArith QArith Qround Bool Lia.
From Stdlib Require Import DecimalString.
Import ListNotations.

Set Warnings "-register-all".

Local Open Scope string_scope.
Local Open Scope Z_scope.

(* ********************************************************************** *)
(** * Python values *)

Module Py.

(** ** Strings

    A Python [str] is a [string]; [len] counts its characters. *)

Definition len (s : string) : Z := Z.of_nat (String.length s).

Definition str_of_int (z : Z) : string := NilZero.string_of_int (Z.to_int z).

Definition lower_char (c : ascii) : ascii :=
  let n := nat_of_ascii c in
  if ((65 <=? n) && (n <=? 90))%nat then ascii_of_nat (n + 32) else c.

(** [str.lower()] on the ASCII letters; other characters are left as they
    are (no character outside ASCII lowercases to [m], [p] or [3]). *)
Fixpoint lower (s : string) : string :=
  match s with
  | EmptyString => EmptyString
  | String c s' => String (lower_char c) (lower s')
  end.

(** [s.startswith(p)] *)
Definition startswith (s p : string) : bool := String.prefix p s.

(** [s[:n]] *)
Definition take (n : nat) (s : string) : string := String.substring 0 (Nat.min n (String.length s)) s.

Fixpoint repeat_nat (s : string) (n : nat) : string :=
  match n with
  | O => ""
  | S n' => s ++ repeat_nat s n'
  end.

(** [s * n] *)
Definition repeat_str (s : string) (n : Z) : string := repeat_nat s (Z.to_nat n).

(** [s.rstrip("/")] *)
Fixpoint rstrip_slash (s : string) : string :=
  match s with
  | EmptyString => EmptyString
  | String c s' =>
      match rstrip_slash s' with
      | EmptyString => if Ascii.eqb c "/" then EmptyString else String c EmptyString
      | t => String c t
      end
  end.

(** [sep.join(l)] *)
Fixpoint join (sep : string) (l : list string) : string :=
  match l with
  | [] => ""
  | [x] => x
  | x :: l' => x ++ sep ++ join sep l'
  end.

(** ** Floats

    A Python [float] is an IEEE 754 double: a finite value, an infinity or
    NaN.  A finite value is kept as the rational it denotes, in lowest terms;
    the two zeros are one value (they compare equal, and nothing the client
    does tells them apart but formatting, which is left symbolic).
    Comparisons are IEEE comparisons (every comparison with NaN is false,
    [!=] with NaN is true). *)

Inductive float : Type :=
| Finite (q : Q)
| Inf (negative : bool)
| NaN.

Definition of_Z (z : Z) : float := Finite (inject_Z z).

Definition float_le (a b : float) : bool :=
  match a, b with
  | NaN, _ | _, NaN => false
  | Finite x, Finite y => Qle_bool x y
  | Inf true, _ => true
  | _, Inf false => true
  | Inf false, _ => false
  | _, Inf true => false
  end.

Definition float_eq (a b : float) : bool :=
  match a, b with
  | Finite x, Finite y => Qeq_bool x y
  | Inf s, Inf t => Bool.eqb s t
  | _, _ => false
  end.

Definition float_ne (a b : float) : bool := negb (float_eq a b).

Definition float_truthy (a : float) : bool := float_ne a (of_Z 0).

(** *** Rounding to a double

    The double nearest to a rational, ties to the even significand: 53
    bits of significand, exponents of the unit in the last place from -1074
    (subnormal numbers) to 971; what rounds to [2 ^ 1024] or more is an
    infinity. *)

(** [a / b] rounded to the nearest integer, ties to even, for [0 <= a] and
    [0 < b]. *)
Definition round_half_even (a b : Z) : Z :=
  let q := a / b in
  match Z.compare (2 * (a mod b)) b with
  | Lt => q
  | Gt => q + 1
  | Eq => if Z.even q then q else q + 1
  end.

(** The rational [m * 2 ^ e], negated when [negative]. *)
Definition binary (negative : bool) (m e : Z) : Q :=
  let m' := if negative then - m else m in
  Qred (if 0 <=? e then inject_Z (m' * 2 ^ e) else Qmake m' (Z.to_pos (2 ^ (- e)))).

Definition round_double (q : Q) : float :=
  let n := Z.abs (Qnum q) in
  let d := Zpos (Qden q) in
  if n =? 0 then Finite 0%Q
  else
    (* [n / d] over [2 ^ e], as a fraction of integers *)
    let scaled (e : Z) : Z * Z :=
      if 0 <=? e then (n, d * 2 ^ e) else (n * 2 ^ (- e), d) in
    (* [2 ^ 52 < n / d / 2 ^ e0 < 2 ^ 54] *)
    let e0 := Z.log2 n - Z.log2 d - 53 in
    let e1 := let (a, b) := scaled e0 in if 2 ^ 53 * b <=? a then e0 + 1 else e0 in
    let e := Z.max e1 (-1074) in
    let (a, b) := scaled e in
    let m := round_half_even a b in
    if (971 <? e) || ((e =? 971) && (2 ^ 53 <=? m)) then Inf (Qnum q <? 0)
    else Finite (binary (Qnum q <? 0) m e).

(** *** [float(s)] on a string

    As CPython reads it.  Every character from 127 on is first replaced: a
    Unicode space (of the characters up to 255, U+0085 and U+00A0) by a
    blank, any other by [?], which no number holds.  Then the ASCII
    whitespace around the text is dropped, and what is left is an optional
    sign followed by [inf], [infinity] or [nan] in any case, or by a decimal
    number with optional fraction and exponent whose digit groups may hold
    single underscores.  The value is rounded to a double.  [None] stands
    for [ValueError]. *)

Definition to_ascii (c : ascii) : ascii :=
  let n := nat_of_ascii c in
  if (n <? 127)%nat then c
  else if ((n =? 133) || (n =? 160))%nat then " "%char
  else "?"%char.

(** [Py_ISSPACE]: blank, [\t], [\n], [\v], [\f], [\r]. *)
Definition is_space (c : ascii) : bool :=
  let n := nat_of_ascii c in
  (((9 <=? n) && (n <=? 13)) || (n =? 32))%nat.

Fixpoint lstrip (l : list ascii) : list ascii :=
  match l with
  | c :: l' => if is_space c then lstrip l' else l
  | [] => []
  end.

Definition strip (l : list ascii) : list ascii := rev (lstrip (rev (lstrip l))).

Definition digit_of (c : ascii) : option Z :=
  let n := nat_of_ascii c in
  if ((48 <=? n) && (n <=? 57))%nat then Some (Z.of_nat (n - 48)) else None.

(** The rest of a [digitpart] after its first digit: digits, each
    optionally preceded by one underscore.  Returns the accumulated number,
    the count of digits read and the unread input. *)
Fixpoint more_digits (l : list ascii) (acc : Z) (n : Z) : Z * Z * list ascii :=
  match l with
  | c :: l' =>
      match digit_of c with
      | Some d => more_digits l' (10 * acc + d) (n + 1)
      | None =>
          if Ascii.eqb c "_" then
            match l' with
            | c2 :: l'' =>
                match digit_of c2 with
                | Some d => more_digits l'' (10 * acc + d) (n + 1)
                | None => (acc, n, l)
                end
            | [] => (acc, n, l)
            end
          else (acc, n, l)
      end
  | [] => (acc, n, l)
  end.

Definition digitpart (l : list ascii) (acc : Z) (n : Z) : option (Z * Z * list ascii) :=
  match l with
  | c :: l' =>
      match digit_of c with
      | Some d => Some (more_digits l' (10 * acc + d) (n + 1))
      | None => None
      end
  | [] => None
  end.

(** [number]: returns the digits read as one integer, how many of them
    follow the point, and the unread input. *)
Definition number (l : list ascii) : option (Z * Z * list ascii) :=
  match digitpart l 0 0 with
  | Some (m, _, rest) =>
      match rest with
      | "."%char :: rest' =>
          match digitpart rest' m 0 with
          | Some r => Some r
          | None => Some (m, 0, rest')
          end
      | _ => Some (m, 0, rest)
      end
  | None =>
      match l with
      | "."%char :: rest' => digitpart rest' 0 0
      | _ => None
      end
  end.

Definition sign_of (l : list ascii) : bool * list ascii :=
  match l with
  | "-"%char :: l' => (true, l')
  | "+"%char :: l' => (false, l')
  | _ => (false, l)
  end.

Definition exponent (l : list ascii) : option Z :=
  match l with
  | [] => Some 0
  | c :: l' =>
      if Ascii.eqb (lower_char c) "e" then
        let (neg, l'') := sign_of l' in
        match digitpart l'' 0 0 with
        | Some (e, _, []) => Some (if neg then - e else e)
        | _ => None
        end
      else None
  end.

(** The rational [m * 10 ^ e]. *)
Definition scale (m e : Z) : Q :=
  if 0 <=? e then inject_Z (m * 10 ^ e) else Qmake m (Z.to_pos (10 ^ (- e))).

Definition float_of_str (s : string) : option float :=
  let (neg, body) := sign_of (strip (map to_ascii (list_ascii_of_string s))) in
  let word := lower (string_of_list_ascii body) in
  if (word =? "inf")%string || (word =? "infinity")%string then Some (Inf neg)
  else if (word =? "nan")%string then Some NaN
  else
    match number body with
    | Some (m, frac, rest) =>
        match exponent rest with
        | Some e => Some (round_double (scale (if neg then - m else m) (e - frac)))
        | None => None
        end
    | None => None
    end.

(** ** Dynamically typed values

    What [resp.json()], a parsed TOML file and untyped keyword arguments
    hold.  A [dict] is an association list in insertion order. *)

Inductive value : Type :=
| VNone
| VBool (b : bool)
| VInt (z : Z)
| VFloat (f : float)
| VStr (s : string)
| VList (l : list value)
| VDict (d : list (string * value)).

Definition empty_dict : value := VDict [].

(** [bool(v)] *)
Definition truthy (v : value) : bool :=
  match v with
  | VNone => false
  | VBool b => b
  | VInt z => negb (z =? 0)
  | VFloat f => float_truthy f
  | VStr s => negb (s =? "")%string
  | VList l => match l with [] => false | _ => true end
  | VDict d => match d with [] => false | _ => true end
  end.

(** [a or b] *)
Definition or_else (a b : value) : value := if truthy a then a else b.

(** [v == s] for a string literal [s] *)
Definition eq_str (v : value) (s : string) : bool :=
  match v with
  | VStr t => (t =? s)%string
  | _ => false
  end.

Fixpoint lookup (k : string) (d : list (string * value)) : option value :=
  match d with
  | [] => None
  | (k', v) :: d' => if (k' =? k)%string then Some v else lookup k d'
  end.

(** [d.get(k, default)] on a dict *)
Definition dict_get (d : list (string * value)) (k : string) (default : value) : value :=
  match lookup k d with
  | Some v => v
  | None => default
  end.

(** ** Text built by an f-string

    [Str s] is a plain [str]; [FStr p v q] is [f"{p}{v}{q}"] for a value
    whose formatting is left to Python ([float] and container values). *)

Inductive text : Type :=
| Str (s : string)
| FStr (prefix : string) (v : value) (suffix : string).

(** [f"{prefix}{v}"]: strings and integers are rendered. *)
Definition fmt (prefix : string) (v : value) (suffix : string) : text :=
  match v with
  | VStr s => Str (prefix ++ s ++ suffix)
  | VInt z => Str (prefix ++ str_of_int z ++ suffix)
  | _ => FStr prefix v suffix
  end.

End Py.


(* ********************************************************************** *)
(** * [leanvox/errors.py] *)

Module Errors.
Import Py.

Inductive error_class : Type :=
| LeanvoxError
| InvalidRequestError
| AuthenticationError
| InsufficientBalanceError
| NotFoundError
| RateLimitError
| ServerError
| StreamingFormatError.

Definition error_class_eqb (a b : error_class) : bool :=
  match a, b with
  | LeanvoxError, LeanvoxError
  | InvalidRequestError, InvalidRequestError
  | AuthenticationError, AuthenticationError
  | InsufficientBalanceError, InsufficientBalanceError
  | NotFoundError, NotFoundError
  | RateLimitError, RateLimitError
  | ServerError, ServerError
  | StreamingFormatError, StreamingFormatError => true
  | _, _ => false
  end.

(** The [message] of an error: text made by the client, or the value the
    server sent (or the default) under ["message"]. *)
Inductive msg : Type :=
| Msg (t : text)
| MsgValue (v : value).

(** An instance of [LeanvoxError] or of one of its subclasses.
    [balance_cents] and [retry_after] exist on the subclass that declares
    them only. *)
Record error : Type := {
  cls : error_class;
  message : msg;
  code : value;
  status_code : Z;
  body : value;
  balance_cents : option value;
  retry_after : option value
}.

(** [cls(message, code=code, status_code=status_code, body=body)], with the
    subclass attribute at its default [0]. *)
Definition init (c : error_class) (m : msg) (code : value) (status_code : Z)
    (body : value) : error :=
  {| cls := c; message := m; code := code; status_code := status_code;
     body := or_else body empty_dict;
     balance_cents := if error_class_eqb c InsufficientBalanceError then Some (VInt 0) else None;
     retry_after := if error_class_eqb c RateLimitError then Some (VInt 0) else None |}.

(** Failures of the transport ([httpx]); the first two are the ones the
    executor catches. *)
Inductive transport_error : Type :=
| ConnectError (msg : string)
| TimeoutException (msg : string)
| OtherTransportError (msg : string).

Definition str_of_transport_error (e : transport_error) : string :=
  match e with
  | ConnectError m | TimeoutException m | OtherTransportError m => m
  end.

(** How a call ends when it does not return: with one of the exceptions
    below or, for [NeverReturns], not at all (the call waits for ever and
    nothing after it runs; no handler can observe it). *)
Inductive exn : Type :=
| Leanvox (e : error)
| AttributeError (attr : string)
| TypeError (what : string)
| IndexError
| JSONDecodeError
| Transport (e : transport_error)
| HTTPStatusError (status : Z)
| ValueError (what : string)
| OverflowError (what : string)
| NeverReturns.

Inductive result (A : Type) : Type :=
| Ok (a : A)
| Raise (e : exn).
Arguments Ok {A} a.
Arguments Raise {A} e.

Definition _ERROR_MAP : list (Z * error_class) :=
  [ (400, InvalidRequestError);
    (401, AuthenticationError);
    (402, InsufficientBalanceError);
    (404, NotFoundError);
    (429, RateLimitError);
    (500, ServerError) ].

(** [_ERROR_MAP.get(status_code, default)] *)
Fixpoint map_get (m : list (Z * error_class)) (status_code : Z) (default : error_class)
    : error_class :=
  match m with
  | [] => default
  | (k, c) :: m' => if k =? status_code then c else map_get m' status_code default
  end.

Definition bind {A B : Type} (r : result A) (k : A -> result B) : result B :=
  match r with
  | Ok a => k a
  | Raise e => Raise e
  end.

Definition with_balance_cents (e : error) (v : value) : error :=
  {| cls := cls e; message := message e; code := code e;
     status_code := status_code e; body := body e;
     balance_cents := Some v; retry_after := retry_after e |}.

Definition with_retry_after (e : error) (v : value) : error :=
  {| cls := cls e; message := message e; code := code e;
     status_code := status_code e; body := body e;
     balance_cents := balance_cents e; retry_after := Some v |}.

(** [_raise_for_status(status_code, body)]; [.get] exists on a dict only. *)
Definition _raise_for_status (status_code : Z) (body : value) : result unit :=
  if status_code <? 400 then Ok tt
  else
    match body with
    | VDict d =>
        match dict_get d "error" body with
        | VDict error_data =>
            let message := dict_get error_data "message"
                             (VStr ("API error " ++ str_of_int status_code)) in
            let code := dict_get error_data "code" (VStr "unknown") in
            let cls := map_get _ERROR_MAP status_code LeanvoxError in
            let e := init cls (MsgValue message) code status_code body in
            if error_class_eqb cls InsufficientBalanceError then
              Raise (Leanvox (with_balance_cents e (dict_get error_data "balance_cents" (VInt 0))))
            else if error_class_eqb cls RateLimitError then
              Raise (Leanvox (with_retry_after e (dict_get error_data "retry_after" (VInt 0))))
            else Raise (Leanvox e)
        | _ => Raise (AttributeError "get")
        end
    | _ => Raise (AttributeError "get")
    end.

End Errors.

(* ********************************************************************** *)
(** * [leanvox/_auth.py] *)

Module Auth.
Import Py Errors.

Definition _VALID_PREFIXES : list string := ["lv_live_"; "lv_test_"].
Definition _ENV_VAR : string := "LEANVOX_API_KEY".

(** [~/.lvox/config.toml] as the resolver sees it: absent, present but
    failing to open or parse, or parsed to a table. *)
Inductive config_file : Type :=
| Missing
| Unreadable
| Parsed (data : list (string * value)).

(** The process environment of a resolution: [os.environ.get(_ENV_VAR)]
    and the configuration file. *)
Record environment : Type := {
  environ_get : option string;
  config : config_file
}.

(** [_read_config_file()]: every exception inside the [try] gives [None]. *)
Definition _read_config_file (env : environment) : value :=
  match config env with
  | Missing => VNone
  | Unreadable => VNone
  | Parsed data =>
      let top := dict_get data "api_key" VNone in
      if truthy top then top
      else
        match dict_get data "auth" empty_dict with
        | VDict auth => dict_get auth "api_key" VNone
        | _ => VNone
        end
  end.

Definition invalid_api_key (m : string) : exn :=
  Leanvox (init AuthenticationError (Msg (Str m)) (VStr "invalid_api_key") 401 VNone).

(** [_validate_prefix(key)]; [startswith] exists on a [str] only. *)
Definition _validate_prefix (key : value) : result unit :=
  if negb (truthy key) then Raise (invalid_api_key "API key cannot be empty")
  else
    match key with
    | VStr k =>
        if negb (existsb (startswith k) _VALID_PREFIXES) then
          Raise (invalid_api_key
                   ("API key must start with " ++ join " or " _VALID_PREFIXES
                    ++ ", got '" ++ take 10 k ++ "...'"))
        else Ok tt
    | _ => Raise (AttributeError "startswith")
    end.

(** [_validate_prefix(key); return key] *)
Definition validated (key : value) : result (option value) :=
  bind (_validate_prefix key) (fun _ => Ok (Some key)).

(** [resolve_api_key(api_key)]; the result [None] is: no key found. *)
Definition resolve_api_key (api_key : option string) (env : environment)
    : result (option value) :=
  match api_key with
  | Some k => validated (VStr k)
  | None =>
      let from_config :=
        let config_key := _read_config_file env in
        if truthy config_key then validated config_key else Ok None in
      match environ_get env with
      | Some env_key =>
          if truthy (VStr env_key) then validated (VStr env_key) else from_config
      | None => from_config
      end
  end.

(** [ensure_api_key(key)]; the home directory in the message is written
    [~]. *)
Definition ensure_api_key (key : option value) : result value :=
  match key with
  | None =>
      Raise (invalid_api_key
               ("No API key provided. Pass api_key to the constructor, set "
                ++ _ENV_VAR ++ " env var, or create ~/.lvox/config.toml"))
  | Some k => Ok k
  end.

End Auth.

(* ********************************************************************** *)
(** * [leanvox/_http.py] *)

Module Http.
Import Py Errors.

Definition _RETRY_STATUS_CODES : list Z := [429; 500; 502; 503; 504].
Definition _DEFAULT_TIMEOUT : float := of_Z 30.
Definition _STREAM_TIMEOUT : float := of_Z 120.
Definition _BACKOFF_BASE : list float := [of_Z 1; of_Z 2; of_Z 4].

(** A piece yielded by the iterator of a streamed body, or the failure
    that ends the iteration. *)
Inductive chunk : Type :=
| Bytes (b : string)
| Broken (e : transport_error).

(** An [httpx.Response] as the client reads it: [header_Retry_After] is
    [resp.headers.get("Retry-After")], [content] the raw body (and
    [resp.text]), [json] what [resp.json()] returns ([None] when it raises),
    [iter_bytes] what iterating [resp.iter_bytes(chunk_size=4096)] gives:
    the pieces it yields and, when the stream fails, the failure it then
    raises. *)
Record response : Type := {
  status_code : Z;
  header_Retry_After : option string;
  content : string;
  json : option value;
  iter_bytes : list chunk
}.

Definition text_of (r : response) : string := content r.

(** What one call of the transport gives. *)
Inductive reply : Type :=
| Response (r : response)
| Fails (e : transport_error).

(** What the transport is called with. *)
Record request_ : Type := {
  method : string;
  path : text;
  timeout : float;
  kw_params : value;
  kw_files : option value;
  kw_data : option value;
  kw_json : option value
}.

(** How a suspension point waits: the blocking client occupies its thread,
    the non-blocking one awaits. *)
Inductive mode : Type :=
| Blocking
| Yielding.

(** The effects of a call, in the order they happen: a buffered request, a
    stream open, a sleep: a call [time.sleep(d)] or [await asyncio.sleep(d)]
    that returned, with the duration it was called with. *)
Inductive event : Type :=
| Send (m : mode) (r : request_)
| Open (m : mode) (r : request_)
| Sleep (m : mode) (d : float).

(** The event with its mode forgotten. *)
Definition blocking (e : event) : event :=
  match e with
  | Send _ r => Send Blocking r
  | Open _ r => Open Blocking r
  | Sleep _ d => Sleep Blocking d
  end.

(** The world a client runs in: the server answers the [n]-th call of the
    transport with [server n]. *)
Record world : Type := {
  server : nat -> reply;
  sent : nat;
  trace : list event
}.

Definition start (server : nat -> reply) : world :=
  {| server := server; sent := 0; trace := [] |}.

(** The world [w] after the further effects [evs], [calls] of which called
    the transport. *)
Definition after (w : world) (evs : list event) (calls : nat) : world :=
  {| server := server w; sent := sent w + calls; trace := trace w ++ evs |}.

(** The world with the modes of its effects forgotten. *)
Definition forget (w : world) : world :=
  {| server := server w; sent := sent w; trace := map blocking (trace w) |}.

(** Computations with effects on the world that may raise. *)
Definition M (A : Type) : Type := world -> result A * world.

Definition ret {A : Type} (a : A) : M A := fun w => (Ok a, w).
Definition raise {A : Type} (e : exn) : M A := fun w => (Raise e, w).
Definition lift {A : Type} (r : result A) : M A := fun w => (r, w).

Definition mbind {A B : Type} (m : M A) (k : A -> M B) : M B :=
  fun w =>
    match m w with
    | (Ok a, w') => k a w'
    | (Raise e, w') => (Raise e, w')
    end.

Notation "x <- m ;; k" := (mbind m (fun x => k))
  (at level 61, m at next level, right associativity).
Notation "m ;;; k" := (mbind m (fun _ => k))
  (at level 61, right associativity).

Definition log (e : event) : M unit :=
  fun w => (Ok tt, {| server := server w; sent := sent w; trace := trace w ++ [e] |}).

Definition call (e : event) : M reply :=
  fun w => (Ok (server w (sent w)),
            {| server := server w; sent := S (sent w); trace := trace w ++ [e] |}).

(** What [time.sleep(d)] raises instead of sleeping, as CPython 3.11
    checks its argument: NaN is refused; the duration is converted to a
    number of nanoseconds (the product with [10 ** 9] rounded to a double,
    then away from zero to an integer) that has to fit 64 bits; a negative
    count is refused, and so is [2 ** 63], which the conversion wraps to a
    negative count.  A duration that passes is handed to the operating
    system (which may itself refuse a deadline of centuries; that is not
    modelled). *)
Definition sleep_error (d : float) : option exn :=
  let too_large := OverflowError "timestamp too large to convert to C _PyTime_t" in
  match d with
  | NaN => Some (ValueError "Invalid value NaN (not a number)")
  | Inf _ => Some too_large
  | Finite q =>
      match round_double (q * inject_Z (10 ^ 9)) with
      | Finite ns =>
          let t := if Qle_bool 0 ns then Qceiling ns else Qfloor ns in
          if (t <? - 2 ^ 63) || (2 ^ 63 <? t) then Some too_large
          else if (t <? 0) || (t =? 2 ^ 63) then
            Some (ValueError "sleep length must be non-negative")
          else None
      | _ => Some too_large
      end
  end.

(** [time.sleep(d)] *)
Definition time_sleep (d : float) : M unit :=
  match sleep_error d with
  | Some e => raise e
  | None => log (Sleep Blocking d)
  end.

(** [await asyncio.sleep(d)], as CPython 3.11 runs it: a delay [<= 0]
    yields to the loop once and returns; any other delay sets a timer and
    waits for it.  The timer of a positive infinity never fires; the one of
    a NaN, which is not [<= 0], is due at once (later versions refuse NaN
    with a [ValueError]). *)
Definition asyncio_sleep (d : float) : M unit :=
  if float_le d (of_Z 0) then log (Sleep Yielding d)
  else
    match d with
    | Inf _ => raise NeverReturns
    | _ => log (Sleep Yielding d)
    end.

(** [l[i]] on a Python list: a negative index counts from the end. *)
Definition index {A : Type} (l : list A) (i : Z) : result A :=
  let n := Z.of_nat (List.length l) in
  let j := if i <? 0 then i + n else i in
  if (j <? 0) || (n <=? j) then Raise IndexError
  else
    match nth_error l (Z.to_nat j) with
    | Some a => Ok a
    | None => Raise IndexError
    end.

(** [_BACKOFF_BASE[min(attempt, len(_BACKOFF_BASE) - 1)]] *)
Definition schedule (attempt : Z) : result float :=
  index _BACKOFF_BASE (Z.min attempt (Z.of_nat (List.length _BACKOFF_BASE) - 1)).

(** [_get_backoff(attempt, resp)] *)
Definition _get_backoff (attempt : Z) (resp : option response) : result float :=
  match resp with
  | Some r =>
      match header_Retry_After r with
      | Some retry_after =>
          if truthy (VStr retry_after) then
            match float_of_str retry_after with
            | Some f => Ok f
            | None => schedule attempt
            end
          else schedule attempt
      | None => schedule attempt
      end
  | None => schedule attempt
  end.

(** The arguments of [request]. *)
Record args : Type := {
  a_method : string;
  a_path : text;
  a_json : value;
  a_data : value;
  a_files : value;
  a_params : value;
  a_timeout : option float
}.

Definition simple (method : string) (path : text) (json : value) : args :=
  {| a_method := method; a_path := path; a_json := json; a_data := VNone;
     a_files := VNone; a_params := VNone; a_timeout := None |}.

(** The keyword arguments and the timeout of one attempt. *)
Definition build (self_timeout : float) (a : args) : request_ :=
  {| method := a_method a;
     path := a_path a;
     timeout := match a_timeout a with
                | Some t => if float_truthy t then t else self_timeout
                | None => self_timeout
                end;
     kw_params := a_params a;
     kw_files := if truthy (a_files a) then Some (a_files a) else None;
     kw_data := if truthy (a_files a) then Some (a_data a) else None;
     kw_json := if truthy (a_files a) then None
                else match a_json a with
                     | VNone => None
                     | j => Some j
                     end |}.

Definition connection_error (m : string) : exn :=
  Leanvox (init LeanvoxError (Msg (Str m)) (VStr "connection_error") 0 VNone).

Definition retryable_status (status : Z) : bool :=
  existsb (Z.eqb status) _RETRY_STATUS_CODES.

(** [body = resp.json()], or the wrapped text when that raises. *)
Definition error_body (resp : response) : value :=
  match json resp with
  | Some b => b
  | None => VDict [("error", VDict [("message", VStr (text_of resp))])]
  end.

End Http.

(** ** [class HTTPClient] *)

Module HTTPClient.
Import Py Errors Http.

Record t : Type := {
  _base_url : string;
  _api_key : value;
  _timeout : float;
  _max_retries : Z
}.

(** [HTTPClient(base_url=..., api_key=..., timeout=..., max_retries=...)] *)
Definition init (base_url : string) (api_key : value) (timeout : float)
    (max_retries : Z) : t :=
  {| _base_url := rstrip_slash base_url; _api_key := api_key;
     _timeout := timeout; _max_retries := max_retries |}.

(** The [for attempt in range(...)] loop of [request] with [todo]
    iterations left, then the statements after it. *)
Fixpoint attempts (self : t) (a : args) (todo : nat) (attempt : Z)
    (last_err : option transport_error) {struct todo} : M value :=
  match todo with
  | O =>
      match last_err with
      | Some e => raise (connection_error (str_of_transport_error e))
      | None => ret empty_dict
      end
  | S todo' =>
      let next := attempts self a todo' (attempt + 1) in
      r <- call (Send Blocking (build (_timeout self) a)) ;;
      match r with
      | Response resp =>
          if status_code resp <? 400 then
            if truthy (VStr (content resp)) then
              match json resp with
              | Some data => ret data
              | None => raise JSONDecodeError
              end
            else ret empty_dict
          else
            let body := error_body resp in
            (if (status_code resp <? 500) && negb (status_code resp =? 429)
             then lift (_raise_for_status (status_code resp) body)
             else ret tt) ;;;
            if retryable_status (status_code resp) && (attempt <? _max_retries self) then
              wait <- lift (_get_backoff attempt (Some resp)) ;;
              time_sleep wait ;;;
              next last_err
            else
              lift (_raise_for_status (status_code resp) body) ;;;
              next last_err
      | Fails (OtherTransportError m) => raise (Transport (OtherTransportError m))
      | Fails e =>
          if attempt <? _max_retries self then
            wait <- lift (schedule attempt) ;;
            time_sleep wait ;;;
            next (Some e)
          else
            raise (connection_error
                     ("Connection failed after " ++ str_of_int (_max_retries self + 1)
                      ++ " attempts: " ++ str_of_transport_error e))
      end
  end.

(** [def request(method, path, json=..., data=..., files=..., params=..., timeout=...)] *)
Definition request (self : t) (a : args) : M value :=
  attempts self a (Z.to_nat (_max_retries self + 1)) 0 None.

(** [stream(method, path, json=...)]: entering the context. *)
Definition stream (self : t) (method : string) (path : text) (json : value)
    : M response :=
  r <- call (Open Blocking {| method := method; path := path; timeout := _STREAM_TIMEOUT;
                     kw_params := VNone; kw_files := None; kw_data := None;
                     kw_json := Some json |}) ;;
  match r with
  | Response resp => ret resp
  | Fails e => raise (Transport e)
  end.

End HTTPClient.

(** ** [class AsyncHTTPClient] *)

Module AsyncHTTPClient.
Import Py Errors Http.

Record t : Type := {
  _base_url : string;
  _api_key : value;
  _timeout : float;
  _max_retries : Z
}.

(** [AsyncHTTPClient(base_url=..., api_key=..., timeout=..., max_retries=...)] *)
Definition init (base_url : string) (api_key : value) (timeout : float)
    (max_retries : Z) : t :=
  {| _base_url := rstrip_slash base_url; _api_key := api_key;
     _timeout := timeout; _max_retries := max_retries |}.

(** The [for attempt in range(...)] loop of [request] with [todo]
    iterations left, then the statements after it. *)
Fixpoint attempts (self : t) (a : args) (todo : nat) (attempt : Z)
    (last_err : option transport_error) {struct todo} : M value :=
  match todo with
  | O =>
      match last_err with
      | Some e => raise (connection_error (str_of_transport_error e))
      | None => ret empty_dict
      end
  | S todo' =>
      let next := attempts self a todo' (attempt + 1) in
      r <- call (Send Yielding (build (_timeout self) a)) ;;
      match r with
      | Response resp =>
          if status_code resp <? 400 then
            if truthy (VStr (content resp)) then
              match json resp with
              | Some data => ret data
              | None => raise JSONDecodeError
              end
            else ret empty_dict
          else
            let body := error_body resp in
            (if (status_code resp <? 500) && negb (status_code resp =? 429)
             then lift (_raise_for_status (status_code resp) body)
             else ret tt) ;;;
            if retryable_status (status_code resp) && (attempt <? _max_retries self) then
              wait <- lift (_get_backoff attempt (Some resp)) ;;
              asyncio_sleep wait ;;;
              next last_err
            else
              lift (_raise_for_status (status_code resp) body) ;;;
              next last_err
      | Fails (OtherTransportError m) => raise (Transport (OtherTransportError m))
      | Fails e =>
          if attempt <? _max_retries self then
            wait <- lift (schedule attempt) ;;
            asyncio_sleep wait ;;;
            next (Some e)
          else
            raise (connection_error
                     ("Connection failed after " ++ str_of_int (_max_retries self + 1)
                      ++ " attempts: " ++ str_of_transport_error e))
      end
  end.

(** [async def request(method, path, json=..., data=..., files=..., params=..., timeout=...)] *)
Definition request (self : t) (a : args) : M value :=
  attempts self a (Z.to_nat (_max_retries self + 1)) 0 None.

(** [stream(method, path, json=...)]: entering the context. *)
Definition stream (self : t) (method : string) (path : text) (json : value)
    : M response :=
  r <- call (Open Yielding {| method := method; path := path; timeout := _STREAM_TIMEOUT;
                     kw_params := VNone; kw_files := None; kw_data := None;
                     kw_json := Some json |}) ;;
  match r with
  | Response resp => ret resp
  | Fails e => raise (Transport e)
  end.

End AsyncHTTPClient.

(* ********************************************************************** *)
(** * [leanvox/types.py] *)

Module GenerateResult.
Import Py.

Record t : Type := {
  audio_url : value;
  model : value;
  voice : value;
  characters : value;
  cost_cents : value;
  generated_voice_id : value;
  suggestion : value;
  _http_client : bool  (* the raw transport handle is attached *)
}.

End GenerateResult.

Module Job.
Import Py Errors.

Record t : Type := {
  id : value;
  status : value;
  estimated_seconds : value;
  audio_url : value;
  error : value
}.

(** A [Job] from the entries of [data.items()] whose key is a field of the
    dataclass, passed as keyword arguments; [id] and [status] have no
    default. *)
Definition of_data (data : value) : result t :=
  match data with
  | VDict d =>
      match lookup "id" d, lookup "status" d with
      | Some i, Some s =>
          Ok {| id := i; status := s;
                estimated_seconds := dict_get d "estimated_seconds" (VInt 0);
                audio_url := dict_get d "audio_url" (VStr "");
                error := dict_get d "error" (VStr "") |}
      | _, _ => Raise (TypeError "missing required argument")
      end
  | _ => Raise (AttributeError "items")
  end.

End Job.

(* ********************************************************************** *)
(** * [leanvox/client.py] *)

Module Client.
Import Py Errors Http.

Definition _DEFAULT_BASE_URL : string := "https://api.leanvox.com".
Definition _DEFAULT_TIMEOUT : float := of_Z 30.
Definition _DEFAULT_MAX_RETRIES : Z := 2.
Definition _DEFAULT_AUTO_ASYNC_THRESHOLD : Z := 5000.

Definition invalid_request (m : text) : exn :=
  Leanvox (init InvalidRequestError (Msg m) (VStr "invalid_request") 400 VNone).

Definition half : float := Finite (1 # 2).

Definition empty_text : exn :=
  invalid_request (Str "Text cannot be empty").
Definition text_too_long (text : string) : exn :=
  invalid_request
    (fmt "Text exceeds maximum of 10,000 characters (got " (VInt (len text)) ")").
Definition unknown_model (model : string) : exn :=
  invalid_request (fmt "Model must be 'standard' or 'pro', got '" (VStr model) "'").
Definition speed_out_of_range (speed : float) : exn :=
  invalid_request (fmt "Speed must be between 0.5 and 2.0, got " (VFloat speed) "").
Definition exaggeration_pro_only : exn :=
  invalid_request
    (Str ("exaggeration is only supported on the 'pro' model. "
          ++ "Use model='pro' or remove the exaggeration parameter.")).
Definition exaggeration_out_of_range (exaggeration : float) : exn :=
  invalid_request
    (fmt "Exaggeration must be between 0.0 and 1.0, got " (VFloat exaggeration) "").

(** [_validate_generate_params(text, model, speed, exaggeration)] *)
Definition _validate_generate_params (text model : string) (speed exaggeration : float)
    : result unit :=
  if negb (truthy (VStr text)) then Raise empty_text
  else if 10000 <? len text then Raise (text_too_long text)
  else if negb ((model =? "standard")%string || (model =? "pro")%string) then
    Raise (unknown_model model)
  else if negb (float_le half speed && float_le speed (of_Z 2)) then
    Raise (speed_out_of_range speed)
  else if (model =? "standard")%string && float_ne exaggeration half then
    Raise exaggeration_pro_only
  else if negb (float_le (of_Z 0) exaggeration && float_le exaggeration (of_Z 1)) then
    Raise (exaggeration_out_of_range exaggeration)
  else Ok tt.

(** The keyword arguments of [generate], [generate_async] and [stream]. *)
Record params : Type := {
  model : string;
  voice : string;
  language : string;
  format : string;
  speed : float;
  exaggeration : float
}.

Definition defaults : params :=
  {| model := "standard"; voice := ""; language := "en"; format := "mp3";
     speed := of_Z 1; exaggeration := half |}.

(** [_build_generate_body(text, model, voice, language, format, speed, exaggeration)] *)
Definition _build_generate_body (text model voice language format : string)
    (speed exaggeration : float) : list (string * value) :=
  ([("text", VStr text); ("model", VStr model); ("language", VStr language);
    ("format", VStr format); ("speed", VFloat speed)]
   ++ (if truthy (VStr voice) then [("voice", VStr voice)] else [])
   ++ (if (model =? "pro")%string then [("exaggeration", VFloat exaggeration)] else []))%list.

(** ** [class Leanvox] *)

Record t : Type := {
  _api_key : option value;
  _base_url : string;
  _timeout : float;
  _max_retries : Z;
  _auto_async_threshold : Z
}.

(** [Leanvox(api_key, base_url=..., timeout=..., max_retries=..., auto_async_threshold=...)] *)
Definition init (api_key : option string) (env : Auth.environment) (base_url : string)
    (timeout : float) (max_retries auto_async_threshold : Z) : result t :=
  bind (Auth.resolve_api_key api_key env) (fun key =>
  Ok {| _api_key := key; _base_url := base_url; _timeout := timeout;
        _max_retries := max_retries; _auto_async_threshold := auto_async_threshold |}).

(** [self._get_http()]; the executor it builds is the same at every call. *)
Definition _get_http (self : t) : result HTTPClient.t :=
  bind (Auth.ensure_api_key (_api_key self)) (fun key =>
  Ok (HTTPClient.init (_base_url self) key (_timeout self) (_max_retries self))).

(** [self.generate_async(text, ..., webhook_url=...)] *)
Definition generate_async (self : t) (text : string) (p : params) (webhook_url : string)
    : M Job.t :=
  lift (_validate_generate_params text (model p) (speed p) (exaggeration p)) ;;;
  let body := (_build_generate_body text (model p) (voice p) (language p) (format p)
                 (speed p) (exaggeration p)
               ++ (if truthy (VStr webhook_url) then [("webhook_url", VStr webhook_url)]
                   else []))%list in
  http <- lift (_get_http self) ;;
  data <- HTTPClient.request http (simple "POST" (Str "/v1/tts/generate-async") (VDict body)) ;;
  match data with
  | VDict d =>
      ret {| Job.id := dict_get d "id" (VStr "");
             Job.status := dict_get d "status" (VStr "pending");
             Job.estimated_seconds := dict_get d "estimated_seconds" (VInt 0);
             Job.audio_url := VStr "";
             Job.error := VStr "" |}
  | _ => raise (AttributeError "get")
  end.

(** [self.get_job(job_id)] *)
Definition get_job (self : t) (job_id : value) : M Job.t :=
  http <- lift (_get_http self) ;;
  data <- HTTPClient.request http (simple "GET" (fmt "/v1/jobs/" job_id "") VNone) ;;
  lift (Job.of_data data).

Definition terminal (job : Job.t) : bool :=
  eq_str (Job.status job) "completed" || eq_str (Job.status job) "failed".

(** The [while job.status not in ("completed", "failed")] loop of
    [generate], run for at most [fuel] polls; [None] when the job is still
    not terminal after them. *)
Fixpoint poll (self : t) (fuel : nat) (job : Job.t) : M (option Job.t) :=
  if terminal job then ret (Some job)
  else
    match fuel with
    | O => ret None
    | S fuel' =>
        time_sleep (of_Z 2) ;;;
        job' <- get_job self (Job.id job) ;;
        poll self fuel' job'
    end.

(** [self.generate(text, ...)], polling at most [fuel] times. *)
Definition generate (self : t) (fuel : nat) (text : string) (p : params)
    : M (option GenerateResult.t) :=
  lift (_validate_generate_params text (model p) (speed p) (exaggeration p)) ;;;
  if _auto_async_threshold self <? len text then
    job0 <- generate_async self text p "" ;;
    polled <- poll self fuel job0 ;;
    match polled with
    | None => ret None
    | Some job =>
        if eq_str (Job.status job) "failed" then
          raise (Leanvox (Errors.init InvalidRequestError
                            (MsgValue (or_else (Job.error job) (VStr "Async generation failed")))
                            (VStr "job_failed") 400 VNone))
        else
          http <- lift (_get_http self) ;;
          ret (Some {| GenerateResult.audio_url := Job.audio_url job;
                       GenerateResult.model := VStr (model p);
                       GenerateResult.voice := VStr (voice p);
                       GenerateResult.characters := VInt (len text);
                       GenerateResult.cost_cents := VInt 0;
                       GenerateResult.generated_voice_id := VNone;
                       GenerateResult.suggestion := VNone;
                       GenerateResult._http_client := true |})
    end
  else
    let body := _build_generate_body text (model p) (voice p) (language p) (format p)
                  (speed p) (exaggeration p) in
    http <- lift (_get_http self) ;;
    data <- HTTPClient.request http (simple "POST" (Str "/v1/tts/generate") (VDict body)) ;;
    match data with
    | VDict d =>
        ret (Some {| GenerateResult.audio_url := dict_get d "audio_url" (VStr "");
                     GenerateResult.model := dict_get d "model" (VStr (model p));
                     GenerateResult.voice := dict_get d "voice" (VStr (voice p));
                     GenerateResult.characters := dict_get d "characters" (VInt 0);
                     GenerateResult.cost_cents := dict_get d "cost_cents" (VInt 0);
                     GenerateResult.generated_voice_id := VNone;
                     GenerateResult.suggestion := VNone;
                     GenerateResult._http_client := true |})
    | _ => raise (AttributeError "get")
    end.

(** [resp.raise_for_status()] of the transport's response. *)
Definition raise_for_status (resp : response) : result unit :=
  if (200 <=? status_code resp) && (status_code resp <=? 299) then Ok tt
  else Raise (HTTPStatusError (status_code resp)).

(** [self.stream(text, ...)]: entering the context; the result is the
    live sequence [resp.iter_bytes(chunk_size=4096)]. *)
Definition stream (self : t) (text : string) (p : params) : M (list chunk) :=
  if negb (lower (format p) =? "mp3")%string then
    raise (Leanvox (Errors.init StreamingFormatError
                      (Msg (Str ("Streaming only supports MP3 format. "
                                 ++ "Got format='" ++ format p
                                 ++ "'. Use generate() for other formats.")))
                      (VStr "streaming_format_error") 400 VNone))
  else
    lift (_validate_generate_params text (model p) (speed p) (exaggeration p)) ;;;
    let body := _build_generate_body text (model p) (voice p) (language p) "mp3"
                  (speed p) (exaggeration p) in
    http <- lift (_get_http self) ;;
    resp <- HTTPClient.stream http "POST" (Str "/v1/tts/stream") (VDict body) ;;
    lift (raise_for_status resp) ;;;
    ret (iter_bytes resp).

(** The parameters [p] with another [format]. *)
Definition with_format (p : params) (format : string) : params :=
  {| model := model p; voice := voice p; language := language p; format := format;
     speed := speed p; exaggeration := exaggeration p |}.

End Client.

(* ********************************************************************** *)
(** * The specification's wording

    Definitions that follow the text of the specification, to compare with
    the ones above. *)

Module Spec.
Import Py Errors Http.

(** "attempt 0 -> 1.0s, attempt 1 -> 2.0s, attempt 2 and beyond -> 4.0s" *)
Definition fixed_schedule (attempt : Z) : float :=
  if attempt =? 0 then of_Z 1
  else if attempt =? 1 then of_Z 2
  else of_Z 4.

Definition non_negative (f : float) : bool := float_le (of_Z 0) f.

(** "if the response carries a Retry-After header with a parseable
    non-negative number, sleep that many seconds; otherwise use the fixed
    schedule" *)
Definition backoff (attempt : Z) (retry_after : option string) : float :=
  match retry_after with
  | Some s =>
      match float_of_str s with
      | Some f => if non_negative f then f else fixed_schedule attempt
      | None => fixed_schedule attempt
      end
  | None => fixed_schedule attempt
  end.

(** The header's number whatever its sign, the schedule when there is
    none. *)
Definition backoff_any_sign (attempt : Z) (retry_after : option string) : float :=
  match retry_after with
  | Some s =>
      match float_of_str s with
      | Some f => f
      | None => fixed_schedule attempt
      end
  | None => fixed_schedule attempt
  end.

(** "applied in this exact order, first failure wins": a list of checks,
    each with the error raised when it does not hold. *)
Fixpoint first_failure (checks : list (bool * exn)) : result unit :=
  match checks with
  | [] => Ok tt
  | (holds, e) :: rest => if holds then first_failure rest else Raise e
  end.

Definition in_range (lo x hi : float) : bool := float_le lo x && float_le x hi.

Definition checks (text model : string) (speed exaggeration : float) : list (bool * exn) :=
  [ (negb (text =? "")%string, Client.empty_text);
    (len text <=? 10000, Client.text_too_long text);
    ((model =? "standard")%string || (model =? "pro")%string, Client.unknown_model model);
    (in_range Client.half speed (of_Z 2), Client.speed_out_of_range speed);
    (implb (model =? "standard")%string (float_eq exaggeration Client.half),
     Client.exaggeration_pro_only);
    (in_range (of_Z 0) exaggeration (of_Z 1), Client.exaggeration_out_of_range exaggeration) ].

Definition is_invalid_request (e : exn) : bool :=
  match e with
  | Leanvox err => error_class_eqb (cls err) InvalidRequestError
  | _ => false
  end.






(** "body is {error: {message, code, ...}} or unparseable raw text": the
    body does not decode, or decodes to an object whose [error] member, when
    there is one, is an object. *)
Definition error_object_or_raw_text (resp : response) : bool :=
  match json resp with
  | None => true
  | Some (VDict d) =>
      match lookup "error" d with
      | None | Some (VDict _) => true
      | Some _ => false
      end
  | Some _ => false
  end.

(** Network attempts and sleeps among the effects of a call. *)
Definition is_send (e : event) : bool :=
  match e with Send _ _ => true | _ => false end.
Definition is_open (e : event) : bool :=
  match e with Open _ _ => true | _ => false end.
Definition is_sleep (e : event) : bool :=
  match e with Sleep _ _ => true | _ => false end.

Definition attempts_made (t : list event) : nat := List.length (filter is_send t).
Definition opens_made (t : list event) : nat := List.length (filter is_open t).
Definition sleeps_made (t : list event) : nat := List.length (filter is_sleep t).

End Spec.

(* ********************************************************************** *)
(** * Concrete clients and servers used in the examples *)

Module Examples.
Import Py Errors Http.

(** A buffered response; of a JSON body only the decoded value is spelled
    out, its text is abbreviated. *)
Definition response_with (status : Z) (retry_after : option string) (content : string)
    (json : option value) : response :=
  {| status_code := status; header_Retry_After := retry_after; content := content;
     json := json; iter_bytes := [] |}.

(** [httpx.Response(500, json={"error": {"message": "err"}})] *)
Definition internal_error : response :=
  response_with 500 None "{...}"
    (Some (VDict [("error", VDict [("message", VStr "err")])])).

(** A 500 whose body is not JSON. *)
Definition raw_internal_error : response :=
  response_with 500 None "Internal Server Error" None.

(** A 500 with no body at all. *)
Definition empty_internal_error : response :=
  response_with 500 None "" None.

Definition unauthorized : response :=
  response_with 401 None "Unauthorized" None.

Definition always (r : response) : nat -> reply := fun _ => Response r.

(** [HTTPClient(base_url=..., api_key="lv_test_k", timeout=30.0, max_retries=n)] *)
Definition executor (max_retries : Z) : HTTPClient.t :=
  HTTPClient.init "https://api.leanvox.com" (VStr "lv_test_k") (of_Z 30) max_retries.

Definition list_jobs : args := simple "GET" (Str "/v1/jobs") VNone.

(** [Leanvox(api_key="lv_test_k", max_retries=..., auto_async_threshold=...)] *)
Definition leanvox (max_retries auto_async_threshold : Z) : Client.t :=
  {| Client._api_key := Some (VStr "lv_test_k");
     Client._base_url := Client._DEFAULT_BASE_URL;
     Client._timeout := Client._DEFAULT_TIMEOUT;
     Client._max_retries := max_retries;
     Client._auto_async_threshold := auto_async_threshold |}.

Definition job_pending : response :=
  response_with 200 None "{...}"
    (Some (VDict [("id", VStr "job_123"); ("status", VStr "pending");
                  ("estimated_seconds", VInt 10)])).

Definition job_completed : response :=
  response_with 200 None "{...}"
    (Some (VDict [("id", VStr "job_123"); ("status", VStr "completed");
                  ("audio_url", VStr "https://cdn.leanvox.com/audio/done.mp3")])).

(** The job is accepted, and completed at the first poll. *)
Definition submit_then_completed (n : nat) : reply :=
  match n with
  | O => Response job_pending
  | S _ => Response job_completed
  end.

Definition audio : response :=
  {| status_code := 200; header_Retry_After := None; content := "";
     json := None; iter_bytes := [Bytes "audio"] |}.

(** The connection is refused once; every later call would be served. *)
Definition refused_once (n : nat) : reply :=
  match n with
  | O => Fails (ConnectError "Connection refused")
  | S _ => Response audio
  end.

End Examples.

(* ********************************************************************** *)
(** * Iteration and dataclasses *)

Module Dataclass.
Import Py Errors.

(** [for x in v]: the elements of a list, the characters of a [str], the
    keys of a dict; any other value is not iterable. *)
Definition iterate (v : value) : result (list value) :=
  match v with
  | VList l => Ok l
  | VStr s => Ok (map (fun c => VStr (String c EmptyString)) (list_ascii_of_string s))
  | VDict d => Ok (map (fun kv => VStr (fst kv)) d)
  | _ => Raise (TypeError "object is not iterable")
  end.

(** [[f(x) for x in l]]: the first exception ends the comprehension. *)
Fixpoint comprehension {A : Type} (f : value -> result A) (l : list value)
    : result (list A) :=
  match l with
  | [] => Ok []
  | x :: rest =>
      bind (f x) (fun y =>
      bind (comprehension f rest) (fun ys => Ok (y :: ys)))
  end.

(** The fields of a dataclass in the order of their declaration, each with
    its default when it has one. *)
Definition fields : Type := list (string * option value).

(** An instance: the value of each field, in the order of the fields. *)
Definition instance : Type := list (string * value).

Definition is_field (fs : fields) (k : string) : bool :=
  existsb (fun f => (fst f =? k)%string) fs.

Fixpoint fill (fs : fields) (kwargs : list (string * value)) : result instance :=
  match fs with
  | [] => Ok []
  | (name, default) :: rest =>
      match lookup name kwargs, default with
      | Some v, _ | None, Some v => bind (fill rest kwargs) (fun i => Ok ((name, v) :: i))
      | None, None => Raise (TypeError "missing required argument")
      end
  end.

(** The class called with a dict unpacked as keyword arguments: a key that
    is not a field, or a field without default that is not given, is a
    [TypeError]. *)
Definition construct (fs : fields) (kwargs : list (string * value)) : result instance :=
  if forallb (fun kv => is_field fs (fst kv)) kwargs then fill fs kwargs
  else Raise (TypeError "unexpected keyword argument").

(** The class called with any value unpacked: only a mapping can be. *)
Definition construct_from (fs : fields) (v : value) : result instance :=
  match v with
  | VDict kwargs => construct fs kwargs
  | _ => Raise (TypeError "argument after ** must be a mapping")
  end.

(** The dict comprehension that keeps the entries of [data.items()] whose
    key is a field, passed as keyword arguments. *)
Definition construct_filtered (fs : fields) (data : value) : result instance :=
  match data with
  | VDict d => construct fs (filter (fun kv => is_field fs (fst kv)) d)
  | _ => Raise (AttributeError "items")
  end.

(** [instance.name] *)
Definition attr (i : instance) (name : string) : value := dict_get i name VNone.

(** [instance.name = v] on a field of the instance. *)
Fixpoint set_attr (i : instance) (name : string) (v : value) : instance :=
  match i with
  | [] => []
  | (k, old) :: rest =>
      if (k =? name)%string then (k, v) :: rest else (k, old) :: set_attr rest name v
  end.

Definition Voice : fields :=
  [ ("voice_id", None); ("name", None); ("model", Some (VStr "standard"));
    ("language", Some (VStr "en")); ("status", Some (VStr "active"));
    ("description", Some (VStr "")); ("preview_url", Some (VStr ""));
    ("unlock_cost_cents", Some (VInt 0)) ].

Definition FileExtractResult : fields :=
  [ ("text", None); ("filename", None); ("char_count", None);
    ("truncated", Some (VBool false)) ].

Definition Generation : fields :=
  [ ("id", None); ("audio_url", Some (VStr "")); ("model", Some (VStr ""));
    ("voice", Some (VStr "")); ("characters", Some (VInt 0));
    ("cost_cents", Some (VInt 0)); ("created_at", Some (VStr "")) ].

Definition AccountBalance : fields :=
  [ ("balance_cents", None); ("total_spent_cents", None) ].

Definition VoiceDesign : fields :=
  [ ("id", None); ("name", None); ("status", Some (VStr ""));
    ("cost_cents", Some (VInt 0)) ].

End Dataclass.

(* ********************************************************************** *)
(** * [leanvox/client.py]: the other methods of [Leanvox], and
      [AsyncLeanvox] *)

Module Leanvox.
Import Py Errors Http.

(** [self.dialogue(lines, model=..., gap_ms=...)] *)
Definition dialogue (self : Client.t) (lines : list value) (model : string) (gap_ms : Z)
    : M GenerateResult.t :=
  if Z.of_nat (List.length lines) <? 2 then
    raise (Client.invalid_request (Str "Dialogue requires at least 2 lines"))
  else
    let body := [("model", VStr model); ("lines", VList lines); ("gap_ms", VInt gap_ms)] in
    http <- lift (Client._get_http self) ;;
    data <- HTTPClient.request http (simple "POST" (Str "/v1/tts/dialogue") (VDict body)) ;;
    match data with
    | VDict d =>
        ret {| GenerateResult.audio_url := dict_get d "audio_url" (VStr "");
               GenerateResult.model := dict_get d "model" (VStr model);
               GenerateResult.voice := VStr "dialogue";
               GenerateResult.characters := dict_get d "characters" (VInt 0);
               GenerateResult.cost_cents := dict_get d "cost_cents" (VInt 0);
               GenerateResult.generated_voice_id := VNone;
               GenerateResult.suggestion := VNone;
               GenerateResult._http_client := true |}
    | _ => raise (AttributeError "get")
    end.

(** [self.list_jobs()] *)
Definition list_jobs (self : Client.t) : M (list Job.t) :=
  http <- lift (Client._get_http self) ;;
  data <- HTTPClient.request http (simple "GET" (Str "/v1/jobs") VNone) ;;
  match data with
  | VDict d =>
      jobs <- lift (Dataclass.iterate (dict_get d "jobs" (VList []))) ;;
      lift (Dataclass.comprehension Job.of_data jobs)
  | _ => raise (AttributeError "get")
  end.

End Leanvox.

Module AsyncLeanvox.
Import Py Errors Http.

Record t : Type := {
  _api_key : option value;
  _base_url : string;
  _timeout : float;
  _max_retries : Z;
  _auto_async_threshold : Z
}.

(** [AsyncLeanvox(api_key, base_url=..., timeout=..., max_retries=..., auto_async_threshold=...)] *)
Definition init (api_key : option string) (env : Auth.environment) (base_url : string)
    (timeout : float) (max_retries auto_async_threshold : Z) : result t :=
  bind (Auth.resolve_api_key api_key env) (fun key =>
  Ok {| _api_key := key; _base_url := base_url; _timeout := timeout;
        _max_retries := max_retries; _auto_async_threshold := auto_async_threshold |}).

(** [self._get_http()] *)
Definition _get_http (self : t) : result AsyncHTTPClient.t :=
  bind (Auth.ensure_api_key (_api_key self)) (fun key =>
  Ok (AsyncHTTPClient.init (_base_url self) key (_timeout self) (_max_retries self))).

(** [await self.generate(text, ...)] *)
Definition generate (self : t) (text : string) (p : Client.params)
    : M GenerateResult.t :=
  lift (Client._validate_generate_params text (Client.model p) (Client.speed p)
          (Client.exaggeration p)) ;;;
  let body := Client._build_generate_body text (Client.model p) (Client.voice p)
                (Client.language p) (Client.format p) (Client.speed p)
                (Client.exaggeration p) in
  http <- lift (_get_http self) ;;
  data <- AsyncHTTPClient.request http (simple "POST" (Str "/v1/tts/generate") (VDict body)) ;;
  match data with
  | VDict d =>
      ret {| GenerateResult.audio_url := dict_get d "audio_url" (VStr "");
             GenerateResult.model := dict_get d "model" (VStr (Client.model p));
             GenerateResult.voice := dict_get d "voice" (VStr (Client.voice p));
             GenerateResult.characters := dict_get d "characters" (VInt 0);
             GenerateResult.cost_cents := dict_get d "cost_cents" (VInt 0);
             GenerateResult.generated_voice_id := VNone;
             GenerateResult.suggestion := VNone;
             GenerateResult._http_client := false |}
  | _ => raise (AttributeError "get")
  end.

(** [await self.dialogue(lines, model=..., gap_ms=...)] *)
Definition dialogue (self : t) (lines : list value) (model : string) (gap_ms : Z)
    : M GenerateResult.t :=
  if Z.of_nat (List.length lines) <? 2 then
    raise (Client.invalid_request (Str "Dialogue requires at least 2 lines"))
  else
    let body := [("model", VStr model); ("lines", VList lines); ("gap_ms", VInt gap_ms)] in
    http <- lift (_get_http self) ;;
    data <- AsyncHTTPClient.request http (simple "POST" (Str "/v1/tts/dialogue") (VDict body)) ;;
    match data with
    | VDict d =>
        ret {| GenerateResult.audio_url := dict_get d "audio_url" (VStr "");
               GenerateResult.model := dict_get d "model" (VStr model);
               GenerateResult.voice := VStr "dialogue";
               GenerateResult.characters := dict_get d "characters" (VInt 0);
               GenerateResult.cost_cents := dict_get d "cost_cents" (VInt 0);
               GenerateResult.generated_voice_id := VNone;
               GenerateResult.suggestion := VNone;
               GenerateResult._http_client := false |}
    | _ => raise (AttributeError "get")
    end.

(** [await self.generate_async(text, ..., webhook_url=...)] *)
Definition generate_async (self : t) (text : string) (p : Client.params)
    (webhook_url : string) : M Job.t :=
  lift (Client._validate_generate_params text (Client.model p) (Client.speed p)
          (Client.exaggeration p)) ;;;
  let body := (Client._build_generate_body text (Client.model p) (Client.voice p)
                 (Client.language p) (Client.format p) (Client.speed p)
                 (Client.exaggeration p)
               ++ (if truthy (VStr webhook_url) then [("webhook_url", VStr webhook_url)]
                   else []))%list in
  http <- lift (_get_http self) ;;
  data <- AsyncHTTPClient.request http
            (simple "POST" (Str "/v1/tts/generate-async") (VDict body)) ;;
  match data with
  | VDict d =>
      ret {| Job.id := dict_get d "id" (VStr "");
             Job.status := dict_get d "status" (VStr "pending");
             Job.estimated_seconds := dict_get d "estimated_seconds" (VInt 0);
             Job.audio_url := VStr "";
             Job.error := VStr "" |}
  | _ => raise (AttributeError "get")
  end.

(** [await self.get_job(job_id)] *)
Definition get_job (self : t) (job_id : value) : M Job.t :=
  http <- lift (_get_http self) ;;
  data <- AsyncHTTPClient.request http (simple "GET" (fmt "/v1/jobs/" job_id "") VNone) ;;
  lift (Job.of_data data).

(** [await self.list_jobs()] *)
Definition list_jobs (self : t) : M (list Job.t) :=
  http <- lift (_get_http self) ;;
  data <- AsyncHTTPClient.request http (simple "GET" (Str "/v1/jobs") VNone) ;;
  match data with
  | VDict d =>
      jobs <- lift (Dataclass.iterate (dict_get d "jobs" (VList []))) ;;
      lift (Dataclass.comprehension Job.of_data jobs)
  | _ => raise (AttributeError "get")
  end.

End AsyncLeanvox.

(* ********************************************************************** *)
(** * [leanvox/_resources.py] *)

Module Resources.
Import Py Errors Http.

(** [self._http.request(method, path, params=params)] *)
Definition with_params (method : string) (path : text) (params : value) : args :=
  {| a_method := method; a_path := path; a_json := VNone; a_data := VNone;
     a_files := VNone; a_params := params; a_timeout := None |}.

(** [self._http.request(method, path, data=data, files=files)] *)
Definition with_files (method : string) (path : text) (data files : value) : args :=
  {| a_method := method; a_path := path; a_json := VNone; a_data := data;
     a_files := files; a_params := VNone; a_timeout := None |}.

(** The comprehension that builds the class from each element of
    [data.get(key, [])], unpacked as keyword arguments. *)
Definition instances (fs : Dataclass.fields) (d : list (string * value)) (key : string)
    : result (list Dataclass.instance) :=
  bind (Dataclass.iterate (dict_get d key (VList []))) (fun l =>
  Dataclass.comprehension (Dataclass.construct_from fs) l).

(** ** [class VoicesResource] *)

Module VoicesResource.

Record VoiceList : Type := {
  standard_voices : list Dataclass.instance;
  pro_voices : list Dataclass.instance;
  cloned_voices : list Dataclass.instance
}.

(** [self.list(model=...)] *)
Definition list_ (http : HTTPClient.t) (model : option string) : M VoiceList :=
  let params := match model with
                | Some m => if truthy (VStr m) then VDict [("model", VStr m)] else VNone
                | None => VNone
                end in
  data <- HTTPClient.request http (with_params "GET" (Str "/v1/voices") params) ;;
  match data with
  | VDict d =>
      s <- lift (instances Dataclass.Voice d "standard_voices") ;;
      p <- lift (instances Dataclass.Voice d "pro_voices") ;;
      c <- lift (instances Dataclass.Voice d "cloned_voices") ;;
      ret {| standard_voices := s; pro_voices := p; cloned_voices := c |}
  | _ => raise (AttributeError "get")
  end.

(** [self.list_curated()] *)
Definition list_curated (http : HTTPClient.t) : M (list Dataclass.instance) :=
  data <- HTTPClient.request http (simple "GET" (Str "/v1/voices/curated") VNone) ;;
  match data with
  | VDict d => lift (instances Dataclass.Voice d "voices")
  | _ => raise (AttributeError "get")
  end.

(** [self.unlock(voice_id)] *)
Definition unlock (http : HTTPClient.t) (voice_id : value) : M value :=
  HTTPClient.request http (simple "POST" (fmt "/v1/voices/" voice_id "/unlock") VNone).

(** The [audio] argument of [clone]: a base64 [str], or an open binary
    file. *)
Inductive audio : Type :=
| Base64 (s : string)
| File (content : string).

(** [self.clone(name, audio, description=..., auto_unlock=...)] *)
Definition clone (http : HTTPClient.t) (name : string) (a : audio) (description : string)
    (auto_unlock : bool) : M Dataclass.instance :=
  data <- match a with
          | Base64 s =>
              HTTPClient.request http
                (simple "POST" (Str "/v1/voices/clone")
                   (VDict [("name", VStr name); ("audio_base64", VStr s);
                           ("description", VStr description)]))
          | File content =>
              HTTPClient.request http
                (with_files "POST" (Str "/v1/voices/clone")
                   (VDict [("name", VStr name); ("description", VStr description)])
                   (VDict [("audio", VList [VStr "audio.wav"; VStr content;
                                            VStr "audio/wav"])]))
          end ;;
  voice <- lift (Dataclass.construct_filtered Dataclass.Voice data) ;;
  if auto_unlock && eq_str (Dataclass.attr voice "status") "pending_unlock" then
    unlock http (Dataclass.attr voice "voice_id") ;;;
    ret (Dataclass.set_attr voice "status" (VStr "active"))
  else ret voice.

(** [self.design(name, prompt, language=..., description=...)] *)
Definition design (http : HTTPClient.t) (name prompt language description : string)
    : M Dataclass.instance :=
  let body := ([("name", VStr name); ("prompt", VStr prompt)]
               ++ (if truthy (VStr language) then [("language", VStr language)] else [])
               ++ (if truthy (VStr description) then [("description", VStr description)]
                   else []))%list in
  data <- HTTPClient.request http (simple "POST" (Str "/v1/voices/design") (VDict body)) ;;
  lift (Dataclass.construct_filtered Dataclass.VoiceDesign data).

(** [self.list_designs()] *)
Definition list_designs (http : HTTPClient.t) : M (list Dataclass.instance) :=
  data <- HTTPClient.request http (simple "GET" (Str "/v1/voices/designs") VNone) ;;
  match data with
  | VDict d => lift (instances Dataclass.VoiceDesign d "designs")
  | _ => raise (AttributeError "get")
  end.

(** [self.delete(voice_id)] *)
Definition delete (http : HTTPClient.t) (voice_id : value) : M unit :=
  HTTPClient.request http (simple "DELETE" (fmt "/v1/voices/" voice_id "") VNone) ;;;
  ret tt.

End VoicesResource.

(** ** [class FilesResource] *)

Module FilesResource.

(** An open binary file: its [name] attribute when it has one, and its
    content. *)
Record file : Type := {
  name : option string;
  content : string
}.

(** [self.extract_text(file)] *)
Definition extract_text (http : HTTPClient.t) (f : file) : M Dataclass.instance :=
  let files := VDict [("file", VList [VStr (match name f with
                                            | Some n => n
                                            | None => "upload"
                                            end);
                                      VStr (content f)])] in
  data <- HTTPClient.request http
            (with_files "POST" (Str "/v1/files/extract-text") VNone files) ;;
  lift (Dataclass.construct_filtered Dataclass.FileExtractResult data).

End FilesResource.

(** ** [class GenerationsResource] *)

Module GenerationsResource.

Record GenerationList : Type := {
  generations : list Dataclass.instance;
  total : value
}.

(** [self.list(limit=..., offset=...)] *)
Definition list_ (http : HTTPClient.t) (limit offset : Z) : M GenerationList :=
  data <- HTTPClient.request http
            (with_params "GET" (Str "/v1/generations")
               (VDict [("limit", VInt limit); ("offset", VInt offset)])) ;;
  match data with
  | VDict d =>
      g <- lift (instances Dataclass.Generation d "generations") ;;
      ret {| generations := g; total := dict_get d "total" (VInt 0) |}
  | _ => raise (AttributeError "get")
  end.

(** [self.get_audio(generation_id)] *)
Definition get_audio (http : HTTPClient.t) (generation_id : value) : M Dataclass.instance :=
  data <- HTTPClient.request http
            (simple "GET" (fmt "/v1/generations/" generation_id "/audio") VNone) ;;
  lift (Dataclass.construct_filtered Dataclass.Generation data).

(** [self.delete(generation_id)] *)
Definition delete (http : HTTPClient.t) (generation_id : value) : M unit :=
  HTTPClient.request http (simple "DELETE" (fmt "/v1/generations/" generation_id "") VNone) ;;;
  ret tt.

End GenerationsResource.

(** ** [class AccountResource] *)

Module AccountResource.

(** [self.balance()] *)
Definition balance (http : HTTPClient.t) : M Dataclass.instance :=
  data <- HTTPClient.request http (simple "GET" (Str "/v1/account/balance") VNone) ;;
  lift (Dataclass.construct_filtered Dataclass.AccountBalance data).

(** [self.usage(days=..., model=..., limit=...)]; the result is the
    [entries] of the [AccountUsage]. *)
Definition usage (http : HTTPClient.t) (days : Z) (model : option string) (limit : Z)
    : M value :=
  let params := ([("days", VInt days); ("limit", VInt limit)]
                 ++ match model with
                    | Some m => if truthy (VStr m) then [("model", VStr m)] else []
                    | None => []
                    end)%list in
  data <- HTTPClient.request http (with_params "GET" (Str "/v1/account/usage") (VDict params)) ;;
  match data with
  | VDict d => ret (dict_get d "entries" (VList []))
  | _ => raise (AttributeError "get")
  end.

(** [self.buy_credits(amount_cents)] *)
Definition buy_credits (http : HTTPClient.t) (amount_cents : Z) : M value :=
  HTTPClient.request http
    (simple "POST" (Str "/v1/billing/checkout") (VDict [("amount_cents", VInt amount_cents)])).

End AccountResource.

End Resources.

(* ********************************************************************** *)
(** * Kinds of replies *)

Module Replies.
Import Py Errors Http.

Definition caught (e : transport_error) : bool :=
  match e with
  | ConnectError _ | TimeoutException _ => true
  | OtherTransportError _ => false
  end.

(** The path and the method of the requests sent, in order. *)
Definition sent_to (t : list event) : list (string * text) :=
  flat_map (fun e => match e with
                     | Send _ r => [(method r, path r)]
                     | _ => []
                     end) t.

(** The durations slept, in order. *)
Definition slept (t : list event) : list float :=
  flat_map (fun e => match e with
                     | Sleep _ d => [d]
                     | _ => []
                     end) t.

(** The first [n] waits of the fixed schedule. *)
Fixpoint waits (from : Z) (n : nat) : list float :=
  match n with
  | O => []
  | S n' => Spec.fixed_schedule from :: waits (from + 1) n'
  end.

(** What a response with a status below 400 makes [request] return: the
    decoded body, an empty dict for an empty body; decoding may raise. *)
Definition parsed (resp : response) : result value :=
  if truthy (VStr (content resp)) then
    match json resp with
    | Some data => Ok data
    | None => Raise JSONDecodeError
    end
  else Ok empty_dict.

(** The class of the typed error of a status. *)
Definition class_of (status : Z) : error_class :=
  if status =? 400 then InvalidRequestError
  else if status =? 401 then AuthenticationError
  else if status =? 402 then InsufficientBalanceError
  else if status =? 404 then NotFoundError
  else if status =? 429 then RateLimitError
  else if status =? 500 then ServerError
  else LeanvoxError.

(** The result without the transport handle. *)
Definition detach (r : GenerateResult.t) : GenerateResult.t :=
  {| GenerateResult.audio_url := GenerateResult.audio_url r;
     GenerateResult.model := GenerateResult.model r;
     GenerateResult.voice := GenerateResult.voice r;
     GenerateResult.characters := GenerateResult.characters r;
     GenerateResult.cost_cents := GenerateResult.cost_cents r;
     GenerateResult.generated_voice_id := GenerateResult.generated_voice_id r;
     GenerateResult.suggestion := GenerateResult.suggestion r;
     GenerateResult._http_client := false |}.

(** The world [w'] is [w] after further effects. *)
Definition extends (w w' : world) : Prop :=
  exists evs n, w' = after w evs n.

(** The wait [_get_backoff] computes from the response is a duration
    [time.sleep] takes. *)
Definition accepted (resp : response) : bool :=
  match _get_backoff 0 (Some resp) with
  | Ok d => match sleep_error d with None => true | Some _ => false end
  | Raise _ => false
  end.

(** A reply after which the blocking executor, when an attempt is left,
    sleeps and tries again: a retryable status whose wait [time.sleep]
    takes, or a connection or timeout failure. *)
Definition retried (r : reply) : bool :=
  match r with
  | Response resp => retryable_status (status_code resp) && accepted resp
  | Fails e => caught e
  end.

(** A reply whose wait, were the executor to sleep on it, [time.sleep]
    takes. *)
Definition patient (r : reply) : bool :=
  match r with
  | Response resp => accepted resp
  | Fails _ => true
  end.

(** What the reply to the attempt number [attempt] makes a call allowed
    [max_retries] retries end with, [None] when the blocking executor
    sleeps and tries again: the decoded body of a status below 400; on a
    retryable status with an attempt left, the exception of [time.sleep]
    when it refuses the wait; the exception of [_raise_for_status] for any
    other status; the connection error for a connection or timeout failure
    with no attempt left; any other failure of the transport itself. *)
Definition ends (max_retries attempt : Z) (r : reply) : option (result value) :=
  match r with
  | Response resp =>
      if status_code resp <? 400 then Some (parsed resp)
      else if retryable_status (status_code resp) && (attempt <? max_retries) then
        match _get_backoff attempt (Some resp) with
        | Ok d => match sleep_error d with
                  | Some x => Some (Raise x)
                  | None => None
                  end
        | Raise x => Some (Raise x)
        end
      else Some (Errors.bind (_raise_for_status (status_code resp) (error_body resp))
                   (fun _ => Ok empty_dict))
  | Fails e =>
      if caught e then
        if attempt <? max_retries then None
        else Some (Raise (connection_error
                            ("Connection failed after " ++ str_of_int (max_retries + 1)
                             ++ " attempts: " ++ str_of_transport_error e)))
      else Some (Raise (Transport e))
  end.

(** The same request sent once more than there are [waits], with one sleep
    of each wait, in order, between two consecutive sends. *)
Fixpoint alternating (req : request_) (waits : list float) : list event :=
  match waits with
  | [] => [Send Blocking req]
  | d :: rest => Send Blocking req :: Sleep Blocking d :: alternating req rest
  end.

(** A server that answers [r] to the first [n] calls, then as [rest]
    answers. *)
Definition first_then (n : nat) (r : reply) (rest : nat -> reply) : nat -> reply :=
  fun i => if (i <? n)%nat then r else rest (i - n)%nat.

End Replies.

(* ********************************************************************** *)
(** * Properties *)

Import Py Errors Http.

(** ** Backoff *)

Lemma float_of_str_empty : float_of_str "" = None.
Proof. reflexivity. Qed.

Lemma schedule_fixed (attempt : Z) :
  0 <= attempt -> schedule attempt = Ok (Spec.fixed_schedule attempt).
Proof.
  intros H. unfold schedule, Spec.fixed_schedule.
  destruct (Z.eqb_spec attempt 0) as [-> | H0]; [reflexivity |].
  destruct (Z.eqb_spec attempt 1) as [-> | H1]; [reflexivity |].
  replace (Z.min attempt (Z.of_nat (length _BACKOFF_BASE) - 1)) with 2.
  - reflexivity.
  - simpl. lia.
Qed.

Lemma truthy_str_false (s : string) : truthy (VStr s) = false -> s = "".
Proof.
  simpl. destruct (String.eqb_spec s ""); [auto | discriminate].
Qed.

Lemma get_backoff_any_sign (attempt : Z) (resp : response) :
  0 <= attempt ->
  _get_backoff attempt (Some resp)
  = Ok (Spec.backoff_any_sign attempt (header_Retry_After resp)).
Proof.
  intros H. unfold _get_backoff, Spec.backoff_any_sign.
  destruct (header_Retry_After resp) as [s |]; [| now apply schedule_fixed].
  destruct (truthy (VStr s)) eqn:T.
  - destruct (float_of_str s); [reflexivity | now apply schedule_fixed].
  - apply truthy_str_false in T. subst s. rewrite float_of_str_empty.
    now apply schedule_fixed.
Qed.

(** ** Validation of the generation parameters *)

Lemma validate_first_failure (text model : string) (speed exaggeration : float) :
  Client._validate_generate_params text model speed exaggeration
  = Spec.first_failure (Spec.checks text model speed exaggeration).
Proof.
  unfold Client._validate_generate_params, Spec.checks, Spec.first_failure,
    Spec.in_range, float_ne.
  cbn [truthy].
  rewrite Z.leb_antisym.
  destruct (text =? "")%string; cbn [negb]; [reflexivity |].
  destruct (10000 <? Py.len text); cbn [negb]; [reflexivity |].
  destruct ((model =? "standard")%string || (model =? "pro")%string);
    cbn [negb]; [| reflexivity].
  destruct (float_le Client.half speed && float_le speed (of_Z 2));
    cbn [negb]; [| reflexivity].
  destruct (model =? "standard")%string, (float_eq exaggeration Client.half);
    cbn [negb andb implb]; try reflexivity;
    destruct (float_le (of_Z 0) exaggeration && float_le exaggeration (of_Z 1));
    reflexivity.
Qed.

Lemma checks_invalid_request (text model : string) (speed exaggeration : float) :
  Forall (fun c => Spec.is_invalid_request (snd c) = true)
         (Spec.checks text model speed exaggeration).
Proof.
  unfold Spec.checks. repeat constructor.
Qed.

(** C4: the validator is the first failure of the six checks taken in the
    specification's order, every failure is an [InvalidRequestError]; with
    the first four checks passing, model [standard] and an exaggeration
    outside [0, 1], the error is the pro-only one; and a call of [generate],
    [generate_async] or [stream] whose parameters fail a check raises that
    error without any effect on the world (no request, no sleep). *)
Theorem validation_order_before_io (text model : string) (speed exaggeration : float) :
  Client._validate_generate_params text model speed exaggeration
  = Spec.first_failure (Spec.checks text model speed exaggeration)
  /\ Forall (fun c => Spec.is_invalid_request (snd c) = true)
            (Spec.checks text model speed exaggeration)
  /\ (text <> "" -> Py.len text <= 10000 -> model = "standard" ->
      Spec.in_range Client.half speed (of_Z 2) = true ->
      Spec.in_range (of_Z 0) exaggeration (of_Z 1) = false ->
      Client._validate_generate_params text model speed exaggeration
      = Raise Client.exaggeration_pro_only)
  /\ (forall self fuel voice language format webhook_url w e,
        let p := {| Client.model := model; Client.voice := voice;
                    Client.language := language; Client.format := format;
                    Client.speed := speed; Client.exaggeration := exaggeration |} in
        Client._validate_generate_params text model speed exaggeration = Raise e ->
        Client.generate self fuel text p w = (Raise e, w)
        /\ Client.generate_async self text p webhook_url w = (Raise e, w)
        /\ (Py.lower format = "mp3" -> Client.stream self text p w = (Raise e, w))).
Proof.
  split; [apply validate_first_failure |].
  split; [apply checks_invalid_request |].
  split.
  - intros Ht Hl -> Hs He. rewrite validate_first_failure.
    unfold Spec.checks, Spec.first_failure.
    apply String.eqb_neq in Ht. apply Z.leb_le in Hl.
    rewrite Ht, Hl, Hs. cbn [negb orb String.eqb Ascii.eqb Bool.eqb].
    destruct (float_eq exaggeration Client.half) eqn:E; cbn [implb]; [| reflexivity].
    exfalso. unfold Spec.in_range in He.
    destruct exaggeration as [q | |]; cbn in E; try discriminate.
    apply Qeq_bool_iff in E.
    assert (H0 : Qle_bool 0 q = true) by (apply Qle_bool_iff; rewrite E; discriminate).
    assert (H1 : Qle_bool q 1 = true) by (apply Qle_bool_iff; rewrite E; discriminate).
    cbn [float_le of_Z] in He.
    change (inject_Z 0) with 0%Q in He. change (inject_Z 1) with 1%Q in He.
    rewrite H0, H1 in He. discriminate.
  - intros self fuel voice language format webhook_url w e p Hv.
    repeat split.
    + unfold Client.generate, mbind, lift. simpl. rewrite Hv. reflexivity.
    + unfold Client.generate_async, mbind, lift. simpl. rewrite Hv. reflexivity.
    + intros Hf. unfold Client.stream, mbind, lift. simpl. rewrite Hf, Hv. reflexivity.
Qed.

(** ** Credential resolution *)





(** The three sources at once, and each one alone. *)
Example resolve_api_key_ex :
  let file := Auth.Parsed [("api_key", VStr "lv_live_file");
                           ("auth", VDict [("api_key", VStr "lv_live_nested")])] in
  Auth.resolve_api_key (Some "lv_live_arg")
    {| Auth.environ_get := Some "lv_live_env"; Auth.config := file |}
  = Ok (Some (VStr "lv_live_arg"))
  /\ Auth.resolve_api_key None
       {| Auth.environ_get := Some "lv_live_env"; Auth.config := file |}
     = Ok (Some (VStr "lv_live_env"))
  /\ Auth.resolve_api_key None {| Auth.environ_get := None; Auth.config := file |}
     = Ok (Some (VStr "lv_live_file"))
  /\ Auth.resolve_api_key None
       {| Auth.environ_get := None;
          Auth.config := Auth.Parsed [("auth", VDict [("api_key", VStr "lv_live_nested")])] |}
     = Ok (Some (VStr "lv_live_nested"))
  /\ Auth.resolve_api_key None {| Auth.environ_get := None; Auth.config := Auth.Unreadable |}
     = Ok None.
Proof. repeat split. Qed.

(** ** Classification of error responses *)

Lemma or_else_dict (d : list (string * value)) : or_else (VDict d) empty_dict = VDict d.
Proof. destruct d; reflexivity. Qed.

Lemma raise_for_status_raises (status : Z) (body : value) :
  400 <= status -> exists e, _raise_for_status status body = Raise e.
Proof.
  intros H. unfold _raise_for_status.
  destruct (Z.ltb_spec status 400); [lia |].
  destruct body; try (eexists; reflexivity).
  destruct (dict_get d "error" (VDict d)); try (eexists; reflexivity).
  destruct (error_class_eqb _ InsufficientBalanceError); [eexists; reflexivity |].
  destruct (error_class_eqb _ RateLimitError); eexists; reflexivity.
Qed.

(** The typed error built from an error object. *)
Lemma raise_for_status_fields (status : Z) (d error_data : list (string * value)) :
  400 <= status ->
  dict_get d "error" (VDict d) = VDict error_data ->
  exists e,
    _raise_for_status status (VDict d) = Raise (Leanvox e)
    /\ cls e = map_get _ERROR_MAP status LeanvoxError
    /\ message e = MsgValue (dict_get error_data "message"
                                (VStr ("API error " ++ str_of_int status)))
    /\ code e = dict_get error_data "code" (VStr "unknown")
    /\ Errors.status_code e = status
    /\ body e = VDict d.
Proof.
  intros H He. unfold _raise_for_status.
  destruct (Z.ltb_spec status 400); [lia |].
  rewrite He.
  destruct (error_class_eqb _ InsufficientBalanceError);
    [| destruct (error_class_eqb _ RateLimitError)];
    eexists; (split; [reflexivity |]); cbn; rewrite or_else_dict; repeat split.
Qed.

(** A body in the shape of the interface always gives a typed error. *)
Lemma raise_for_status_typed (resp : response) :
  400 <= status_code resp ->
  Spec.error_object_or_raw_text resp = true ->
  exists e,
    _raise_for_status (status_code resp) (error_body resp) = Raise (Leanvox e)
    /\ cls e = map_get _ERROR_MAP (status_code resp) LeanvoxError
    /\ Errors.status_code e = status_code resp.
Proof.
  intros H Hs. unfold Spec.error_object_or_raw_text, error_body in *.
  destruct (json resp) as [[| | | | | | d] |]; try discriminate.
  - destruct (lookup "error" d) as [[| | | | | | ed] |] eqn:L; try discriminate.
    + destruct (raise_for_status_fields (status_code resp) d ed H) as (e & E & C & _ & _ & S & _).
      { unfold dict_get. rewrite L. reflexivity. }
      exists e. auto.
    + destruct (raise_for_status_fields (status_code resp) d d H) as (e & E & C & _ & _ & S & _).
      { unfold dict_get. rewrite L. reflexivity. }
      exists e. auto.
  - destruct (raise_for_status_fields (status_code resp)
                [("error", VDict [("message", VStr (text_of resp))])]
                [("message", VStr (text_of resp))] H eq_refl)
      as (e & E & C & _ & _ & S & _).
    exists e. auto.
Qed.

(** A decoded body that is not in the shape of the interface gives no
    typed error: [.get] fails on what is not an object. *)
Lemma raise_for_status_untyped (resp : response) :
  400 <= status_code resp ->
  Spec.error_object_or_raw_text resp = false ->
  _raise_for_status (status_code resp) (error_body resp) = Raise (AttributeError "get").
Proof.
  intros H Hs. unfold Spec.error_object_or_raw_text, error_body, _raise_for_status in *.
  destruct (Z.ltb_spec (status_code resp) 400); [lia |].
  destruct (json resp) as [[| | | | | | d] |]; try discriminate; try reflexivity.
  unfold dict_get.
  destruct (lookup "error" d) as [[| | | | | | ed] |]; try discriminate; reflexivity.
Qed.

(** ** One iteration of the retry loop *)

Lemma after_sent_S (w : world) (e : event) :
  {| server := server w; sent := S (sent w); trace := trace w ++ [e] |} = after w [e] 1.
Proof. unfold after. f_equal. apply eq_sym, Nat.add_1_r. Qed.

(** The iteration that ends the call with an error: the status is a 4xx
    other than 429, or it is not retried (not retryable, or no attempt is
    left). *)
Lemma attempts_raise (self : HTTPClient.t) (a : args) (todo : nat) (attempt : Z)
    (last_err : option transport_error) (w : world) (resp : response) :
  server w (sent w) = Response resp ->
  400 <= status_code resp ->
  ((status_code resp <? 500) && negb (status_code resp =? 429) = true
   \/ retryable_status (status_code resp) && (attempt <? HTTPClient._max_retries self) = false) ->
  exists e,
    _raise_for_status (status_code resp) (error_body resp) = Raise e
    /\ HTTPClient.attempts self a (S todo) attempt last_err w
       = (Raise e, after w [Send Blocking (build (HTTPClient._timeout self) a)] 1).
Proof.
  intros Hs H400 Hc.
  destruct (raise_for_status_raises (status_code resp) (error_body resp) H400) as [e He].
  exists e. split; [exact He |].
  cbn [HTTPClient.attempts]. unfold mbind at 1. unfold call at 1. rewrite Hs.
  rewrite after_sent_S.
  destruct (Z.ltb_spec (status_code resp) 400); [lia |].
  unfold mbind, lift, ret.
  destruct ((status_code resp <? 500) && negb (status_code resp =? 429)).
  - rewrite He. reflexivity.
  - destruct Hc as [Hc | Hc]; [discriminate |]. rewrite Hc, He. reflexivity.
Qed.

(** ** Sleeping *)

Lemma time_sleep_accepted (d : float) (w : world) :
  sleep_error d = None ->
  time_sleep d w
  = (Ok tt, {| server := server w; sent := sent w;
               trace := trace w ++ [Sleep Blocking d] |}).
Proof. intros H. unfold time_sleep. rewrite H. reflexivity. Qed.

Lemma time_sleep_refused (d : float) (e : exn) (w : world) :
  sleep_error d = Some e -> time_sleep d w = (Raise e, w).
Proof. intros H. unfold time_sleep. rewrite H. reflexivity. Qed.

Lemma asyncio_sleep_accepted (d : float) (w : world) :
  sleep_error d = None ->
  asyncio_sleep d w
  = (Ok tt, {| server := server w; sent := sent w;
               trace := trace w ++ [Sleep Yielding d] |}).
Proof.
  intros H. unfold asyncio_sleep.
  destruct (float_le d (of_Z 0)); [reflexivity |].
  destruct d as [q | negative |]; [reflexivity | discriminate H | reflexivity].
Qed.

Lemma fixed_schedule_accepted (attempt : Z) :
  sleep_error (Spec.fixed_schedule attempt) = None.
Proof.
  unfold Spec.fixed_schedule.
  destruct (attempt =? 0); [| destruct (attempt =? 1)]; vm_compute; reflexivity.
Qed.

Lemma accepted_wait (resp : response) (attempt : Z) :
  0 <= attempt ->
  Replies.accepted resp = true ->
  sleep_error (Spec.backoff_any_sign attempt (header_Retry_After resp)) = None.
Proof.
  intros H0. unfold Replies.accepted.
  rewrite get_backoff_any_sign by lia. unfold Spec.backoff_any_sign.
  destruct (header_Retry_After resp) as [s |]; [destruct (float_of_str s) as [f |] |];
    intros Ha; try apply fixed_schedule_accepted.
  destruct (sleep_error f); [discriminate Ha | reflexivity].
Qed.

(** The iteration that retries after a response: the wait is one
    [time.sleep] takes. *)
Lemma attempts_retry (self : HTTPClient.t) (a : args) (todo : nat) (attempt : Z)
    (last_err : option transport_error) (w : world) (resp : response) :
  server w (sent w) = Response resp ->
  0 <= attempt < HTTPClient._max_retries self ->
  retryable_status (status_code resp) = true ->
  sleep_error (Spec.backoff_any_sign attempt (header_Retry_After resp)) = None ->
  HTTPClient.attempts self a (S todo) attempt last_err w
  = HTTPClient.attempts self a todo (attempt + 1) last_err
      (after w [Send Blocking (build (HTTPClient._timeout self) a);
                Sleep Blocking (Spec.backoff_any_sign attempt (header_Retry_After resp))] 1).
Proof.
  intros Hs Ha Hr Hsl.
  assert (H4 : (status_code resp <? 400) = false
               /\ (status_code resp <? 500) && negb (status_code resp =? 429) = false).
  { unfold retryable_status, _RETRY_STATUS_CODES in Hr. cbn [existsb] in Hr.
    repeat rewrite orb_true_iff in Hr.
    repeat (destruct Hr as [Hr | Hr]; [apply Z.eqb_eq in Hr; rewrite Hr; split; reflexivity |]).
    discriminate. }
  destruct H4 as [H4 H5].
  cbn [HTTPClient.attempts]. unfold mbind at 1. unfold call at 1. rewrite Hs.
  rewrite H4. unfold mbind at 1. rewrite H5. unfold ret at 1.
  rewrite Hr. destruct (Z.ltb_spec attempt (HTTPClient._max_retries self)); [| lia].
  cbn [andb]. unfold mbind at 1. unfold lift at 1.
  rewrite get_backoff_any_sign by lia.
  unfold mbind at 1. rewrite (time_sleep_accepted _ _ Hsl). cbn [server sent trace].
  f_equal. unfold after. f_equal.
  - apply eq_sym, Nat.add_1_r.
  - rewrite <- app_assoc. reflexivity.
Qed.

(** The iteration that would retry after a response, but whose wait
    [time.sleep] refuses: the call ends there with the exception of the
    sleep. *)
Lemma attempts_retry_refused (self : HTTPClient.t) (a : args) (todo : nat) (attempt : Z)
    (last_err : option transport_error) (w : world) (resp : response) (e : exn) :
  server w (sent w) = Response resp ->
  0 <= attempt < HTTPClient._max_retries self ->
  retryable_status (status_code resp) = true ->
  sleep_error (Spec.backoff_any_sign attempt (header_Retry_After resp)) = Some e ->
  HTTPClient.attempts self a (S todo) attempt last_err w
  = (Raise e, after w [Send Blocking (build (HTTPClient._timeout self) a)] 1).
Proof.
  intros Hs Ha Hr Hsl.
  assert (H4 : (status_code resp <? 400) = false
               /\ (status_code resp <? 500) && negb (status_code resp =? 429) = false).
  { unfold retryable_status, _RETRY_STATUS_CODES in Hr. cbn [existsb] in Hr.
    repeat rewrite orb_true_iff in Hr.
    repeat (destruct Hr as [Hr | Hr]; [apply Z.eqb_eq in Hr; rewrite Hr; split; reflexivity |]).
    discriminate. }
  destruct H4 as [H4 H5].
  cbn [HTTPClient.attempts]. unfold mbind at 1. unfold call at 1. rewrite Hs.
  rewrite H4. unfold mbind at 1. rewrite H5. unfold ret at 1.
  rewrite Hr. destruct (Z.ltb_spec attempt (HTTPClient._max_retries self)); [| lia].
  cbn [andb]. unfold mbind at 1. unfold lift at 1.
  rewrite get_backoff_any_sign by lia.
  unfold mbind at 1. rewrite (time_sleep_refused _ _ _ Hsl).
  rewrite after_sent_S. reflexivity.
Qed.

(** ** The wait before a retry *)

(** C2: the claim holds for a header that is absent, not a number or a
    non-negative number, and the code breaks it for the numbers [float()]
    reads that are no duration.  The header [Retry-After: -1] is not a
    non-negative number, so the claimed wait at attempt 0 is the schedule's
    1.0; [_get_backoff] returns -1.0, which [time.sleep] refuses: the call
    of a client allowing two retries, answered by such a 429 and then by a
    200, ends after one attempt with a [ValueError], while the asynchronous
    executor, whose sleep returns at once, tries again without waiting. *)
Lemma negative_retry_after_crash :
  float_of_str "-1" = Some (Finite (-1 # 1))
  /\ Spec.non_negative (Finite (-1 # 1)) = false
  /\ Spec.backoff 0 (Some "-1") = Finite 1
  /\ _get_backoff 0 (Some (Examples.response_with 429 (Some "-1") "" None))
     = Ok (Finite (-1 # 1))
  /\ HTTPClient.request (Examples.executor 2) Examples.list_jobs
       (start (Replies.first_then 1
                 (Response (Examples.response_with 429 (Some "-1") "" None))
                 (Examples.always (Examples.response_with 200 None "" None))))
     = (Raise (ValueError "sleep length must be non-negative"),
        after (start (Replies.first_then 1
                        (Response (Examples.response_with 429 (Some "-1") "" None))
                        (Examples.always (Examples.response_with 200 None "" None))))
          [Send Blocking (build (of_Z 30) Examples.list_jobs)] 1)
  /\ AsyncHTTPClient.request
       (AsyncHTTPClient.init "https://api.leanvox.com" (VStr "lv_test_k") (of_Z 30) 2)
       Examples.list_jobs
       (start (Replies.first_then 1
                 (Response (Examples.response_with 429 (Some "-1") "" None))
                 (Examples.always (Examples.response_with 200 None "" None))))
     = (Ok empty_dict,
        after (start (Replies.first_then 1
                        (Response (Examples.response_with 429 (Some "-1") "" None))
                        (Examples.always (Examples.response_with 200 None "" None))))
          [Send Yielding (build (of_Z 30) Examples.list_jobs);
           Sleep Yielding (Finite (-1 # 1));
           Send Yielding (build (of_Z 30) Examples.list_jobs)] 2).
Proof.
  repeat split; vm_compute; reflexivity.
Qed.

(** X24: the wait [_get_backoff] computes for a response at an attempt
    number from 0 on is the number [float()] reads in its Retry-After
    header, whenever the header is not empty and [float()] reads one,
    whatever that number is (negative, infinite and NaN included); it is the
    fixed schedule 1.0, 2.0, 4.0, 4.0, ... when the header is absent, empty
    or not read as a number.  For a header read as a non-negative number
    that is the wait of the specification. *)
Theorem get_backoff_header_or_schedule (attempt : Z) (resp : response) :
  0 <= attempt ->
  _get_backoff attempt (Some resp)
  = Ok (Spec.backoff_any_sign attempt (header_Retry_After resp))
  /\ (forall s f,
        header_Retry_After resp = Some s -> float_of_str s = Some f ->
        _get_backoff attempt (Some resp) = Ok f
        /\ (Spec.non_negative f = true ->
            Spec.backoff attempt (header_Retry_After resp) = f))
  /\ (header_Retry_After resp = None
      \/ header_Retry_After resp = Some ""
      \/ (exists s, header_Retry_After resp = Some s /\ float_of_str s = None) ->
      _get_backoff attempt (Some resp)
      = Ok (if attempt =? 0 then of_Z 1 else if attempt =? 1 then of_Z 2 else of_Z 4)
      /\ Spec.backoff attempt (header_Retry_After resp)
         = (if attempt =? 0 then of_Z 1 else if attempt =? 1 then of_Z 2 else of_Z 4)).
Proof.
  intros H. rewrite get_backoff_any_sign by assumption.
  split; [reflexivity |]. split.
  - intros s f Hs Hf. unfold Spec.backoff_any_sign, Spec.backoff. rewrite Hs, Hf.
    split; [reflexivity |]. intros ->. reflexivity.
  - unfold Spec.backoff_any_sign, Spec.backoff.
    intros [-> | [-> | (s & -> & ->)]]; split; reflexivity.
Qed.

(** A 429 response bearing [Retry-After: 3.5] gives a wait of 3.5 at
    attempt 0. *)
Lemma get_backoff_witness :
  _get_backoff 0 (Some (Examples.response_with 429 (Some "3.5") "" None))
  = Ok (Finite (7 # 2)).
Proof.
  refine (proj1 (get_backoff_header_or_schedule 0
                   (Examples.response_with 429 (Some "3.5") "" None) _)).
  lia.
Defined.

(** ** Client errors are not retried *)

(** X25: whatever the number of retries allowed, when the first response
    of a call has a 4xx status other than 429, [request] ends after exactly
    one network attempt and no sleep, raising what [_raise_for_status] raises
    for that response; for a body in the shape of the interface (raw text,
    or an object whose [error] member, if any, is an object) that is the
    typed error mapped to the status, for any other body an
    [AttributeError]. *)
Theorem client_error_not_retried (self : HTTPClient.t) (a : args) (w : world)
    (resp : response) :
  0 <= HTTPClient._max_retries self ->
  server w (sent w) = Response resp ->
  400 <= status_code resp < 500 ->
  status_code resp <> 429 ->
  exists x,
    HTTPClient.request self a w
    = (Raise x, after w [Send Blocking (build (HTTPClient._timeout self) a)] 1)
    /\ _raise_for_status (status_code resp) (error_body resp) = Raise x
    /\ (Spec.error_object_or_raw_text resp = true ->
        exists e,
          x = Leanvox e
          /\ cls e = map_get _ERROR_MAP (status_code resp) LeanvoxError
          /\ Errors.status_code e = status_code resp)
    /\ (Spec.error_object_or_raw_text resp = false -> x = AttributeError "get").
Proof.
  intros Hm Hs H4 H429.
  unfold HTTPClient.request.
  replace (Z.to_nat (HTTPClient._max_retries self + 1))
    with (S (Z.to_nat (HTTPClient._max_retries self))) by lia.
  destruct (attempts_raise self a (Z.to_nat (HTTPClient._max_retries self)) 0 None w resp
              Hs (proj1 H4)) as (x & Hx & Hrun).
  - left. apply andb_true_iff. split.
    + apply Z.ltb_lt. lia.
    + apply negb_true_iff, Z.eqb_neq. assumption.
  - exists x. split; [exact Hrun |]. split; [exact Hx |].
    split; [| intros Hshape].
    2: { rewrite (raise_for_status_untyped resp (proj1 H4) Hshape) in Hx.
         injection Hx as <-. reflexivity. }
    intros Hshape.
    destruct (raise_for_status_typed resp (proj1 H4) Hshape) as (e & He & Hc & Hst).
    exists e. rewrite He in Hx. injection Hx as <-. auto.
Qed.

(** A 401 response to a client allowing two retries: one attempt, an
    [AuthenticationError]. *)
Lemma client_error_not_retried_witness :
  exists x,
    HTTPClient.request (Examples.executor 2) Examples.list_jobs
      (start (Examples.always Examples.unauthorized))
    = (Raise x,
       after (start (Examples.always Examples.unauthorized))
         [Send Blocking (build (of_Z 30) Examples.list_jobs)] 1)
    /\ _raise_for_status 401 (error_body Examples.unauthorized) = Raise x
    /\ (Spec.error_object_or_raw_text Examples.unauthorized = true ->
        exists e,
          x = Leanvox e
          /\ cls e = AuthenticationError
          /\ Errors.status_code e = 401)
    /\ (Spec.error_object_or_raw_text Examples.unauthorized = false ->
        x = AttributeError "get").
Proof.
  apply (client_error_not_retried (Examples.executor 2) Examples.list_jobs
           (start (Examples.always Examples.unauthorized)) Examples.unauthorized).
  - simpl. lia.
  - reflexivity.
  - simpl. lia.
  - simpl. lia.
Defined.

(** C5: the claim holds for a body that is raw text or an object whose
    [error] member is an object, and the code breaks it when the server
    answers a JSON object whose [error] member is a string: for a 400 with
    the body [{"error": "bad"}], [request] makes its one attempt and no
    sleep, and then raises an [AttributeError] instead of the
    [InvalidRequestError] mapped to 400; the same 400 with the error spelled
    as an object raises the typed error. *)
Lemma client_error_string_error_member :
  map_get _ERROR_MAP 400 LeanvoxError = InvalidRequestError
  /\ HTTPClient.request (Examples.executor 2) Examples.list_jobs
       (start (Examples.always
                 (Examples.response_with 400 None "{...}"
                    (Some (VDict [("error", VStr "bad")])))))
     = (Raise (AttributeError "get"),
        after (start (Examples.always
                        (Examples.response_with 400 None "{...}"
                           (Some (VDict [("error", VStr "bad")])))))
          [Send Blocking (build (of_Z 30) Examples.list_jobs)] 1)
  /\ exists err,
       fst (HTTPClient.request (Examples.executor 2) Examples.list_jobs
              (start (Examples.always
                        (Examples.response_with 400 None "{...}"
                           (Some (VDict [("error", VDict [("message", VStr "bad")])]))))))
       = Raise (Leanvox err)
       /\ cls err = InvalidRequestError.
Proof.
  split; [reflexivity |]. split; [vm_compute; reflexivity |].
  eexists. split; [vm_compute; reflexivity | reflexivity].
Qed.

(** ** Retry count *)

Lemma after_after (w : world) (e1 e2 : list event) (n1 n2 : nat) :
  after (after w e1 n1) e2 n2 = after w (e1 ++ e2) (n1 + n2).
Proof.
  unfold after. cbn [server sent trace]. f_equal.
  - apply eq_sym, Nat.add_assoc.
  - apply eq_sym, app_assoc.
Qed.


(** C1: the claim holds when the 500 responses carry no Retry-After header
    (or one that is a duration) and a body in the shape of the interface,
    and the code breaks it otherwise.  With two retries allowed and every
    attempt answered by a 500 with the header [Retry-After: -1], [request]
    makes one attempt, not three, and raises the [ValueError] of
    [time.sleep], not the [ServerError]; and when every attempt is answered
    by a 500 whose body is [{"error": "down"}], it makes its three attempts
    and then raises an [AttributeError].  With the body
    [{"error": {"message": "err"}}] and no header it makes three attempts,
    sleeping 1.0 and 2.0 in between, and raises the [ServerError]. *)
Lemma persistent_500_crashes :
  HTTPClient.request (Examples.executor 2) Examples.list_jobs
    (start (Examples.always
              (Examples.response_with 500 (Some "-1") "{...}"
                 (Some (VDict [("error", VDict [("message", VStr "err")])])))))
  = (Raise (ValueError "sleep length must be non-negative"),
     after (start (Examples.always
                     (Examples.response_with 500 (Some "-1") "{...}"
                        (Some (VDict [("error", VDict [("message", VStr "err")])])))))
       [Send Blocking (build (of_Z 30) Examples.list_jobs)] 1)
  /\ HTTPClient.request (Examples.executor 2) Examples.list_jobs
       (start (Examples.always
                 (Examples.response_with 500 None "{...}"
                    (Some (VDict [("error", VStr "down")])))))
     = (Raise (AttributeError "get"),
        after (start (Examples.always
                        (Examples.response_with 500 None "{...}"
                           (Some (VDict [("error", VStr "down")])))))
          [Send Blocking (build (of_Z 30) Examples.list_jobs); Sleep Blocking (of_Z 1);
           Send Blocking (build (of_Z 30) Examples.list_jobs); Sleep Blocking (of_Z 2);
           Send Blocking (build (of_Z 30) Examples.list_jobs)] 3)
  /\ exists err,
       HTTPClient.request (Examples.executor 2) Examples.list_jobs
         (start (Examples.always Examples.internal_error))
       = (Raise (Leanvox err),
          after (start (Examples.always Examples.internal_error))
            [Send Blocking (build (of_Z 30) Examples.list_jobs); Sleep Blocking (of_Z 1);
             Send Blocking (build (of_Z 30) Examples.list_jobs); Sleep Blocking (of_Z 2);
             Send Blocking (build (of_Z 30) Examples.list_jobs)] 3)
       /\ cls err = ServerError.
Proof.
  split; [vm_compute; reflexivity |]. split; [vm_compute; reflexivity |].
  eexists. split; [vm_compute; reflexivity | reflexivity].
Qed.

(** ** The two executors *)

Lemma attempts_made_blocking (t : list event) :
  Spec.attempts_made (map blocking t) = Spec.attempts_made t.
Proof.
  unfold Spec.attempts_made. induction t as [| [m r | m r | m d] t IH];
    cbn [map filter blocking Spec.is_send length]; congruence.
Qed.

Lemma slept_blocking (t : list event) :
  Replies.slept (map blocking t) = Replies.slept t.
Proof.
  unfold Replies.slept. induction t as [| [m r | m r | m d] t IH];
    cbn [map flat_map blocking app]; congruence.
Qed.

Lemma forget_inv (w w' : world) :
  forget w = forget w' ->
  server w = server w' /\ sent w = sent w'
  /\ map blocking (trace w) = map blocking (trace w').
Proof. unfold forget. intros H. injection H. auto. Qed.

(** Closes the goals on the outcome and the world of two runs that took the
    same steps. *)
Ltac same_steps Hs Hn Ht :=
  split; [reflexivity |];
  unfold forget; cbn [server sent trace fst snd];
  rewrite ?map_app, ?Hs, ?Hn, ?Ht; reflexivity.

(** The two retry loops take the same steps on a server whose waits
    [time.sleep] takes. *)
Lemma attempts_sync_async (self : HTTPClient.t) (self' : AsyncHTTPClient.t) (a : args) :
  HTTPClient._timeout self = AsyncHTTPClient._timeout self' ->
  HTTPClient._max_retries self = AsyncHTTPClient._max_retries self' ->
  forall (todo : nat) (attempt : Z) (last_err : option transport_error) (w w' : world),
    0 <= attempt ->
    forget w = forget w' ->
    (forall n, Replies.patient (server w n) = true) ->
    fst (HTTPClient.attempts self a todo attempt last_err w)
    = fst (AsyncHTTPClient.attempts self' a todo attempt last_err w')
    /\ forget (snd (HTTPClient.attempts self a todo attempt last_err w))
       = forget (snd (AsyncHTTPClient.attempts self' a todo attempt last_err w')).
Proof.
  intros Ht Hm. induction todo as [| todo IH]; intros attempt last_err w w' H0 Hw Hpat.
  - cbn [HTTPClient.attempts AsyncHTTPClient.attempts].
    destruct last_err; unfold raise, ret; cbn [fst snd]; auto.
  - destruct (forget_inv w w' Hw) as (Hs & Hn & Htr).
    cbn [HTTPClient.attempts AsyncHTTPClient.attempts].
    rewrite <- Ht, <- Hm.
    unfold mbind, call, lift, ret, raise.
    rewrite <- Hs, <- Hn.
    pose proof (Hpat (sent w)) as Hp.
    rewrite (schedule_fixed attempt H0).
    destruct (server w (sent w)) as [resp | e].
    + cbn [Replies.patient] in Hp.
      rewrite (get_backoff_any_sign attempt resp H0).
      repeat first
        [ progress cbn beta iota
        | rewrite (time_sleep_accepted _ _ (accepted_wait resp attempt H0 Hp))
        | rewrite (asyncio_sleep_accepted _ _ (accepted_wait resp attempt H0 Hp))
        | apply IH;
          [ lia
          | unfold forget; cbn [server sent trace];
            rewrite ?map_app, ?Hs, ?Hn, ?Htr; reflexivity
          | exact Hpat ]
        | same_steps Hs Hn Htr
        | match goal with
          | |- context [match ?x with _ => _ end] =>
              lazymatch type of x with
              | (_ * _)%type => fail
              | _ => destruct x
              end
          end ].
    + repeat first
        [ progress cbn beta iota
        | rewrite (time_sleep_accepted _ _ (fixed_schedule_accepted attempt))
        | rewrite (asyncio_sleep_accepted _ _ (fixed_schedule_accepted attempt))
        | apply IH;
          [ lia
          | unfold forget; cbn [server sent trace];
            rewrite ?map_app, ?Hs, ?Hn, ?Htr; reflexivity
          | exact Hpat ]
        | same_steps Hs Hn Htr
        | match goal with
          | |- context [match ?x with _ => _ end] =>
              lazymatch type of x with
              | (_ * _)%type => fail
              | _ => destruct x
              end
          end ].
Qed.

Lemma request_sync_async (base_url : string) (key : value) (timeout : float)
    (max_retries : Z) (a : args) (w : world) :
  (forall n, Replies.patient (server w n) = true) ->
  fst (HTTPClient.request (HTTPClient.init base_url key timeout max_retries) a w)
  = fst (AsyncHTTPClient.request (AsyncHTTPClient.init base_url key timeout max_retries) a w)
  /\ forget (snd (HTTPClient.request (HTTPClient.init base_url key timeout max_retries) a w))
     = forget (snd (AsyncHTTPClient.request
                      (AsyncHTTPClient.init base_url key timeout max_retries) a w)).
Proof.
  intros Hpat. unfold HTTPClient.request, AsyncHTTPClient.request.
  apply attempts_sync_async; first [exact Hpat | reflexivity | lia].
Qed.

(** X26: built from the same settings and run from the same state against
    a server none of whose responses carries a Retry-After header that
    [float()] reads as a number [time.sleep] refuses (a negative number, an
    infinity, NaN, or one too large), the blocking and the non-blocking
    executor give the same outcome (the same parsed body or the same
    exception) and, up to the mode of the suspension points, the same
    effects: the same requests and the same sleeps of the same durations in
    the same order, hence the same number of attempts. *)
Theorem sync_async_same_run (base_url : string) (api_key : value) (timeout : float)
    (max_retries : Z) (a : args) (w : world) :
  (forall n, Replies.patient (server w n) = true) ->
  fst (HTTPClient.request (HTTPClient.init base_url api_key timeout max_retries) a w)
  = fst (AsyncHTTPClient.request
           (AsyncHTTPClient.init base_url api_key timeout max_retries) a w)
  /\ forget (snd (HTTPClient.request
                    (HTTPClient.init base_url api_key timeout max_retries) a w))
     = forget (snd (AsyncHTTPClient.request
                      (AsyncHTTPClient.init base_url api_key timeout max_retries) a w))
  /\ Spec.attempts_made
       (trace (snd (HTTPClient.request
                      (HTTPClient.init base_url api_key timeout max_retries) a w)))
     = Spec.attempts_made
         (trace (snd (AsyncHTTPClient.request
                        (AsyncHTTPClient.init base_url api_key timeout max_retries) a w)))
  /\ Replies.slept
       (trace (snd (HTTPClient.request
                      (HTTPClient.init base_url api_key timeout max_retries) a w)))
     = Replies.slept
         (trace (snd (AsyncHTTPClient.request
                        (AsyncHTTPClient.init base_url api_key timeout max_retries) a w))).
Proof.
  intros Hpat.
  destruct (request_sync_async base_url api_key timeout max_retries a w Hpat)
    as [Hout Hworld].
  split; [exact Hout |]. split; [exact Hworld |].
  apply forget_inv in Hworld. destruct Hworld as (_ & _ & Htr).
  split.
  - rewrite <- (attempts_made_blocking (trace (snd (HTTPClient.request _ a w)))).
    rewrite Htr. apply attempts_made_blocking.
  - rewrite <- (slept_blocking (trace (snd (HTTPClient.request _ a w)))).
    rewrite Htr. apply slept_blocking.
Qed.

(** A 429 bearing [Retry-After: 3.5], then a 503, then the list of jobs:
    both executors sleep 3.5 and 2.0 and return the list. *)
Lemma sync_async_same_run_witness :
  Replies.slept
    (trace (snd (HTTPClient.request
                   (HTTPClient.init "https://api.leanvox.com" (VStr "lv_test_k") (of_Z 30) 2)
                   Examples.list_jobs
                   (start (Replies.first_then 1
                             (Response (Examples.response_with 429 (Some "3.5") "" None))
                             (Replies.first_then 1
                                (Response (Examples.response_with 503 None "" None))
                                (Examples.always Examples.job_completed)))))))
  = Replies.slept
      (trace (snd (AsyncHTTPClient.request
                     (AsyncHTTPClient.init "https://api.leanvox.com" (VStr "lv_test_k")
                        (of_Z 30) 2)
                     Examples.list_jobs
                     (start (Replies.first_then 1
                               (Response (Examples.response_with 429 (Some "3.5") "" None))
                               (Replies.first_then 1
                                  (Response (Examples.response_with 503 None "" None))
                                  (Examples.always Examples.job_completed))))))).
Proof.
  refine (proj2 (proj2 (proj2
            (sync_async_same_run "https://api.leanvox.com" (VStr "lv_test_k") (of_Z 30) 2
               Examples.list_jobs
               (start (Replies.first_then 1
                         (Response (Examples.response_with 429 (Some "3.5") "" None))
                         (Replies.first_then 1
                            (Response (Examples.response_with 503 None "" None))
                            (Examples.always Examples.job_completed)))) _)))).
  intros [| [| n]]; vm_compute; reflexivity.
Defined.

(** C9: the two loops are the same statement for statement, and the claim
    holds on every server whose waits are durations; the code breaks it
    where the two sleeping primitives differ.  With two retries allowed, a
    429 bearing [Retry-After: -1] and then a 200 with an empty body, the
    blocking executor makes one attempt and raises the [ValueError] of
    [time.sleep(-1.0)], while the non-blocking one, whose
    [asyncio.sleep(-1.0)] returns at once, makes two attempts and returns
    the empty dict. *)
Lemma blocking_and_yielding_differ :
  HTTPClient.request
    (HTTPClient.init "https://api.leanvox.com" (VStr "lv_test_k") (of_Z 30) 2)
    Examples.list_jobs
    (start (Replies.first_then 1
              (Response (Examples.response_with 429 (Some "-1") "" None))
              (Examples.always (Examples.response_with 200 None "" None))))
  = (Raise (ValueError "sleep length must be non-negative"),
     after (start (Replies.first_then 1
                     (Response (Examples.response_with 429 (Some "-1") "" None))
                     (Examples.always (Examples.response_with 200 None "" None))))
       [Send Blocking (build (of_Z 30) Examples.list_jobs)] 1)
  /\ AsyncHTTPClient.request
       (AsyncHTTPClient.init "https://api.leanvox.com" (VStr "lv_test_k") (of_Z 30) 2)
       Examples.list_jobs
       (start (Replies.first_then 1
                 (Response (Examples.response_with 429 (Some "-1") "" None))
                 (Examples.always (Examples.response_with 200 None "" None))))
     = (Ok empty_dict,
        after (start (Replies.first_then 1
                        (Response (Examples.response_with 429 (Some "-1") "" None))
                        (Examples.always (Examples.response_with 200 None "" None))))
          [Send Yielding (build (of_Z 30) Examples.list_jobs);
           Sleep Yielding (Finite (-1 # 1));
           Send Yielding (build (of_Z 30) Examples.list_jobs)] 2)
  /\ Replies.patient (Response (Examples.response_with 429 (Some "-1") "" None)) = false.
Proof.
  repeat split; vm_compute; reflexivity.
Qed.

(** ** The error object of a response that does not hold one *)

Lemma raise_for_status_not_decode_error (status : Z) (body : value) (e : exn) :
  _raise_for_status status body = Raise e -> e <> JSONDecodeError.
Proof.
  unfold _raise_for_status. intros H.
  repeat match type of H with
         | context [match ?x with _ => _ end] => destruct x
         end;
    first [discriminate H | injection H as <-; discriminate].
Qed.

(** C7, as amended: the call ends with what [_raise_for_status] builds from
    the decoded body or, when decoding raises, from the raw text wrapped as
    [{"error": {"message": text}}]; decoding never makes the call fail.  For
    a body that does not decode, the error has the raw text of the response
    (empty when there is no body) as message and ["unknown"] as code.  For a
    body that decodes to an object, the message and the code are taken from
    its error object (the object itself when it has no [error] member), and
    where that object lacks one, ["API error <status>"] and ["unknown"]
    stand in. *)
Theorem error_body_fallback (self : HTTPClient.t) (a : args) (todo : nat) (attempt : Z)
    (last_err : option transport_error) (w : world) (resp : response) :
  server w (sent w) = Response resp ->
  400 <= status_code resp ->
  ((status_code resp <? 500) && negb (status_code resp =? 429) = true
   \/ retryable_status (status_code resp) && (attempt <? HTTPClient._max_retries self) = false) ->
  (exists e,
     _raise_for_status (status_code resp) (error_body resp) = Raise e
     /\ HTTPClient.attempts self a (S todo) attempt last_err w
        = (Raise e, after w [Send Blocking (build (HTTPClient._timeout self) a)] 1)
     /\ e <> JSONDecodeError)
  /\ (json resp = None ->
      exists err,
        _raise_for_status (status_code resp) (error_body resp) = Raise (Leanvox err)
        /\ cls err = map_get _ERROR_MAP (status_code resp) LeanvoxError
        /\ Errors.status_code err = status_code resp
        /\ message err = MsgValue (VStr (text_of resp))
        /\ code err = VStr "unknown")
  /\ (forall d error_data,
        json resp = Some (VDict d) ->
        dict_get d "error" (VDict d) = VDict error_data ->
        exists err,
          _raise_for_status (status_code resp) (error_body resp) = Raise (Leanvox err)
          /\ cls err = map_get _ERROR_MAP (status_code resp) LeanvoxError
          /\ Errors.status_code err = status_code resp
          /\ message err
             = MsgValue (dict_get error_data "message"
                           (VStr ("API error " ++ str_of_int (status_code resp))))
          /\ code err = dict_get error_data "code" (VStr "unknown")
          /\ (lookup "message" error_data = None ->
              message err = MsgValue (VStr ("API error " ++ str_of_int (status_code resp))))
          /\ (lookup "code" error_data = None -> code err = VStr "unknown")).
Proof.
  intros Hs H400 Hc. split; [| split].
  - destruct (attempts_raise self a todo attempt last_err w resp Hs H400 Hc)
      as (e & He & Hrun).
    exists e. repeat split; try assumption.
    exact (raise_for_status_not_decode_error _ _ _ He).
  - intros Hj. unfold error_body. rewrite Hj.
    destruct (raise_for_status_fields (status_code resp)
                [("error", VDict [("message", VStr (text_of resp))])]
                [("message", VStr (text_of resp))] H400 eq_refl)
      as (err & E & C & M & K & S & _).
    exists err. repeat split; assumption.
  - intros d error_data Hj Hd. unfold error_body. rewrite Hj.
    destruct (raise_for_status_fields (status_code resp) d error_data H400 Hd)
      as (err & E & C & M & K & S & _).
    exists err. repeat split; try assumption.
    + intros L. rewrite M. unfold dict_get. rewrite L. reflexivity.
    + intros L. rewrite K. unfold dict_get. rewrite L. reflexivity.
Qed.

(** A 500 with the body [Internal Server Error] for a client that does not
    retry. *)
Lemma error_body_fallback_witness :
  exists err,
    _raise_for_status 500 (error_body Examples.raw_internal_error) = Raise (Leanvox err)
    /\ cls err = ServerError
    /\ Errors.status_code err = 500
    /\ message err = MsgValue (VStr "Internal Server Error")
    /\ code err = VStr "unknown".
Proof.
  refine (proj1 (proj2 (error_body_fallback (Examples.executor 0) Examples.list_jobs
                          0 0 None (start (Examples.always Examples.raw_internal_error))
                          Examples.raw_internal_error _ _ _)) _).
  - reflexivity.
  - simpl. lia.
  - right. reflexivity.
  - reflexivity.
Defined.

(** C7, the claim as stated fails: for a 500 whose body is not JSON, and
    for a 500 with no body, the error raised does not have the message
    ["API error 500"] but the raw text of the response. *)
Lemma raw_text_is_the_message :
  (exists err,
     fst (HTTPClient.request (Examples.executor 0) Examples.list_jobs
            (start (Examples.always Examples.raw_internal_error)))
     = Raise (Leanvox err)
     /\ message err = MsgValue (VStr "Internal Server Error")
     /\ message err <> MsgValue (VStr "API error 500"))
  /\ (exists err,
        fst (HTTPClient.request (Examples.executor 0) Examples.list_jobs
               (start (Examples.always Examples.empty_internal_error)))
        = Raise (Leanvox err)
        /\ message err = MsgValue (VStr "")
        /\ message err <> MsgValue (VStr "API error 500")).
Proof.
  split; eexists; (split; [vm_compute; reflexivity |]); cbn; split;
    [reflexivity | discriminate | reflexivity | discriminate].
Qed.

(** ** Streaming *)

(** Closes a goal whose two sides are the same outcome and the world after
    one step. *)
Ltac stepped :=
  unfold after; cbn [fst snd server sent trace]; rewrite ?Nat.add_1_r; reflexivity.

Lemma first_failure_raises (l : list (bool * exn)) (e : exn) :
  Spec.first_failure l = Raise e ->
  Forall (fun c => Spec.is_invalid_request (snd c) = true) l ->
  Spec.is_invalid_request e = true.
Proof.
  induction l as [| [holds e'] l IH]; cbn [Spec.first_failure]; intros H F.
  - discriminate.
  - inversion F as [| ? ? He' F']; subst. destruct holds.
    + now apply IH.
    + injection H as <-. exact He'.
Qed.

Lemma validate_raises_invalid_request (text model : string) (speed exaggeration : float)
    (e : exn) :
  Client._validate_generate_params text model speed exaggeration = Raise e ->
  exists err, e = Leanvox err /\ cls err = InvalidRequestError.
Proof.
  rewrite validate_first_failure. intros H.
  apply first_failure_raises in H; [| apply checks_invalid_request].
  destruct e as [err | | | | | | | | |]; try discriminate.
  exists err. split; [reflexivity |].
  cbn in H. destruct (cls err); try discriminate. reflexivity.
Qed.

Lemma stream_guard_passed (self : Client.t) (text : string) (p : Client.params) (w : world) :
  lower (Client.format p) = "mp3" ->
  forall err, fst (Client.stream self text p w) = Raise (Leanvox err) ->
              cls err <> StreamingFormatError.
Proof.
  intros Hf err. unfold Client.stream. rewrite Hf. cbn [String.eqb Ascii.eqb Bool.eqb negb].
  unfold mbind at 1. unfold lift at 1.
  destruct (Client._validate_generate_params _ _ _ _) as [[] | e] eqn:V.
  - unfold mbind at 1. unfold lift at 1. unfold Client._get_http, Auth.ensure_api_key.
    destruct (Client._api_key self) as [key |]; cbn [Errors.bind].
    + unfold mbind at 1. unfold HTTPClient.stream, mbind at 1. unfold call.
      destruct (server w (sent w)) as [resp | e].
      * unfold ret at 1. unfold mbind, lift, ret.
        destruct (Client.raise_for_status resp) as [[] | e] eqn:R; cbn [fst].
        -- discriminate.
        -- unfold Client.raise_for_status in R.
           destruct ((200 <=? status_code resp) && (status_code resp <=? 299));
             [discriminate |].
           injection R as <-. discriminate.
      * cbn [fst]. discriminate.
    + cbn [fst]. intros H. injection H as <-. discriminate.
  - cbn [fst]. intros H. injection H as ->.
    destruct (validate_raises_invalid_request _ _ _ _ _ V) as (err' & E & C).
    injection E as <-. rewrite C. discriminate.
Qed.

(** C10: the guard compares the lower-cased format with ["mp3"].  A format
    whose lower-case form is ["mp3"] (["MP3"], ["Mp3"], ...) passes: the call
    behaves as with ["mp3"] and never raises the [StreamingFormatError].  Any
    other format makes [stream] raise the [StreamingFormatError], with code
    ["streaming_format_error"] and status 400, without any effect on the
    world and whatever the other parameters are: a failure of the parameter
    validation is not what is raised. *)
Theorem stream_format_guard (self : Client.t) (text : string) (p : Client.params)
    (w : world) :
  (lower "MP3" = "mp3" /\ lower "Mp3" = "mp3")
  /\ (lower (Client.format p) = "mp3" ->
      Client.stream self text p w = Client.stream self text (Client.with_format p "mp3") w
      /\ forall err, fst (Client.stream self text p w) = Raise (Leanvox err) ->
                     cls err <> StreamingFormatError)
  /\ (lower (Client.format p) <> "mp3" ->
      (exists err,
         Client.stream self text p w = (Raise (Leanvox err), w)
         /\ cls err = StreamingFormatError
         /\ code err = VStr "streaming_format_error"
         /\ Errors.status_code err = 400)
      /\ forall e,
           Client._validate_generate_params text (Client.model p) (Client.speed p)
             (Client.exaggeration p) = Raise e ->
           fst (Client.stream self text p w) <> Raise e).
Proof.
  split; [split; reflexivity |]. split.
  - intros Hf. split; [| now apply stream_guard_passed].
    unfold Client.stream. cbn [Client.with_format Client.format Client.model Client.voice
      Client.language Client.speed Client.exaggeration].
    rewrite Hf. reflexivity.
  - intros Hf. apply String.eqb_neq in Hf.
    unfold Client.stream. rewrite Hf. cbn [negb]. split.
    + eexists. split; [reflexivity |]. repeat split.
    + intros e V. unfold raise. cbn [fst].
      destruct (validate_raises_invalid_request _ _ _ _ _ V) as (err & -> & C).
      intros H. injection H as H. rewrite <- H in C. discriminate C.
Qed.

(** C8, as amended: the streaming call is outside the retry loop
    altogether.  Whatever [max_retries] is, entering [stream] calls the
    transport at most once and never sleeps; a failure of the transport when
    the stream is opened is raised as it is, without another attempt; an
    opened stream with a success status is handed to the caller as the
    byte iterator of the response itself, with no handler and no retry of
    the client around it, so that what the iterator raises in the middle of
    the stream is raised to the caller. *)
Theorem stream_opened_once (self : Client.t) (text : string) (p : Client.params)
    (w : world) :
  (snd (Client.stream self text p w) = w
   \/ exists req, snd (Client.stream self text p w) = after w [Open Blocking req] 1)
  /\ (forall key e,
        lower (Client.format p) = "mp3" ->
        Client._validate_generate_params text (Client.model p) (Client.speed p)
          (Client.exaggeration p) = Ok tt ->
        Client._api_key self = Some key ->
        server w (sent w) = Fails e ->
        exists req,
          Client.stream self text p w = (Raise (Transport e), after w [Open Blocking req] 1))
  /\ (forall key resp,
        lower (Client.format p) = "mp3" ->
        Client._validate_generate_params text (Client.model p) (Client.speed p)
          (Client.exaggeration p) = Ok tt ->
        Client._api_key self = Some key ->
        server w (sent w) = Response resp ->
        Client.raise_for_status resp = Ok tt ->
        exists req,
          Client.stream self text p w = (Ok (iter_bytes resp), after w [Open Blocking req] 1)).
Proof.
  split; [| split].
  - unfold Client.stream.
    destruct (negb _); [left; reflexivity |].
    unfold mbind at 1. unfold lift at 1.
    destruct (Client._validate_generate_params _ _ _ _) as [[] | e]; [| left; reflexivity].
    unfold mbind at 1. unfold lift at 1.
    destruct (Client._get_http self) as [http | e]; [| left; reflexivity].
    right. eexists. unfold HTTPClient.stream, mbind, call, lift, ret, raise.
    destruct (server w (sent w)) as [resp | e]; [| stepped].
    destruct (Client.raise_for_status resp) as [[] | e]; stepped.
  - intros key e Hf V K Hs. eexists. unfold Client.stream. rewrite Hf.
    cbn [String.eqb Ascii.eqb Bool.eqb negb].
    unfold Client._get_http, HTTPClient.stream, mbind, call, lift, ret, raise.
    rewrite V, K, Hs. cbn [Auth.ensure_api_key Errors.bind]. stepped.
  - intros key resp Hf V K Hs R. eexists. unfold Client.stream. rewrite Hf.
    cbn [String.eqb Ascii.eqb Bool.eqb negb].
    unfold Client._get_http, HTTPClient.stream, mbind, call, lift, ret, raise.
    rewrite V, K, Hs, R. cbn [Auth.ensure_api_key Errors.bind]. stepped.
Qed.

(** C8, the claim as stated fails: a client allowing two retries whose
    stream open is refused before any byte (the next call would be served)
    raises the [ConnectError] after a single open, without sleeping. *)
Lemma stream_open_failure_not_retried :
  Client._max_retries (Examples.leanvox 2 5000) = 2
  /\ Examples.refused_once 1 = Response Examples.audio
  /\ fst (Client.stream (Examples.leanvox 2 5000) "Hello" Client.defaults
            (start Examples.refused_once))
     = Raise (Transport (ConnectError "Connection refused"))
  /\ Spec.opens_made
       (trace (snd (Client.stream (Examples.leanvox 2 5000) "Hello" Client.defaults
                      (start Examples.refused_once)))) = 1%nat
  /\ Spec.sleeps_made
       (trace (snd (Client.stream (Examples.leanvox 2 5000) "Hello" Client.defaults
                      (start Examples.refused_once)))) = 0%nat.
Proof.
  repeat split; vm_compute; reflexivity.
Qed.

(** ** Automatic promotion of [generate] to the job path *)

Lemma poll_more_fuel (self : Client.t) (fuel : nat) :
  forall (job : Job.t) (w : world) (done : Job.t) (w' : world),
    Client.poll self fuel job w = (Ok (Some done), w') ->
    forall fuel', (fuel <= fuel')%nat ->
                  Client.poll self fuel' job w = (Ok (Some done), w').
Proof.
  induction fuel as [| fuel IH]; intros job w done w' H fuel' Hle.
  - destruct fuel'; cbn [Client.poll] in *;
      destruct (Client.terminal job); try exact H; discriminate H.
  - destruct fuel' as [| fuel']; [lia |].
    cbn [Client.poll] in *.
    destruct (Client.terminal job); [exact H |].
    unfold mbind at 1. unfold mbind at 1 in H.
    destruct (time_sleep (of_Z 2) w) as [[[] | e] w1]; [| discriminate H].
    unfold mbind at 1. unfold mbind at 1 in H.
    destruct (Client.get_job self (Job.id job) w1) as [[job' | e] w2]; [| discriminate H].
    apply (IH job' w2 done w' H). lia.
Qed.

Lemma completed_not_failed (v : value) :
  eq_str v "completed" = true -> eq_str v "failed" = false.
Proof.
  destruct v; try discriminate. cbn [eq_str]. intros H.
  apply String.eqb_eq in H. subst s. reflexivity.
Qed.

(** C3, as amended: when the text is longer than the threshold, the job is
    accepted and the polling loop ends within [fuel] polls on a job whose
    status is [completed], then [generate], given at least that many polls,
    returns the result built from that job's audio URL, with the model and
    the voice of the request, [characters] equal to the length of the text
    and [cost_cents] equal to 0. *)
Theorem generate_auto_async_completed (self : Client.t) (fuel : nat) (text : string)
    (p : Client.params) (w w1 w2 : world) (job0 job : Job.t) :
  Client._auto_async_threshold self < len text ->
  Client.generate_async self text p "" w = (Ok job0, w1) ->
  Client.poll self fuel job0 w1 = (Ok (Some job), w2) ->
  eq_str (Job.status job) "completed" = true ->
  forall fuel', (fuel <= fuel')%nat ->
    Client.generate self fuel' text p w
    = (Ok (Some {| GenerateResult.audio_url := Job.audio_url job;
                   GenerateResult.model := VStr (Client.model p);
                   GenerateResult.voice := VStr (Client.voice p);
                   GenerateResult.characters := VInt (len text);
                   GenerateResult.cost_cents := VInt 0;
                   GenerateResult.generated_voice_id := VNone;
                   GenerateResult.suggestion := VNone;
                   GenerateResult._http_client := true |}), w2).
Proof.
  intros Hlen Hsub Hpoll Hdone fuel' Hle.
  assert (V : Client._validate_generate_params text (Client.model p) (Client.speed p)
                (Client.exaggeration p) = Ok tt).
  { unfold Client.generate_async in Hsub. unfold mbind at 1 in Hsub. unfold lift at 1 in Hsub.
    destruct (Client._validate_generate_params _ _ _ _) as [[] | e];
      [reflexivity | discriminate Hsub]. }
  assert (G : exists http, Client._get_http self = Ok http).
  { unfold Client.generate_async in Hsub. unfold mbind at 1 in Hsub. unfold lift at 1 in Hsub.
    rewrite V in Hsub. unfold mbind at 1 in Hsub. unfold lift at 1 in Hsub.
    destruct (Client._get_http self) as [http | e]; [eauto | discriminate Hsub]. }
  destruct G as [http G].
  unfold Client.generate. unfold mbind at 1. unfold lift at 1. rewrite V.
  apply Z.ltb_lt in Hlen. rewrite Hlen.
  unfold mbind at 1. rewrite Hsub.
  unfold mbind at 1. rewrite (poll_more_fuel self fuel job0 w1 job w2 Hpoll fuel' Hle).
  rewrite (completed_not_failed _ Hdone).
  unfold mbind, lift, ret. rewrite G. reflexivity.
Qed.

(** A text of five characters with a threshold of three: the job is
    accepted and found completed at the first poll. *)
Lemma generate_auto_async_completed_witness :
  Client.generate (Examples.leanvox 2 3) 1 "Hello" Client.defaults
    (start Examples.submit_then_completed)
  = (Ok (Some {| GenerateResult.audio_url := VStr "https://cdn.leanvox.com/audio/done.mp3";
                 GenerateResult.model := VStr "standard";
                 GenerateResult.voice := VStr "";
                 GenerateResult.characters := VInt 5;
                 GenerateResult.cost_cents := VInt 0;
                 GenerateResult.generated_voice_id := VNone;
                 GenerateResult.suggestion := VNone;
                 GenerateResult._http_client := true |}),
     snd (Client.poll (Examples.leanvox 2 3) 1
            {| Job.id := VStr "job_123"; Job.status := VStr "pending";
               Job.estimated_seconds := VInt 10; Job.audio_url := VStr "";
               Job.error := VStr "" |}
            (snd (Client.generate_async (Examples.leanvox 2 3) "Hello" Client.defaults ""
                    (start Examples.submit_then_completed))))).
Proof.
  refine (generate_auto_async_completed (Examples.leanvox 2 3) 1 "Hello" Client.defaults
            (start Examples.submit_then_completed) _ _
            {| Job.id := VStr "job_123"; Job.status := VStr "pending";
               Job.estimated_seconds := VInt 10; Job.audio_url := VStr "";
               Job.error := VStr "" |}
            {| Job.id := VStr "job_123"; Job.status := VStr "completed";
               Job.estimated_seconds := VInt 0;
               Job.audio_url := VStr "https://cdn.leanvox.com/audio/done.mp3";
               Job.error := VStr "" |}
            _ _ _ _ 1%nat _).
  - reflexivity.
  - vm_compute. reflexivity.
  - vm_compute. reflexivity.
  - reflexivity.
  - lia.
Defined.

(** C3, the claim as stated fails: with the default threshold of 5000, a
    text of 5001 characters goes through the job path, and when the job is
    found completed the result has [characters = 5001], not 0 (its
    [cost_cents] is 0). *)
Lemma generate_auto_async_characters :
  exists r,
    fst (Client.generate (Examples.leanvox 2 Client._DEFAULT_AUTO_ASYNC_THRESHOLD) 1
           (repeat_str "x" 5001) Client.defaults (start Examples.submit_then_completed))
    = Ok (Some r)
    /\ GenerateResult.audio_url r = VStr "https://cdn.leanvox.com/audio/done.mp3"
    /\ GenerateResult.characters r = VInt 5001
    /\ GenerateResult.characters r <> VInt 0
    /\ GenerateResult.cost_cents r = VInt 0.
Proof.
  eexists. split; [vm_compute; reflexivity |].
  cbn. repeat split. discriminate.
Qed.

(** ** The Python primitives on examples *)

Example float_of_str_ex1 : float_of_str "3.5" = Some (Finite (7 # 2)).
Proof. reflexivity. Qed.
Example float_of_str_ex2 : float_of_str "-1" = Some (Finite (-1 # 1)).
Proof. reflexivity. Qed.
Example float_of_str_ex3 :
  float_of_str " 1_0.2_5e-1 " = Some (Finite (2308094809027379 # 2251799813685248)).
Proof. reflexivity. Qed.
Example float_of_str_ex4 : float_of_str "Wed, 21 Oct 2015 07:28:00 GMT" = None.
Proof. reflexivity. Qed.
Example float_of_str_ex5 : float_of_str "-Infinity" = Some (Inf true).
Proof. reflexivity. Qed.
Example float_of_str_ex6 : float_of_str "1._5" = None.
Proof. reflexivity. Qed.
Example float_of_str_ex7 : float_of_str "1.e2" = Some (Finite (100 # 1)).
Proof. reflexivity. Qed.
Example float_of_str_ex8 : float_of_str ".5" = Some (Finite (1 # 2)).
Proof. reflexivity. Qed.
Example float_of_str_ex9 :
  float_of_str "0.1" = Some (Finite (3602879701896397 # 36028797018963968))
  /\ float_of_str "1e400" = Some (Inf false)
  /\ float_of_str "9007199254740993" = Some (Finite (9007199254740992 # 1))
  /\ float_of_str "2.4e-324" = Some (Finite 0)
  /\ float_of_str "-0" = Some (Finite 0).
Proof. repeat split; vm_compute; reflexivity. Qed.

(** The characters 28 to 31 are no whitespace for [float()]; U+0085 and
    U+00A0 are. *)
Example float_of_str_ex10 :
  float_of_str (String (ascii_of_nat 31) (String "3" (String (ascii_of_nat 28) ""))) = None
  /\ float_of_str (String (ascii_of_nat 160) "3") = Some (Finite 3)
  /\ float_of_str (String (ascii_of_nat 133) "3") = Some (Finite 3)
  /\ float_of_str (String (ascii_of_nat 28) (String "3" (String (ascii_of_nat 160) ""))) = None.
Proof. repeat split; vm_compute; reflexivity. Qed.

(** What the two sleeping primitives do with durations that are none. *)
Example sleep_ex :
  map sleep_error [Finite (-1 # 1); Finite 0; NaN; Inf false; Inf true; Finite (7 # 2)]
  = [Some (ValueError "sleep length must be non-negative"); None;
     Some (ValueError "Invalid value NaN (not a number)");
     Some (OverflowError "timestamp too large to convert to C _PyTime_t");
     Some (OverflowError "timestamp too large to convert to C _PyTime_t"); None]
  /\ map (fun d => fst (asyncio_sleep d (start (Examples.always Examples.audio))))
         [Finite (-1 # 1); Finite 0; NaN; Inf false; Inf true; Finite (7 # 2)]
     = [Ok tt; Ok tt; Ok tt; Raise NeverReturns; Ok tt; Ok tt].
Proof. split; vm_compute; reflexivity. Qed.

Example str_of_int_ex : str_of_int 500 = "500" /\ str_of_int (-5) = "-5" /\ str_of_int 0 = "0".
Proof. repeat split; reflexivity. Qed.
Example lower_ex : lower "Mp3" = "mp3".
Proof. reflexivity. Qed.

Example backoff_schedule_ex :
  map (fun attempt => _get_backoff attempt None) [0; 1; 2; 3; 10]
  = [Ok (of_Z 1); Ok (of_Z 2); Ok (of_Z 4); Ok (of_Z 4); Ok (of_Z 4)].
Proof. reflexivity. Qed.

(** Three 500s with two retries allowed: sleeps of 1.0 then 2.0. *)
Example backoff_increases_ex :
  filter Spec.is_sleep
    (trace (snd (HTTPClient.request (Examples.executor 2) Examples.list_jobs
                   (start (Examples.always Examples.internal_error)))))
  = [Sleep Blocking (of_Z 1); Sleep Blocking (of_Z 2)].
Proof. reflexivity. Qed.

(** A refused connection with two retries allowed: three attempts. *)
Example connection_error_exhausted_ex :
  HTTPClient.request (Examples.executor 2) Examples.list_jobs
    (start (fun _ => Fails (ConnectError "Connection refused")))
  = (Raise (connection_error "Connection failed after 3 attempts: Connection refused"),
     after (start (fun _ => Fails (ConnectError "Connection refused")))
       [Send Blocking (build (of_Z 30) Examples.list_jobs); Sleep Blocking (of_Z 1);
        Send Blocking (build (of_Z 30) Examples.list_jobs); Sleep Blocking (of_Z 2);
        Send Blocking (build (of_Z 30) Examples.list_jobs)] 3).
Proof. reflexivity. Qed.

Example validate_ex :
  Client._validate_generate_params "hello" "standard" (of_Z 1) (Finite (4 # 5))
  = Raise Client.exaggeration_pro_only
  /\ Client._validate_generate_params "hello" "pro" (of_Z 1) (Finite (4 # 5)) = Ok tt
  /\ Client._validate_generate_params "hello" "pro" (of_Z 1) (Finite (3 # 2))
     = Raise (Client.exaggeration_out_of_range (Finite (3 # 2)))
  /\ Client._validate_generate_params (repeat_str "x" 10000) "standard" (of_Z 1) Client.half
     = Ok tt.
Proof. repeat split; vm_compute; reflexivity. Qed.

(** A stream with the format spelled [MP3]: the caller gets the iterator
    of the response. *)
Example stream_ex :
  fst (Client.stream (Examples.leanvox 2 5000) "Hello world!"
         (Client.with_format Client.defaults "MP3") (start (Examples.always Examples.audio)))
  = Ok [Bytes "audio"].
Proof. reflexivity. Qed.

(** Without a key the first network use fails, not the construction. *)
Example missing_key_ex :
  Auth.resolve_api_key None {| Auth.environ_get := None; Auth.config := Auth.Missing |}
  = Ok None
  /\ exists e, Auth.ensure_api_key None = Raise (Leanvox e) /\ cls e = AuthenticationError.
Proof. split; [reflexivity |]. eexists. split; reflexivity. Qed.

(* ********************************************************************** *)
(** * Further properties *)

(** ** The retry loop on any server *)

Lemma attempts_success (self : HTTPClient.t) (a : args) (todo : nat) (attempt : Z)
    (last_err : option transport_error) (w : world) (resp : response) :
  server w (sent w) = Response resp ->
  status_code resp < 400 ->
  HTTPClient.attempts self a (S todo) attempt last_err w
  = (Replies.parsed resp, after w [Send Blocking (build (HTTPClient._timeout self) a)] 1).
Proof.
  intros Hs H4. cbn [HTTPClient.attempts]. unfold mbind at 1. unfold call at 1.
  rewrite Hs, after_sent_S. apply Z.ltb_lt in H4. rewrite H4.
  unfold Replies.parsed, ret, raise.
  destruct (truthy (VStr (content resp))); [destruct (json resp) |]; reflexivity.
Qed.

Lemma attempts_failure_retry (self : HTTPClient.t) (a : args) (todo : nat) (attempt : Z)
    (last_err : option transport_error) (w : world) (e : transport_error) :
  server w (sent w) = Fails e ->
  Replies.caught e = true ->
  0 <= attempt < HTTPClient._max_retries self ->
  HTTPClient.attempts self a (S todo) attempt last_err w
  = HTTPClient.attempts self a todo (attempt + 1) (Some e)
      (after w [Send Blocking (build (HTTPClient._timeout self) a);
                Sleep Blocking (Spec.fixed_schedule attempt)] 1).
Proof.
  intros Hs Hc Ha. cbn [HTTPClient.attempts]. unfold mbind at 1. unfold call at 1.
  rewrite Hs.
  destruct (Z.ltb_spec attempt (HTTPClient._max_retries self)); [| lia].
  assert (E : forall k : transport_error -> M value,
             (wait <- lift (schedule attempt) ;; time_sleep wait ;;; k e)
               {| server := server w; sent := S (sent w);
                  trace := trace w ++ [Send Blocking (build (HTTPClient._timeout self) a)] |}
             = k e (after w [Send Blocking (build (HTTPClient._timeout self) a);
                             Sleep Blocking (Spec.fixed_schedule attempt)] 1)).
  { intros k. unfold mbind, lift.
    rewrite schedule_fixed by lia.
    rewrite (time_sleep_accepted _ _ (fixed_schedule_accepted attempt)).
    cbn [server sent trace].
    f_equal. unfold after. f_equal.
    - apply eq_sym, Nat.add_1_r.
    - rewrite <- app_assoc. reflexivity. }
  destruct e as [m | m | m]; try discriminate Hc.
  - exact (E (fun e => HTTPClient.attempts self a todo (attempt + 1) (Some e))).
  - exact (E (fun e => HTTPClient.attempts self a todo (attempt + 1) (Some e))).
Qed.

Lemma attempts_failure_last (self : HTTPClient.t) (a : args) (todo : nat) (attempt : Z)
    (last_err : option transport_error) (w : world) (e : transport_error) :
  server w (sent w) = Fails e ->
  Replies.caught e = true ->
  HTTPClient._max_retries self <= attempt ->
  HTTPClient.attempts self a (S todo) attempt last_err w
  = (Raise (connection_error
              ("Connection failed after " ++ str_of_int (HTTPClient._max_retries self + 1)
               ++ " attempts: " ++ str_of_transport_error e)),
     after w [Send Blocking (build (HTTPClient._timeout self) a)] 1).
Proof.
  intros Hs Hc Ha. cbn [HTTPClient.attempts]. unfold mbind at 1. unfold call at 1.
  rewrite Hs, after_sent_S.
  destruct (Z.ltb_spec attempt (HTTPClient._max_retries self)); [lia |].
  destruct e as [m | m | m]; try discriminate Hc; reflexivity.
Qed.

Lemma attempts_failure_other (self : HTTPClient.t) (a : args) (todo : nat) (attempt : Z)
    (last_err : option transport_error) (w : world) (e : transport_error) :
  server w (sent w) = Fails e ->
  Replies.caught e = false ->
  HTTPClient.attempts self a (S todo) attempt last_err w
  = (Raise (Transport e), after w [Send Blocking (build (HTTPClient._timeout self) a)] 1).
Proof.
  intros Hs Hc. cbn [HTTPClient.attempts]. unfold mbind at 1. unfold call at 1.
  rewrite Hs, after_sent_S.
  destruct e as [m | m | m]; try discriminate Hc; reflexivity.
Qed.

(** The step taken, while an attempt is left, on a reply after which the
    executor sleeps. *)
Lemma attempts_retried (self : HTTPClient.t) (a : args) (todo : nat) (attempt : Z)
    (last_err : option transport_error) (w : world) :
  Replies.retried (server w (sent w)) = true ->
  0 <= attempt < HTTPClient._max_retries self ->
  exists d last_err',
    sleep_error d = None
    /\ HTTPClient.attempts self a (S todo) attempt last_err w
       = HTTPClient.attempts self a todo (attempt + 1) last_err'
           (after w [Send Blocking (build (HTTPClient._timeout self) a);
                     Sleep Blocking d] 1).
Proof.
  intros Ht Ha. destruct (server w (sent w)) as [resp | e] eqn:Hs.
  - cbn [Replies.retried] in Ht. apply andb_true_iff in Ht. destruct Ht as [Hr Hacc].
    assert (Hsl := accepted_wait resp attempt (proj1 Ha) Hacc).
    eexists. exists last_err. split; [exact Hsl |].
    apply (attempts_retry self a todo attempt last_err w resp Hs Ha Hr Hsl).
  - eexists. exists (Some e). split; [apply (fixed_schedule_accepted attempt) |].
    apply (attempts_failure_retry self a todo attempt last_err w e Hs Ht Ha).
Qed.

(** One iteration of the loop, whatever the reply: the call ends after the
    send, or an attempt is left and the loop goes on after the send and a
    sleep. *)
Lemma attempts_step (self : HTTPClient.t) (a : args) (todo : nat) (attempt : Z)
    (last_err : option transport_error) (w : world) :
  0 <= attempt ->
  (exists out,
     HTTPClient.attempts self a (S todo) attempt last_err w
     = (out, after w [Send Blocking (build (HTTPClient._timeout self) a)] 1))
  \/ (attempt < HTTPClient._max_retries self
      /\ exists d last_err',
           sleep_error d = None
           /\ HTTPClient.attempts self a (S todo) attempt last_err w
              = HTTPClient.attempts self a todo (attempt + 1) last_err'
                  (after w [Send Blocking (build (HTTPClient._timeout self) a);
                            Sleep Blocking d] 1)).
Proof.
  intros H0. destruct (server w (sent w)) as [resp | e] eqn:Hs.
  - destruct (Z.lt_ge_cases (status_code resp) 400) as [Hlt | Hge].
    + left. eexists. apply (attempts_success self a todo attempt last_err w resp Hs Hlt).
    + destruct (retryable_status (status_code resp)
                && (attempt <? HTTPClient._max_retries self)) eqn:Hc.
      * apply andb_true_iff in Hc. destruct Hc as [Hr Hlt]. apply Z.ltb_lt in Hlt.
        destruct (sleep_error (Spec.backoff_any_sign attempt (header_Retry_After resp)))
          as [x |] eqn:Hsl.
        -- left. eexists.
           apply (attempts_retry_refused self a todo attempt last_err w resp x Hs);
             [lia | exact Hr | exact Hsl].
        -- right. split; [exact Hlt |]. eexists. exists last_err. split; [exact Hsl |].
           apply (attempts_retry self a todo attempt last_err w resp Hs);
             [lia | exact Hr | exact Hsl].
      * left.
        destruct (attempts_raise self a todo attempt last_err w resp Hs Hge (or_intror Hc))
          as (x & _ & Hrun).
        eexists. exact Hrun.
  - destruct (Replies.caught e) eqn:Hc.
    + destruct (Z.lt_ge_cases attempt (HTTPClient._max_retries self)) as [Hlt | Hge].
      * right. split; [exact Hlt |]. eexists. exists (Some e).
        split; [apply (fixed_schedule_accepted attempt) |].
        apply (attempts_failure_retry self a todo attempt last_err w e Hs Hc). lia.
      * left. eexists.
        apply (attempts_failure_last self a todo attempt last_err w e Hs Hc Hge).
    + left. eexists. apply (attempts_failure_other self a todo attempt last_err w e Hs Hc).
Qed.

Lemma sleeps_made_app (t1 t2 : list event) :
  Spec.sleeps_made (t1 ++ t2) = (Spec.sleeps_made t1 + Spec.sleeps_made t2)%nat.
Proof. unfold Spec.sleeps_made. rewrite filter_app, length_app. reflexivity. Qed.

Lemma attempts_made_app (t1 t2 : list event) :
  Spec.attempts_made (t1 ++ t2) = (Spec.attempts_made t1 + Spec.attempts_made t2)%nat.
Proof. unfold Spec.attempts_made. rewrite filter_app, length_app. reflexivity. Qed.

Lemma opens_made_app (t1 t2 : list event) :
  Spec.opens_made (t1 ++ t2) = (Spec.opens_made t1 + Spec.opens_made t2)%nat.
Proof. unfold Spec.opens_made. rewrite filter_app, length_app. reflexivity. Qed.

(** What the loop does whatever the server answers, with [todo] iterations
    left of which the last one is the attempt number [max_retries]. *)
Lemma attempts_alternating (self : HTTPClient.t) (a : args) (todo : nat) :
  forall (attempt : Z) (last_err : option transport_error) (w : world),
    0 <= attempt ->
    attempt + Z.of_nat (S todo) = HTTPClient._max_retries self + 1 ->
    exists waits,
      snd (HTTPClient.attempts self a (S todo) attempt last_err w)
      = after w (Replies.alternating (build (HTTPClient._timeout self) a) waits)
          (S (List.length waits))
      /\ (List.length waits <= todo)%nat
      /\ Forall (fun d => sleep_error d = None) waits.
Proof.
  induction todo as [| todo IH]; intros attempt last_err w H0 Hrel.
  - destruct (attempts_step self a 0 attempt last_err w H0)
      as [(out & Hrun) | (Hlt & _)]; [| lia].
    exists []. rewrite Hrun. repeat split; [apply Nat.le_refl | constructor].
  - destruct (attempts_step self a (S todo) attempt last_err w H0)
      as [(out & Hrun) | (Hlt & d & last_err' & Hsl & Hrun)].
    + exists []. rewrite Hrun. repeat split; [apply Nat.le_0_l | constructor].
    + destruct (IH (attempt + 1) last_err'
                  (after w [Send Blocking (build (HTTPClient._timeout self) a);
                            Sleep Blocking d] 1)) as (waits & Hw & Hlen & Hall); [lia | lia |].
      exists (d :: waits). rewrite Hrun, Hw, after_after.
      split; [reflexivity |]. split; [cbn [List.length]; lia |].
      constructor; assumption.
Qed.

Lemma alternating_counts (req : request_) (waits : list float) :
  Spec.attempts_made (Replies.alternating req waits) = S (List.length waits)
  /\ Spec.sleeps_made (Replies.alternating req waits) = List.length waits
  /\ Spec.opens_made (Replies.alternating req waits) = 0%nat
  /\ Forall (fun e => Spec.is_send e = true -> e = Send Blocking req)
       (Replies.alternating req waits)
  /\ hd_error (Replies.alternating req waits) = Some (Send Blocking req).
Proof.
  unfold Spec.attempts_made, Spec.sleeps_made, Spec.opens_made.
  induction waits as [| d waits (Ha & Hs & Ho & Hall & Hhd)];
    cbn [Replies.alternating filter Spec.is_send Spec.is_sleep Spec.is_open List.length
         hd_error].
  - repeat split. repeat constructor.
  - rewrite Ha, Hs, Ho. repeat split.
    constructor; [reflexivity |]. constructor; [discriminate |]. exact Hall.
Qed.

Lemma request_alternating (self : HTTPClient.t) (a : args) (w : world) :
  0 <= HTTPClient._max_retries self ->
  exists waits,
    snd (HTTPClient.request self a w)
    = after w (Replies.alternating (build (HTTPClient._timeout self) a) waits)
        (S (List.length waits))
    /\ Z.of_nat (List.length waits) <= HTTPClient._max_retries self
    /\ Forall (fun d => sleep_error d = None) waits.
Proof.
  intros HN. unfold HTTPClient.request.
  replace (Z.to_nat (HTTPClient._max_retries self + 1))
    with (S (Z.to_nat (HTTPClient._max_retries self))) by lia.
  destruct (attempts_alternating self a (Z.to_nat (HTTPClient._max_retries self)) 0 None w)
    as (waits & Hw & Hlen & Hall); [lia | lia |].
  exists waits. repeat split; [exact Hw | lia | exact Hall].
Qed.

Lemma request_invariant (self : HTTPClient.t) (a : args) (w : world) :
  0 <= HTTPClient._max_retries self ->
  exists evs,
    snd (HTTPClient.request self a w) = after w evs (Spec.attempts_made evs)
    /\ 1 <= Z.of_nat (Spec.attempts_made evs) <= HTTPClient._max_retries self + 1
    /\ (Spec.sleeps_made evs + 1 = Spec.attempts_made evs)%nat
    /\ Spec.opens_made evs = 0%nat
    /\ Forall (fun e => Spec.is_send e = true ->
                        e = Send Blocking (build (HTTPClient._timeout self) a)) evs
    /\ hd_error evs = Some (Send Blocking (build (HTTPClient._timeout self) a)).
Proof.
  intros HN. destruct (request_alternating self a w HN) as (waits & Hw & Hlen & _).
  destruct (alternating_counts (build (HTTPClient._timeout self) a) waits)
    as (Ha & Hs & Ho & Hall & Hhd).
  exists (Replies.alternating (build (HTTPClient._timeout self) a) waits).
  rewrite Ha, Hs. repeat split; try assumption; lia.
Qed.

(** X1: whatever the server answers, the effects of a call allowed
    [max_retries >= 0] retries are exactly these: the same request sent
    [k + 1] times for some [k <= max_retries], with exactly one sleep
    between two consecutive sends and nothing before the first send or
    after the last; no stream is opened, and every sleep is of a duration
    [time.sleep] takes (a wait it refuses ends the call after the send, with
    the exception of the sleep). *)
Theorem request_attempts_bounded (self : HTTPClient.t) (a : args) (w : world) :
  0 <= HTTPClient._max_retries self ->
  exists waits,
    snd (HTTPClient.request self a w)
    = after w (Replies.alternating (build (HTTPClient._timeout self) a) waits)
        (S (List.length waits))
    /\ Z.of_nat (List.length waits) <= HTTPClient._max_retries self
    /\ Forall (fun d => sleep_error d = None) waits.
Proof.
  exact (request_alternating self a w).
Qed.

(** Two 503s then a refused connection, with two retries allowed: three
    sends with the sleeps 1.0 and 2.0 in between. *)
Lemma request_attempts_bounded_witness :
  exists waits,
    snd (HTTPClient.request (Examples.executor 2) Examples.list_jobs
           (start (Replies.first_then 2
                     (Response (Examples.response_with 503 None "" None))
                     (fun _ => Fails (ConnectError "Connection refused")))))
    = after (start (Replies.first_then 2
                      (Response (Examples.response_with 503 None "" None))
                      (fun _ => Fails (ConnectError "Connection refused"))))
        (Replies.alternating (build (of_Z 30) Examples.list_jobs) waits)
        (S (List.length waits))
    /\ Z.of_nat (List.length waits) <= 2
    /\ Forall (fun d => sleep_error d = None) waits.
Proof.
  apply (request_attempts_bounded (Examples.executor 2) Examples.list_jobs).
  simpl. lia.
Defined.

(** A 429 bearing [Retry-After: -1]: the call is the one send. *)
Example request_refused_wait_ex :
  snd (HTTPClient.request (Examples.executor 2) Examples.list_jobs
         (start (Examples.always (Examples.response_with 429 (Some "-1") "" None))))
  = after (start (Examples.always (Examples.response_with 429 (Some "-1") "" None)))
      (Replies.alternating (build (of_Z 30) Examples.list_jobs) []) 1.
Proof. vm_compute. reflexivity. Qed.


(** ** Connection failures *)

Lemma attempts_all_failures (self : HTTPClient.t) (a : args) (k : nat) :
  forall (w : world) (attempt : Z) (last_err : option transport_error),
    0 <= attempt ->
    attempt + Z.of_nat k = HTTPClient._max_retries self ->
    (forall i, (i <= k)%nat ->
       exists e, server w (sent w + i) = Fails e /\ Replies.caught e = true) ->
    exists last evs,
      server w (sent w + k) = Fails last
      /\ HTTPClient.attempts self a (S k) attempt last_err w
         = (Raise (connection_error
                     ("Connection failed after "
                      ++ str_of_int (HTTPClient._max_retries self + 1)
                      ++ " attempts: " ++ str_of_transport_error last)),
            after w evs (S k))
      /\ Spec.attempts_made evs = S k
      /\ Replies.slept evs = Replies.waits attempt k.
Proof.
  induction k as [| k IH]; intros w attempt last_err H0 Hk Hsrv.
  - destruct (Hsrv 0%nat (Nat.le_refl _)) as (e & Hs & Hc).
    rewrite Nat.add_0_r in Hs |- *.
    exists e, [Send Blocking (build (HTTPClient._timeout self) a)].
    rewrite (attempts_failure_last self a 0 attempt last_err w e Hs Hc) by lia.
    repeat split; assumption || reflexivity.
  - destruct (Hsrv 0%nat (Nat.le_0_l _)) as (e & Hs & Hc).
    rewrite Nat.add_0_r in Hs.
    rewrite (attempts_failure_retry self a (S k) attempt last_err w e Hs Hc) by lia.
    destruct (IH (after w [Send Blocking (build (HTTPClient._timeout self) a);
                           Sleep Blocking (Spec.fixed_schedule attempt)] 1)
                 (attempt + 1) (Some e)) as (last & evs & Hl & Hrun & Ha & Hsl).
    + lia.
    + lia.
    + intros i Hi. cbn [after server sent].
      destruct (Hsrv (S i)) as (e' & He' & Hc'); [lia |].
      exists e'. replace (sent w + 1 + i)%nat with (sent w + S i)%nat by lia. auto.
    + exists last. eexists. rewrite Hrun, after_after.
      cbn [after server sent] in Hl.
      replace (sent w + 1 + k)%nat with (sent w + S k)%nat in Hl by lia.
      split; [exact Hl |]. split; [reflexivity |].
      rewrite attempts_made_app, Ha. split; [reflexivity |].
      cbn [app Replies.slept flat_map Replies.waits]. fold (Replies.slept evs).
      rewrite Hsl. reflexivity.
Qed.

(** X2: with [max_retries = N >= 0], when every one of the [N + 1] attempts
    fails to connect or times out, [request] makes exactly [N + 1] attempts,
    sleeps the fixed schedule (1.0, 2.0, 4.0, 4.0, ...) between them whatever
    the failures are, and raises a plain [LeanvoxError] with code
    ["connection_error"] and status 0 whose message gives the number of
    attempts and the text of the last failure. *)
Theorem connection_failures_exhausted (self : HTTPClient.t) (a : args) (w : world) :
  0 <= HTTPClient._max_retries self ->
  (forall i, (i <= Z.to_nat (HTTPClient._max_retries self))%nat ->
     exists e, server w (sent w + i) = Fails e /\ Replies.caught e = true) ->
  exists last evs err,
    server w (sent w + Z.to_nat (HTTPClient._max_retries self)) = Fails last
    /\ HTTPClient.request self a w
       = (Raise (Leanvox err), after w evs (Z.to_nat (HTTPClient._max_retries self + 1)))
    /\ cls err = LeanvoxError
    /\ code err = VStr "connection_error"
    /\ Errors.status_code err = 0
    /\ message err
       = Msg (Str ("Connection failed after "
                   ++ str_of_int (HTTPClient._max_retries self + 1)
                   ++ " attempts: " ++ str_of_transport_error last))
    /\ Z.of_nat (Spec.attempts_made evs) = HTTPClient._max_retries self + 1
    /\ Replies.slept evs
       = Replies.waits 0 (Z.to_nat (HTTPClient._max_retries self)).
Proof.
  intros HN Hsrv. unfold HTTPClient.request.
  replace (Z.to_nat (HTTPClient._max_retries self + 1))
    with (S (Z.to_nat (HTTPClient._max_retries self))) by lia.
  destruct (attempts_all_failures self a (Z.to_nat (HTTPClient._max_retries self)) w 0 None)
    as (last & evs & Hl & Hrun & Ha & Hsl); [lia | lia | exact Hsrv |].
  exists last, evs. eexists. rewrite Hrun, Ha.
  split; [exact Hl |]. split; [reflexivity |].
  repeat split; try reflexivity; try assumption. lia.
Qed.

(** Every connection refused, two retries allowed: three attempts, sleeps
    of 1.0 and 2.0. *)
Lemma connection_failures_exhausted_witness :
  exists last evs err,
    Fails (ConnectError "Connection refused") = Fails last
    /\ HTTPClient.request (Examples.executor 2) Examples.list_jobs
         (start (fun _ => Fails (ConnectError "Connection refused")))
       = (Raise (Leanvox err),
          after (start (fun _ => Fails (ConnectError "Connection refused"))) evs 3)
    /\ cls err = LeanvoxError
    /\ code err = VStr "connection_error"
    /\ Errors.status_code err = 0
    /\ message err
       = Msg (Str ("Connection failed after " ++ str_of_int (2 + 1)
                   ++ " attempts: " ++ str_of_transport_error last))
    /\ Z.of_nat (Spec.attempts_made evs) = 2 + 1
    /\ Replies.slept evs = [of_Z 1; of_Z 2].
Proof.
  refine (connection_failures_exhausted (Examples.executor 2) Examples.list_jobs
            (start (fun _ => Fails (ConnectError "Connection refused"))) _ _).
  - simpl. lia.
  - intros i _. eexists. split; reflexivity.
Defined.

(** ** Recovery *)

Lemma attempts_recover (self : HTTPClient.t) (a : args) (k : nat) :
  forall (w : world) (attempt : Z) (last_err : option transport_error) (more : nat)
         (resp : response),
    0 <= attempt ->
    attempt + Z.of_nat k <= HTTPClient._max_retries self ->
    (forall i, (i < k)%nat -> Replies.retried (server w (sent w + i)) = true) ->
    server w (sent w + k) = Response resp ->
    status_code resp < 400 ->
    exists evs,
      HTTPClient.attempts self a (S (k + more)) attempt last_err w
      = (Replies.parsed resp, after w evs (S k))
      /\ Spec.attempts_made evs = S k
      /\ Spec.sleeps_made evs = k.
Proof.
  induction k as [| k IH]; intros w attempt last_err more resp H0 Hk Htr Hs H4.
  - rewrite Nat.add_0_r in Hs. cbn [Nat.add].
    rewrite (attempts_success self a more attempt last_err w resp Hs H4).
    eexists. repeat split.
  - assert (Ht0 : Replies.retried (server w (sent w)) = true).
    { rewrite <- (Nat.add_0_r (sent w)). apply Htr. lia. }
    destruct (attempts_retried self a (S (k + more)) attempt last_err w Ht0)
      as (d & last_err' & _ & Hstep); [lia |].
    cbn [Nat.add]. rewrite Hstep.
    destruct (IH (after w [Send Blocking (build (HTTPClient._timeout self) a);
                           Sleep Blocking d] 1)
                 (attempt + 1) last_err' more resp) as (evs & Hrun & Ha & Hsl).
    + lia.
    + lia.
    + intros i Hi. cbn [after server sent].
      replace (sent w + 1 + i)%nat with (sent w + S i)%nat by lia. apply Htr. lia.
    + cbn [after server sent].
      replace (sent w + 1 + k)%nat with (sent w + S k)%nat by lia. exact Hs.
    + exact H4.
    + eexists. rewrite Hrun, after_after. split; [reflexivity |].
      rewrite attempts_made_app, sleeps_made_app, Ha, Hsl. split; reflexivity.
Qed.

(** X3: after [k <= max_retries] replies each of which is a connection
    failure, a timeout, or a 429, 500, 502, 503 or 504 whose wait
    [time.sleep] takes (no Retry-After header, or one that is not a number,
    or a number that is a duration), in any mix, a reply with a status below
    400 ends the call after exactly [k + 1] attempts and [k] sleeps:
    [request] returns its decoded body, an empty dict when the body is
    empty, and raises the decoding error, without another attempt, when a
    body that is not empty does not decode. *)
Theorem request_recovers (self : HTTPClient.t) (a : args) (w : world) (k : nat)
    (resp : response) :
  Z.of_nat k <= HTTPClient._max_retries self ->
  (forall i, (i < k)%nat -> Replies.retried (server w (sent w + i)) = true) ->
  server w (sent w + k) = Response resp ->
  status_code resp < 400 ->
  exists evs,
    HTTPClient.request self a w = (Replies.parsed resp, after w evs (S k))
    /\ Spec.attempts_made evs = S k
    /\ Spec.sleeps_made evs = k
    /\ (content resp = "" -> Replies.parsed resp = Ok empty_dict)
    /\ (content resp <> "" -> forall data, json resp = Some data ->
                                           Replies.parsed resp = Ok data)
    /\ (content resp <> "" -> json resp = None ->
        Replies.parsed resp = Raise JSONDecodeError).
Proof.
  intros Hk Htr Hs H4. unfold HTTPClient.request.
  replace (Z.to_nat (HTTPClient._max_retries self + 1))
    with (S (k + (Z.to_nat (HTTPClient._max_retries self) - k)))%nat by lia.
  destruct (attempts_recover self a k w 0 None
              (Z.to_nat (HTTPClient._max_retries self) - k) resp)
    as (evs & Hrun & Ha & Hsl); try assumption; try lia.
  exists evs. split; [exact Hrun |]. split; [exact Ha |]. split; [exact Hsl |].
  unfold Replies.parsed. cbn [truthy]. repeat split.
  - intros ->. reflexivity.
  - intros Hc data ->. apply String.eqb_neq in Hc. rewrite Hc. reflexivity.
  - intros Hc ->. apply String.eqb_neq in Hc. rewrite Hc. reflexivity.
Qed.

(** A 503 then a refused connection, then the list of jobs. *)
Lemma request_recovers_witness :
  exists evs,
    HTTPClient.request (Examples.executor 2) Examples.list_jobs
      (start (fun n => match n with
                       | O => Response (Examples.response_with 503 None "" None)
                       | S O => Fails (ConnectError "Connection refused")
                       | S (S _) => Response Examples.job_completed
                       end))
    = (Replies.parsed Examples.job_completed,
       after (start (fun n => match n with
                              | O => Response (Examples.response_with 503 None "" None)
                              | S O => Fails (ConnectError "Connection refused")
                              | S (S _) => Response Examples.job_completed
                              end)) evs 3)
    /\ Spec.attempts_made evs = 3%nat
    /\ Spec.sleeps_made evs = 2%nat
    /\ (content Examples.job_completed = "" ->
        Replies.parsed Examples.job_completed = Ok empty_dict)
    /\ (content Examples.job_completed <> "" ->
        forall data, json Examples.job_completed = Some data ->
                     Replies.parsed Examples.job_completed = Ok data)
    /\ (content Examples.job_completed <> "" -> json Examples.job_completed = None ->
        Replies.parsed Examples.job_completed = Raise JSONDecodeError).
Proof.
  refine (request_recovers (Examples.executor 2) Examples.list_jobs
            (start (fun n => match n with
                             | O => Response (Examples.response_with 503 None "" None)
                             | S O => Fails (ConnectError "Connection refused")
                             | S (S _) => Response Examples.job_completed
                             end)) 2 Examples.job_completed _ _ _ _).
  - simpl. lia.
  - intros [| [| i]] Hi; [reflexivity | reflexivity | lia].
  - reflexivity.
  - simpl. lia.
Defined.

(** ** The classifier *)

Lemma map_get_class_of (status : Z) :
  map_get _ERROR_MAP status LeanvoxError = Replies.class_of status.
Proof.
  unfold Replies.class_of, _ERROR_MAP. cbn [map_get].
  rewrite (Z.eqb_sym 400), (Z.eqb_sym 401), (Z.eqb_sym 402), (Z.eqb_sym 404),
    (Z.eqb_sym 429), (Z.eqb_sym 500).
  reflexivity.
Qed.

Lemma class_of_cases (status : Z) :
  error_class_eqb (Replies.class_of status) InsufficientBalanceError = (status =? 402)
  /\ error_class_eqb (Replies.class_of status) RateLimitError = (status =? 429).
Proof.
  unfold Replies.class_of.
  destruct (Z.eqb_spec status 400) as [-> | ?]; [split; reflexivity |].
  destruct (Z.eqb_spec status 401) as [-> | ?]; [split; reflexivity |].
  destruct (Z.eqb_spec status 402) as [-> | ?]; [split; reflexivity |].
  destruct (Z.eqb_spec status 404) as [-> | ?]; [split; reflexivity |].
  destruct (Z.eqb_spec status 429) as [-> | ?]; [split; reflexivity |].
  destruct (Z.eqb_spec status 500) as [-> | ?]; split; reflexivity.
Qed.

(** The outcome of [_raise_for_status] by status and body. *)
Lemma raise_for_status_classes (status : Z) (body : value) :
  (status < 400 -> _raise_for_status status body = Ok tt)
  /\ (400 <= status -> exists x, _raise_for_status status body = Raise x)
  /\ (400 <= status ->
      forall d error_data,
        body = VDict d ->
        dict_get d "error" body = VDict error_data ->
        exists e,
          _raise_for_status status body = Raise (Leanvox e)
          /\ cls e = Replies.class_of status
          /\ message e
             = MsgValue (dict_get error_data "message"
                           (VStr ("API error " ++ str_of_int status)))
          /\ code e = dict_get error_data "code" (VStr "unknown")
          /\ Errors.status_code e = status
          /\ Errors.body e = body
          /\ balance_cents e
             = (if status =? 402
                then Some (dict_get error_data "balance_cents" (VInt 0)) else None)
          /\ retry_after e
             = (if status =? 429
                then Some (dict_get error_data "retry_after" (VInt 0)) else None)).
Proof.
  split; [| split].
  - intros H. unfold _raise_for_status. apply Z.ltb_lt in H. rewrite H. reflexivity.
  - apply raise_for_status_raises.
  - intros H d error_data -> Hd. unfold _raise_for_status.
    destruct (Z.ltb_spec status 400); [lia |].
    rewrite Hd, map_get_class_of.
    destruct (class_of_cases status) as [Hb Hr]. rewrite Hb, Hr.
    destruct (status =? 402) eqn:E2; [| destruct (status =? 429) eqn:E9];
      (eexists; split; [reflexivity |]); cbn;
      rewrite ?or_else_dict, ?Hb, ?Hr, ?E2, ?E9; repeat split.
    apply Z.eqb_eq in E2. subst status. reflexivity.
Qed.

(** X4: [_raise_for_status] returns without raising for every status
    below 400 whatever the body, and never returns for a status from 400 on.
    On a body that is an object whose error object is [error_data] (the
    member [error], or the body itself without one) it raises the error of
    the class mapped to the status ([LeanvoxError] itself for an unmapped
    status) holding the status and the whole body; its message and its code
    are read from the error object, ["API error <status>"] and ["unknown"]
    standing in for a missing one; [balance_cents] is set for 402 only and
    [retry_after] for 429 only, each read from the error object, 0 when it
    is missing. *)
Theorem raise_for_status_classifies (status : Z) (body : value) :
  (status < 400 -> _raise_for_status status body = Ok tt)
  /\ (400 <= status -> exists x, _raise_for_status status body = Raise x)
  /\ (400 <= status ->
      forall d error_data,
        body = VDict d ->
        dict_get d "error" body = VDict error_data ->
        exists e,
          _raise_for_status status body = Raise (Leanvox e)
          /\ cls e = Replies.class_of status
          /\ message e
             = MsgValue (dict_get error_data "message"
                           (VStr ("API error " ++ str_of_int status)))
          /\ code e = dict_get error_data "code" (VStr "unknown")
          /\ Errors.status_code e = status
          /\ Errors.body e = body
          /\ balance_cents e
             = (if status =? 402
                then Some (dict_get error_data "balance_cents" (VInt 0)) else None)
          /\ retry_after e
             = (if status =? 429
                then Some (dict_get error_data "retry_after" (VInt 0)) else None)).
Proof.
  exact (raise_for_status_classes status body).
Qed.

(** ** Statuses that are retried, and statuses that are not *)




(** X6: a status from 500 on that is not 500, 502, 503 or 504 (a 501, a
    505, ...) is not retried: whatever the number of retries allowed,
    [request] ends after one attempt and no sleep, raising what
    [_raise_for_status] raises for the response: for a body in the shape
    of the interface (raw text, or an object whose [error] member, if any,
    is an object) the plain [LeanvoxError] holding the status, for any
    other body an [AttributeError]. *)
Theorem server_status_not_retried (self : HTTPClient.t) (a : args) (w : world)
    (resp : response) :
  0 <= HTTPClient._max_retries self ->
  server w (sent w) = Response resp ->
  500 <= status_code resp ->
  retryable_status (status_code resp) = false ->
  exists x,
    HTTPClient.request self a w
    = (Raise x, after w [Send Blocking (build (HTTPClient._timeout self) a)] 1)
    /\ _raise_for_status (status_code resp) (error_body resp) = Raise x
    /\ (Spec.error_object_or_raw_text resp = true ->
        exists e,
          x = Leanvox e /\ cls e = LeanvoxError
          /\ Errors.status_code e = status_code resp)
    /\ (Spec.error_object_or_raw_text resp = false -> x = AttributeError "get").
Proof.
  intros HN Hs H5 Hr. unfold HTTPClient.request.
  replace (Z.to_nat (HTTPClient._max_retries self + 1))
    with (S (Z.to_nat (HTTPClient._max_retries self))) by lia.
  assert (H400 : 400 <= status_code resp) by lia.
  destruct (attempts_raise self a (Z.to_nat (HTTPClient._max_retries self)) 0 None w resp
              Hs H400) as (x & Hx & Hrun).
  { right. rewrite Hr. reflexivity. }
  exists x. split; [exact Hrun |]. split; [exact Hx |]. split; [| intros Hshape].
  2: { rewrite (raise_for_status_untyped resp H400 Hshape) in Hx.
       injection Hx as <-. reflexivity. }
  intros Hshape.
  destruct (raise_for_status_typed resp H400 Hshape) as (e & He & Hc & Hst).
  rewrite He in Hx. injection Hx as <-. exists e.
  split; [reflexivity |]. split; [| exact Hst].
  rewrite Hc, map_get_class_of. unfold Replies.class_of.
  destruct (Z.eqb_spec (status_code resp) 400); [lia |].
  destruct (Z.eqb_spec (status_code resp) 401); [lia |].
  destruct (Z.eqb_spec (status_code resp) 402); [lia |].
  destruct (Z.eqb_spec (status_code resp) 404); [lia |].
  destruct (Z.eqb_spec (status_code resp) 429); [lia |].
  destruct (Z.eqb_spec (status_code resp) 500) as [E | ?]; [| reflexivity].
  rewrite E in Hr. discriminate Hr.
Qed.

(** A 501 to a client allowing two retries. *)
Lemma server_status_not_retried_witness :
  exists x,
    HTTPClient.request (Examples.executor 2) Examples.list_jobs
      (start (Examples.always (Examples.response_with 501 None "Not Implemented" None)))
    = (Raise x,
       after (start (Examples.always (Examples.response_with 501 None "Not Implemented" None)))
         [Send Blocking (build (of_Z 30) Examples.list_jobs)] 1)
    /\ _raise_for_status 501
         (error_body (Examples.response_with 501 None "Not Implemented" None)) = Raise x
    /\ (Spec.error_object_or_raw_text
          (Examples.response_with 501 None "Not Implemented" None) = true ->
        exists e,
          x = Leanvox e /\ cls e = LeanvoxError /\ Errors.status_code e = 501)
    /\ (Spec.error_object_or_raw_text
          (Examples.response_with 501 None "Not Implemented" None) = false ->
        x = AttributeError "get").
Proof.
  refine (server_status_not_retried (Examples.executor 2) Examples.list_jobs
            (start (Examples.always (Examples.response_with 501 None "Not Implemented" None)))
            (Examples.response_with 501 None "Not Implemented" None) _ _ _ _).
  - simpl. lia.
  - reflexivity.
  - simpl. lia.
  - reflexivity.
Defined.

(** ** Credentials *)

Lemma validate_prefix_ok (key : value) :
  Auth._validate_prefix key = Ok tt ->
  exists k, key = VStr k /\ k <> ""
            /\ existsb (startswith k) Auth._VALID_PREFIXES = true.
Proof.
  unfold Auth._validate_prefix. intros H.
  destruct (truthy key) eqn:T; cbn [negb] in H; [| discriminate H].
  destruct key as [| | | | k | |]; try discriminate H.
  exists k. split; [reflexivity |]. split.
  - cbn [truthy] in T. intros ->. discriminate T.
  - destruct (existsb (startswith k) Auth._VALID_PREFIXES); [reflexivity | discriminate H].
Qed.

(** X7: a key passes [_validate_prefix] exactly when it starts with
    [lv_live_] or with [lv_test_]; any other string, the empty one
    included, raises an [AuthenticationError] with code ["invalid_api_key"]
    and status 401. *)
Theorem validate_prefix_accepts (k : string) :
  (Auth._validate_prefix (VStr k) = Ok tt
   <-> startswith k "lv_live_" = true \/ startswith k "lv_test_" = true)
  /\ (forall x, Auth._validate_prefix (VStr k) = Raise x ->
                exists e, x = Leanvox e /\ cls e = AuthenticationError
                          /\ code e = VStr "invalid_api_key"
                          /\ Errors.status_code e = 401).
Proof.
  assert (P : existsb (startswith k) Auth._VALID_PREFIXES
              = startswith k "lv_live_" || startswith k "lv_test_").
  { cbn [existsb Auth._VALID_PREFIXES]. rewrite orb_false_r. reflexivity. }
  split.
  - split.
    + intros H. destruct (validate_prefix_ok _ H) as (k' & E & _ & Hp).
      injection E as <-. rewrite P in Hp. apply orb_true_iff. exact Hp.
    + intros H. apply orb_true_iff in H. rewrite <- P in H.
      unfold Auth._validate_prefix. cbn [truthy].
      destruct (String.eqb_spec k "") as [-> | _]; [discriminate H |].
      cbn [negb]. rewrite H. reflexivity.
  - intros x. unfold Auth._validate_prefix. cbn [truthy].
    destruct (negb (negb (k =? "")%string)).
    + intros H. injection H as <-. eexists. repeat split.
    + destruct (negb (existsb (startswith k) Auth._VALID_PREFIXES)); [| discriminate].
      intros H. injection H as <-. eexists. repeat split.
Qed.

Lemma validated_ok (key : value) (r : option value) :
  Auth.validated key = Ok r ->
  r = Some key /\ Auth._validate_prefix key = Ok tt.
Proof.
  unfold Auth.validated, Errors.bind.
  destruct (Auth._validate_prefix key) as [[] | x]; [| discriminate].
  intros H. injection H as <-. auto.
Qed.

(** X8: whatever the explicit argument, the environment variable and the
    configuration file hold, a key that [resolve_api_key] returns is a
    string that is not empty and starts with [lv_live_] or [lv_test_];
    everything else is an exception or [None]. *)
Theorem resolved_key_is_valid (api_key : option string) (env : Auth.environment)
    (key : value) :
  Auth.resolve_api_key api_key env = Ok (Some key) ->
  exists k,
    key = VStr k /\ k <> ""
    /\ (startswith k "lv_live_" = true \/ startswith k "lv_test_" = true).
Proof.
  assert (V : forall v r, Auth.validated v = Ok r -> r = Some key ->
                          exists k, key = VStr k /\ k <> ""
                                    /\ (startswith k "lv_live_" = true
                                        \/ startswith k "lv_test_" = true)).
  { intros v r Hv Hr. destruct (validated_ok _ _ Hv) as [E Hok]. rewrite E in Hr.
    injection Hr as <-.
    destruct (validate_prefix_ok _ Hok) as (k & -> & Hne & Hp).
    exists k. repeat split; [exact Hne |].
    cbn [existsb Auth._VALID_PREFIXES] in Hp. rewrite orb_false_r in Hp.
    apply orb_true_iff. exact Hp. }
  unfold Auth.resolve_api_key. intros H.
  destruct api_key as [k |]; [exact (V _ _ H eq_refl) |].
  destruct (Auth.environ_get env) as [e |].
  - destruct (truthy (VStr e)); [exact (V _ _ H eq_refl) |].
    destruct (truthy (Auth._read_config_file env)); [exact (V _ _ H eq_refl) | discriminate H].
  - destruct (truthy (Auth._read_config_file env)); [exact (V _ _ H eq_refl) | discriminate H].
Qed.

(** A key in the [auth] table of the configuration file. *)
Lemma resolved_key_is_valid_witness :
  exists k,
    VStr "lv_test_from_file" = VStr k /\ k <> ""
    /\ (startswith k "lv_live_" = true \/ startswith k "lv_test_" = true).
Proof.
  apply (resolved_key_is_valid None
           {| Auth.environ_get := Some "";
              Auth.config := Auth.Parsed
                               [("auth", VDict [("api_key", VStr "lv_test_from_file")])] |}
           (VStr "lv_test_from_file")).
  reflexivity.
Defined.

(** X9: a client built without any key is built without error, and fails
    at its first use of the network: with parameters that pass validation,
    [generate], [generate_async], [get_job], [list_jobs], [dialogue] and
    [stream] raise the [AuthenticationError] (code ["invalid_api_key"],
    status 401) of the missing key, without any request. *)
Theorem missing_key_fails_at_first_use (self : Client.t) (fuel : nat) (text : string)
    (p : Client.params) (w : world) :
  Client._api_key self = None ->
  Client._validate_generate_params text (Client.model p) (Client.speed p)
    (Client.exaggeration p) = Ok tt ->
  (forall base_url timeout max_retries threshold,
     exists c,
       Client.init None {| Auth.environ_get := None; Auth.config := Auth.Missing |}
         base_url timeout max_retries threshold = Ok c
       /\ Client._api_key c = None)
  /\ exists e,
       Auth.ensure_api_key None = Raise (Leanvox e)
       /\ cls e = AuthenticationError
       /\ code e = VStr "invalid_api_key"
       /\ Errors.status_code e = 401
       /\ Client.generate self fuel text p w = (Raise (Leanvox e), w)
       /\ (forall webhook_url,
             Client.generate_async self text p webhook_url w = (Raise (Leanvox e), w))
       /\ (forall job_id, Client.get_job self job_id w = (Raise (Leanvox e), w))
       /\ Leanvox.list_jobs self w = (Raise (Leanvox e), w)
       /\ (forall lines model gap_ms,
             (2 <= List.length lines)%nat ->
             Leanvox.dialogue self lines model gap_ms w = (Raise (Leanvox e), w))
       /\ (lower (Client.format p) = "mp3" ->
           Client.stream self text p w = (Raise (Leanvox e), w)).
Proof.
  intros K V. split.
  - intros. eexists. split; reflexivity.
  - eexists. split; [reflexivity |].
    assert (G : Client._get_http self
                = Raise (Auth.invalid_api_key
                           ("No API key provided. Pass api_key to the constructor, set "
                            ++ Auth._ENV_VAR ++ " env var, or create ~/.lvox/config.toml"))).
    { unfold Client._get_http. rewrite K. reflexivity. }
    repeat split.
    + unfold Client.generate, mbind, lift. rewrite V.
      destruct (Client._auto_async_threshold self <? len text).
      * unfold Client.generate_async, mbind, lift. rewrite V, G. reflexivity.
      * rewrite G. reflexivity.
    + intros webhook_url. unfold Client.generate_async, mbind, lift. rewrite V, G.
      reflexivity.
    + intros job_id. unfold Client.get_job, mbind, lift. rewrite G. reflexivity.
    + unfold Leanvox.list_jobs, mbind, lift. rewrite G. reflexivity.
    + intros lines model gap_ms Hl. unfold Leanvox.dialogue.
      destruct (Z.ltb_spec (Z.of_nat (length lines)) 2); [lia |].
      unfold mbind, lift. rewrite G. reflexivity.
    + intros Hf. unfold Client.stream. rewrite Hf. cbn [String.eqb Ascii.eqb Bool.eqb negb].
      unfold mbind, lift. rewrite V, G. reflexivity.
Qed.

(** A client without key asked to read one job. *)
Lemma missing_key_fails_at_first_use_witness :
  exists e,
    Auth.ensure_api_key None = Raise (Leanvox e)
    /\ cls e = AuthenticationError
    /\ code e = VStr "invalid_api_key"
    /\ Errors.status_code e = 401
    /\ Client.generate
         {| Client._api_key := None; Client._base_url := Client._DEFAULT_BASE_URL;
            Client._timeout := Client._DEFAULT_TIMEOUT; Client._max_retries := 2;
            Client._auto_async_threshold := 5000 |}
         0 "Hello" Client.defaults (start (Examples.always Examples.audio))
       = (Raise (Leanvox e), start (Examples.always Examples.audio)).
Proof.
  destruct (proj2 (missing_key_fails_at_first_use
                     {| Client._api_key := None; Client._base_url := Client._DEFAULT_BASE_URL;
                        Client._timeout := Client._DEFAULT_TIMEOUT; Client._max_retries := 2;
                        Client._auto_async_threshold := 5000 |}
                     0 "Hello" Client.defaults (start (Examples.always Examples.audio))
                     eq_refl eq_refl))
    as (e & H1 & H2 & H3 & H4 & H5 & _).
  exists e. repeat split; assumption.
Defined.

(** ** The body of a generation request *)

(** X10: the body built for a generation always holds [text], [model],
    [language], [format] and [speed] as given; it holds [voice] exactly when
    the voice is not empty and [exaggeration] exactly when the model is
    [pro]; no key occurs twice. *)
Theorem build_generate_body_entries (text model voice language format : string)
    (speed exaggeration : float) :
  let body := Client._build_generate_body text model voice language format speed
                exaggeration in
  lookup "text" body = Some (VStr text)
  /\ lookup "model" body = Some (VStr model)
  /\ lookup "language" body = Some (VStr language)
  /\ lookup "format" body = Some (VStr format)
  /\ lookup "speed" body = Some (VFloat speed)
  /\ lookup "voice" body = (if (voice =? "")%string then None else Some (VStr voice))
  /\ lookup "exaggeration" body
     = (if (model =? "pro")%string then Some (VFloat exaggeration) else None)
  /\ NoDup (map fst body).
Proof.
  unfold Client._build_generate_body. cbn [truthy].
  destruct (voice =? "")%string; destruct (model =? "pro")%string;
    cbn [negb app lookup String.eqb Ascii.eqb Bool.eqb map fst];
    repeat split;
    repeat (apply NoDup_cons;
            [cbn [In]; intros H;
             repeat (destruct H as [H | H]; [discriminate H |]); exact H |]);
    apply NoDup_nil.
Qed.

(** ** Effects only add to the world *)

Lemma after_nil (w : world) : w = after w [] 0.
Proof.
  unfold after. destruct w as [s n t]. cbn [server sent trace].
  rewrite Nat.add_0_r, app_nil_r. reflexivity.
Qed.

Lemma extends_refl (w : world) : Replies.extends w w.
Proof. exists [], 0%nat. apply after_nil. Qed.

Lemma extends_trans (w1 w2 w3 : world) :
  Replies.extends w1 w2 -> Replies.extends w2 w3 -> Replies.extends w1 w3.
Proof.
  intros (e1 & n1 & ->) (e2 & n2 & ->). rewrite after_after.
  do 2 eexists. reflexivity.
Qed.

Lemma extends_call (w : world) (e : event) :
  Replies.extends w {| server := server w; sent := S (sent w); trace := trace w ++ [e] |}.
Proof. exists [e], 1%nat. apply after_sent_S. Qed.

Lemma extends_log (w : world) (e : event) :
  Replies.extends w {| server := server w; sent := sent w; trace := trace w ++ [e] |}.
Proof.
  exists [e], 0%nat. unfold after. rewrite Nat.add_0_r. reflexivity.
Qed.

(** Closes a goal [extends w w'] where [w'] is [w] after steps of the
    retry loop. *)
Ltac extended IH :=
  cbn [snd];
  repeat first
    [ apply extends_refl
    | apply extends_call
    | apply extends_log
    | eapply extends_trans; [| apply IH]
    | eapply extends_trans; [| apply extends_log]
    | eapply extends_trans; [| apply extends_call] ].

Lemma attempts_extends (self : HTTPClient.t) (a : args) (todo : nat) :
  forall (attempt : Z) (last_err : option transport_error) (w : world),
    Replies.extends w (snd (HTTPClient.attempts self a todo attempt last_err w)).
Proof.
  induction todo as [| todo IH]; intros attempt last_err w.
  - cbn [HTTPClient.attempts]. destruct last_err; apply extends_refl.
  - cbn [HTTPClient.attempts].
    unfold mbind, call, lift, ret, raise, time_sleep, log.
    repeat first
      [ progress cbn beta iota
      | solve [extended IH]
      | match goal with
        | |- context [match ?x with _ => _ end] =>
            lazymatch type of x with
            | (_ * _)%type => fail
            | _ => destruct x
            end
        end ].
Qed.

Lemma request_extends (self : HTTPClient.t) (a : args) (w : world) :
  Replies.extends w (snd (HTTPClient.request self a w)).
Proof. apply attempts_extends. Qed.

Lemma get_job_extends (self : Client.t) (job_id : value) (w : world) :
  Replies.extends w (snd (Client.get_job self job_id w)).
Proof.
  unfold Client.get_job, mbind, lift.
  destruct (Client._get_http self) as [http | x]; [| apply extends_refl].
  pose proof (request_extends http (simple "GET" (fmt "/v1/jobs/" job_id "") VNone) w) as H.
  destruct (HTTPClient.request http _ w) as [[data | x] w1]; exact H.
Qed.

Lemma poll_wait_accepted : sleep_error (of_Z 2) = None.
Proof. vm_compute. reflexivity. Qed.

Lemma poll_extends (self : Client.t) (fuel : nat) :
  forall (job : Job.t) (w : world),
    Replies.extends w (snd (Client.poll self fuel job w)).
Proof.
  induction fuel as [| fuel IH]; intros job w; cbn [Client.poll];
    (destruct (Client.terminal job); [apply extends_refl |]).
  - apply extends_refl.
  - unfold mbind at 1. rewrite (time_sleep_accepted _ _ poll_wait_accepted).
    unfold mbind at 1.
    pose proof (get_job_extends self (Job.id job)
                  {| server := server w; sent := sent w;
                     trace := trace w ++ [Sleep Blocking (of_Z 2)] |}) as H.
    destruct (Client.get_job self (Job.id job) _) as [[job' | x] w1]; cbn [snd] in H |- *.
    + eapply extends_trans; [| apply IH].
      eapply extends_trans; [apply extends_log | exact H].
    + eapply extends_trans; [apply extends_log | exact H].
Qed.

(** ** Routing of [generate] *)

Lemma get_http_ok (self : Client.t) (key : value) :
  Client._api_key self = Some key ->
  Client._get_http self
  = Ok (HTTPClient.init (Client._base_url self) key (Client._timeout self)
          (Client._max_retries self)).
Proof. intros K. unfold Client._get_http. rewrite K. reflexivity. Qed.

(** X11: with parameters that pass validation, a key and [max_retries >= 0],
    a text no longer than the threshold is sent to [/v1/tts/generate] only:
    one to [max_retries + 1] times the same POST carrying the body built
    from the parameters, with no other request; a longer text is first sent
    to [/v1/tts/generate-async] with that same body. *)
Theorem generate_routes_by_length (self : Client.t) (fuel : nat) (text : string)
    (p : Client.params) (w : world) (key : value) :
  Client._validate_generate_params text (Client.model p) (Client.speed p)
    (Client.exaggeration p) = Ok tt ->
  Client._api_key self = Some key ->
  0 <= Client._max_retries self ->
  (len text <= Client._auto_async_threshold self ->
   exists evs,
     snd (Client.generate self fuel text p w) = after w evs (Spec.attempts_made evs)
     /\ 1 <= Z.of_nat (Spec.attempts_made evs) <= Client._max_retries self + 1
     /\ Spec.opens_made evs = 0%nat
     /\ Forall (fun e => Spec.is_send e = true ->
                         e = Send Blocking
                               (build (Client._timeout self)
                                  (simple "POST" (Str "/v1/tts/generate")
                                     (VDict (Client._build_generate_body text
                                               (Client.model p) (Client.voice p)
                                               (Client.language p) (Client.format p)
                                               (Client.speed p) (Client.exaggeration p))))))
          evs)
  /\ (Client._auto_async_threshold self < len text ->
      exists evs n,
        snd (Client.generate self fuel text p w)
        = after w
            (Send Blocking
               (build (Client._timeout self)
                  (simple "POST" (Str "/v1/tts/generate-async")
                     (VDict (Client._build_generate_body text
                               (Client.model p) (Client.voice p)
                               (Client.language p) (Client.format p)
                               (Client.speed p) (Client.exaggeration p)))))
             :: evs) n).
Proof.
  intros V K HN. split.
  - intros Hlen. unfold Client.generate. unfold mbind at 1. unfold lift at 1. rewrite V.
    destruct (Z.ltb_spec (Client._auto_async_threshold self) (len text)); [lia |].
    unfold mbind at 1. unfold lift at 1. rewrite (get_http_ok self key K).
    destruct (request_invariant
                (HTTPClient.init (Client._base_url self) key (Client._timeout self)
                   (Client._max_retries self))
                (simple "POST" (Str "/v1/tts/generate")
                   (VDict (Client._build_generate_body text (Client.model p) (Client.voice p)
                             (Client.language p) (Client.format p) (Client.speed p)
                             (Client.exaggeration p)))) w HN)
      as (evs & Hw & Hn & _ & Hop & Hall & _).
    exists evs. unfold mbind.
    destruct (HTTPClient.request _ _ w) as [[data | x] w1]; cbn [snd] in Hw;
      [destruct data |]; cbn [snd]; repeat split; assumption || apply Hn.
  - intros Hlen. unfold Client.generate. unfold mbind at 1. unfold lift at 1. rewrite V.
    apply Z.ltb_lt in Hlen. rewrite Hlen.
    assert (Hsub : exists evs n,
              snd (Client.generate_async self text p "" w)
              = after w
                  (Send Blocking
                     (build (Client._timeout self)
                        (simple "POST" (Str "/v1/tts/generate-async")
                           (VDict (Client._build_generate_body text
                                     (Client.model p) (Client.voice p)
                                     (Client.language p) (Client.format p)
                                     (Client.speed p) (Client.exaggeration p)))))
                   :: evs) n).
    { unfold Client.generate_async. unfold mbind at 1. unfold lift at 1. rewrite V.
      unfold mbind at 1. unfold lift at 1. rewrite (get_http_ok self key K).
      cbn [truthy String.eqb negb]. rewrite app_nil_r.
      destruct (request_invariant
                  (HTTPClient.init (Client._base_url self) key (Client._timeout self)
                     (Client._max_retries self))
                  (simple "POST" (Str "/v1/tts/generate-async")
                     (VDict (Client._build_generate_body text (Client.model p)
                               (Client.voice p) (Client.language p) (Client.format p)
                               (Client.speed p) (Client.exaggeration p)))) w HN)
        as (evs & Hw & _ & _ & _ & _ & Hhd).
      destruct evs as [| e evs]; [discriminate Hhd |]. injection Hhd as ->.
      exists evs. eexists. unfold mbind.
      destruct (HTTPClient.request _ _ w) as [[data | x] w1]; cbn [snd] in Hw;
        [destruct data |]; cbn [snd]; exact Hw. }
    destruct Hsub as (evs & n & Hsub).
    unfold mbind at 1.
    destruct (Client.generate_async self text p "" w) as [[job0 | x] w1]; cbn [snd] in Hsub.
    + match goal with
      | |- exists evs' n', _ = after w (?e :: evs') n' => set (e0 := e) in *
      end.
      assert (Hrest : forall w2 : world,
                Replies.extends w1 w2 -> exists evs' n', w2 = after w (e0 :: evs') n').
      { intros w2 (e2 & n2 & ->). rewrite Hsub, after_after. cbn [app]. eauto. }
      apply Hrest. unfold mbind at 1.
      pose proof (poll_extends self fuel job0 w1) as Hp.
      destruct (Client.poll self fuel job0 w1) as [[[job |] | x] w2]; cbn [snd] in Hp |- *;
        try exact Hp.
      destruct (eq_str (Job.status job) "failed"); [exact Hp |].
      unfold mbind, lift, ret. rewrite (get_http_ok self key K). exact Hp.
    + cbn [snd]. eauto.
Qed.

(** A short and a long text for a client with a threshold of three
    characters. *)
Lemma generate_routes_by_length_witness :
  exists evs n,
    snd (Client.generate (Examples.leanvox 2 3) 1 "Hello" Client.defaults
           (start Examples.submit_then_completed))
    = after (start Examples.submit_then_completed)
        (Send Blocking
           (build (Client._timeout (Examples.leanvox 2 3))
              (simple "POST" (Str "/v1/tts/generate-async")
                 (VDict (Client._build_generate_body "Hello" "standard" "" "en" "mp3"
                           (of_Z 1) Client.half))))
         :: evs) n.
Proof.
  refine (proj2 (generate_routes_by_length (Examples.leanvox 2 3) 1 "Hello" Client.defaults
                   (start Examples.submit_then_completed) (VStr "lv_test_k") _ _ _) _).
  - reflexivity.
  - reflexivity.
  - simpl. lia.
  - simpl. unfold len. simpl. lia.
Defined.

(** ** Polling *)

Lemma poll_terminal (self : Client.t) (fuel : nat) :
  forall (job : Job.t) (w : world) (done : Job.t) (w' : world),
    Client.poll self fuel job w = (Ok (Some done), w') ->
    Client.terminal done = true.
Proof.
  induction fuel as [| fuel IH]; intros job w done w' H; cbn [Client.poll] in H.
  - destruct (Client.terminal job) eqn:T; [| discriminate H].
    injection H as <- <-. exact T.
  - destruct (Client.terminal job) eqn:T.
    + injection H as <- <-. exact T.
    + unfold mbind at 1 in H.
      destruct (time_sleep (of_Z 2) w) as [[[] | x] w0]; [| discriminate H].
      unfold mbind at 1 in H.
      destruct (Client.get_job self (Job.id job) w0) as [[job' | x] w1]; [| discriminate H].
      exact (IH job' w1 done w' H).
Qed.

(** X12: the polling loop of [generate].  A job that is terminal already
    (its status is [completed] or [failed]) is returned as it is, without
    any effect, whatever the number of polls allowed; for any other job a
    poll begins with a sleep of 2 seconds, before anything is requested,
    whatever happens next; and whenever the loop returns a job, its status
    is [completed] or [failed]. *)
Theorem poll_returns_terminal (self : Client.t) (fuel : nat) (job : Job.t) (w : world) :
  (Client.terminal job = true -> Client.poll self fuel job w = (Ok (Some job), w))
  /\ (Client.terminal job = false ->
      exists evs n,
        snd (Client.poll self (S fuel) job w)
        = after w (Sleep Blocking (of_Z 2) :: evs) n)
  /\ (forall done w',
        Client.poll self fuel job w = (Ok (Some done), w') ->
        eq_str (Job.status done) "completed" = true
        \/ eq_str (Job.status done) "failed" = true).
Proof.
  split; [| split].
  - intros T. destruct fuel; cbn [Client.poll]; rewrite T; reflexivity.
  - intros T. cbn [Client.poll]. rewrite T.
    unfold mbind at 1. rewrite (time_sleep_accepted _ _ poll_wait_accepted).
    assert (Hrest : Replies.extends
                      {| server := server w; sent := sent w;
                         trace := trace w ++ [Sleep Blocking (of_Z 2)] |}
                      (snd ((job' <- Client.get_job self (Job.id job) ;;
                             Client.poll self fuel job')
                              {| server := server w; sent := sent w;
                                 trace := trace w ++ [Sleep Blocking (of_Z 2)] |}))).
    { unfold mbind.
      pose proof (get_job_extends self (Job.id job)
                    {| server := server w; sent := sent w;
                       trace := trace w ++ [Sleep Blocking (of_Z 2)] |}) as Hg.
      destruct (Client.get_job self (Job.id job) _) as [[job' | x] w1]; cbn [snd] in Hg |- *.
      - eapply extends_trans; [exact Hg | apply poll_extends].
      - exact Hg. }
    destruct Hrest as (evs & n & ->). exists evs, n.
    unfold after. cbn [server sent trace]. f_equal.
    rewrite <- app_assoc. reflexivity.
  - intros done w' H. apply orb_true_iff.
    exact (poll_terminal self fuel job w done w' H).
Qed.

(** A pending job is found completed at the first poll, after a sleep of
    2 seconds and one request. *)
Example poll_ex :
  Client.poll (Examples.leanvox 2 3) 1
    {| Job.id := VStr "job_123"; Job.status := VStr "pending";
       Job.estimated_seconds := VInt 10; Job.audio_url := VStr "";
       Job.error := VStr "" |}
    (start (Examples.always Examples.job_completed))
  = (Ok (Some {| Job.id := VStr "job_123"; Job.status := VStr "completed";
                 Job.estimated_seconds := VInt 0;
                 Job.audio_url := VStr "https://cdn.leanvox.com/audio/done.mp3";
                 Job.error := VStr "" |}),
     after (start (Examples.always Examples.job_completed))
       [Sleep Blocking (of_Z 2);
        Send Blocking (build (of_Z 30) (simple "GET" (Str "/v1/jobs/job_123") VNone))] 1).
Proof. vm_compute. reflexivity. Qed.

(** X13: when the text is longer than the threshold, the job is accepted
    and the polling loop ends within [fuel] polls on a job whose status is
    [failed], [generate], given at least that many polls, raises an
    [InvalidRequestError] with code ["job_failed"] and status 400 whose
    message is the error of the job, or ["Async generation failed"] when the
    job has none. *)
Theorem generate_auto_async_failed (self : Client.t) (fuel : nat) (text : string)
    (p : Client.params) (w w1 w2 : world) (job0 job : Job.t) :
  Client._auto_async_threshold self < len text ->
  Client.generate_async self text p "" w = (Ok job0, w1) ->
  Client.poll self fuel job0 w1 = (Ok (Some job), w2) ->
  eq_str (Job.status job) "failed" = true ->
  forall fuel', (fuel <= fuel')%nat ->
    exists e,
      Client.generate self fuel' text p w = (Raise (Leanvox e), w2)
      /\ cls e = InvalidRequestError
      /\ code e = VStr "job_failed"
      /\ Errors.status_code e = 400
      /\ message e
         = MsgValue (if truthy (Job.error job) then Job.error job
                     else VStr "Async generation failed").
Proof.
  intros Hlen Hsub Hpoll Hfailed fuel' Hle.
  assert (V : Client._validate_generate_params text (Client.model p) (Client.speed p)
                (Client.exaggeration p) = Ok tt).
  { unfold Client.generate_async in Hsub. unfold mbind at 1 in Hsub. unfold lift at 1 in Hsub.
    destruct (Client._validate_generate_params _ _ _ _) as [[] | e];
      [reflexivity | discriminate Hsub]. }
  eexists. split.
  - unfold Client.generate. unfold mbind at 1. unfold lift at 1. rewrite V.
    apply Z.ltb_lt in Hlen. rewrite Hlen.
    unfold mbind at 1. rewrite Hsub.
    unfold mbind at 1. rewrite (poll_more_fuel self fuel job0 w1 job w2 Hpoll fuel' Hle).
    rewrite Hfailed. reflexivity.
  - repeat split.
Qed.

(** The job of a five-character text fails at the first poll. *)
Lemma generate_auto_async_failed_witness :
  exists e,
    Client.generate (Examples.leanvox 2 3) 1 "Hello" Client.defaults
      (start (fun n => match n with
                       | O => Response Examples.job_pending
                       | S _ => Response
                                  (Examples.response_with 200 None "{...}"
                                     (Some (VDict [("id", VStr "job_123");
                                                   ("status", VStr "failed");
                                                   ("error", VStr "voice not found")])))
                       end))
    = (Raise (Leanvox e),
       snd (Client.generate (Examples.leanvox 2 3) 1 "Hello" Client.defaults
              (start (fun n => match n with
                               | O => Response Examples.job_pending
                               | S _ => Response
                                          (Examples.response_with 200 None "{...}"
                                             (Some (VDict [("id", VStr "job_123");
                                                           ("status", VStr "failed");
                                                           ("error", VStr "voice not found")])))
                               end))))
    /\ cls e = InvalidRequestError
    /\ code e = VStr "job_failed"
    /\ Errors.status_code e = 400
    /\ message e = MsgValue (VStr "voice not found").
Proof.
  refine (generate_auto_async_failed (Examples.leanvox 2 3) 1 "Hello" Client.defaults
            _ _ _
            {| Job.id := VStr "job_123"; Job.status := VStr "pending";
               Job.estimated_seconds := VInt 10; Job.audio_url := VStr "";
               Job.error := VStr "" |}
            {| Job.id := VStr "job_123"; Job.status := VStr "failed";
               Job.estimated_seconds := VInt 0; Job.audio_url := VStr "";
               Job.error := VStr "voice not found" |}
            _ _ _ _ 1%nat _).
  - reflexivity.
  - vm_compute. reflexivity.
  - vm_compute. reflexivity.
  - reflexivity.
  - lia.
Defined.

(** ** Streaming and HTTP statuses *)

(** X14: the streaming path does not go through the typed errors.  With a
    format accepted by the guard, valid parameters and a key, a response to
    the stream request with a status from 400 on makes [stream] raise the
    transport's own [HTTPStatusError] with that status, never a Leanvox
    error, after exactly one request: a POST to [/v1/tts/stream] with the
    streaming timeout of 120 seconds, whatever the timeout of the client,
    and a body whose format is ["mp3"] whatever the case of the caller's
    format. *)
Theorem stream_status_error (self : Client.t) (text : string) (p : Client.params)
    (w : world) (key : value) (resp : response) :
  lower (Client.format p) = "mp3" ->
  Client._validate_generate_params text (Client.model p) (Client.speed p)
    (Client.exaggeration p) = Ok tt ->
  Client._api_key self = Some key ->
  server w (sent w) = Response resp ->
  400 <= status_code resp ->
  Client.stream self text p w
  = (Raise (HTTPStatusError (status_code resp)),
     after w
       [Open Blocking
          {| method := "POST"; path := Str "/v1/tts/stream"; timeout := of_Z 120;
             kw_params := VNone; kw_files := None; kw_data := None;
             kw_json := Some (VDict (Client._build_generate_body text (Client.model p)
                                       (Client.voice p) (Client.language p) "mp3"
                                       (Client.speed p) (Client.exaggeration p))) |}] 1)
  /\ (forall err, fst (Client.stream self text p w) <> Raise (Leanvox err))
  /\ dict_get (Client._build_generate_body text (Client.model p) (Client.voice p)
                 (Client.language p) "mp3" (Client.speed p) (Client.exaggeration p))
       "format" VNone = VStr "mp3".
Proof.
  intros Hf V K Hs Hst.
  assert (E : Client.stream self text p w
              = (Raise (HTTPStatusError (status_code resp)),
                 after w
                   [Open Blocking
                      {| method := "POST"; path := Str "/v1/tts/stream"; timeout := of_Z 120;
                         kw_params := VNone; kw_files := None; kw_data := None;
                         kw_json := Some (VDict (Client._build_generate_body text
                                                   (Client.model p) (Client.voice p)
                                                   (Client.language p) "mp3"
                                                   (Client.speed p)
                                                   (Client.exaggeration p))) |}] 1)).
  { unfold Client.stream. rewrite Hf. cbn [String.eqb Ascii.eqb Bool.eqb negb].
    unfold HTTPClient.stream, mbind, call, lift, ret, raise.
    rewrite V, (get_http_ok self key K), Hs.
    unfold Client.raise_for_status.
    destruct (Z.leb_spec (status_code resp) 299); [lia |].
    rewrite andb_false_r. stepped. }
  split; [exact E |]. split.
  - intros err. rewrite E. cbn [fst]. discriminate.
  - unfold Client._build_generate_body. reflexivity.
Qed.

(** A 401 answer to the stream request of a client with a 30 second
    timeout, for the format ["MP3"]. *)
Lemma stream_status_error_witness :
  fst (Client.stream (Examples.leanvox 2 5000) "Hello"
         (Client.with_format Client.defaults "MP3")
         (start (Examples.always Examples.unauthorized)))
  = Raise (HTTPStatusError 401).
Proof.
  refine (f_equal fst
            (proj1 (stream_status_error (Examples.leanvox 2 5000) "Hello"
                      (Client.with_format Client.defaults "MP3")
                      (start (Examples.always Examples.unauthorized))
                      (VStr "lv_test_k") Examples.unauthorized _ _ _ _ _))).
  - reflexivity.
  - reflexivity.
  - reflexivity.
  - reflexivity.
  - simpl. lia.
Defined.

(** ** [dialogue] *)

(** X15: [dialogue] checks the number of lines before anything else: with
    fewer than two lines it raises an [InvalidRequestError] (code
    ["invalid_request"], status 400) without any effect, even for a client
    without a key.  With two lines or more and [max_retries >= 0], every
    request it sends is the POST to [/v1/tts/dialogue] whose body holds the
    model, the lines as given and the gap, and the voice of a result is
    always ["dialogue"], whatever the server answers. *)
Theorem dialogue_lines_checked_first (self : Client.t) (lines : list value)
    (model : string) (gap_ms : Z) (w : world) :
  ((List.length lines < 2)%nat ->
   exists err,
     Leanvox.dialogue self lines model gap_ms w = (Raise (Leanvox err), w)
     /\ cls err = InvalidRequestError
     /\ code err = VStr "invalid_request"
     /\ Errors.status_code err = 400)
  /\ ((2 <= List.length lines)%nat ->
      0 <= Client._max_retries self ->
      (forall r w', Leanvox.dialogue self lines model gap_ms w = (Ok r, w') ->
                    GenerateResult.voice r = VStr "dialogue")
      /\ (Client._api_key self = None ->
          snd (Leanvox.dialogue self lines model gap_ms w) = w)
      /\ (Client._api_key self <> None ->
          exists evs,
            snd (Leanvox.dialogue self lines model gap_ms w)
            = after w evs (Spec.attempts_made evs)
            /\ 1 <= Z.of_nat (Spec.attempts_made evs) <= Client._max_retries self + 1
            /\ Forall (fun e => Spec.is_send e = true ->
                                e = Send Blocking
                                      (build (Client._timeout self)
                                         (simple "POST" (Str "/v1/tts/dialogue")
                                            (VDict [("model", VStr model);
                                                    ("lines", VList lines);
                                                    ("gap_ms", VInt gap_ms)]))))
                 evs)).
Proof.
  split.
  - intros Hlen. unfold Leanvox.dialogue.
    destruct (Z.ltb_spec (Z.of_nat (List.length lines)) 2); [| lia].
    eexists. split; [reflexivity |]. repeat split.
  - intros Hlen HN. unfold Leanvox.dialogue.
    destruct (Z.ltb_spec (Z.of_nat (List.length lines)) 2); [lia |].
    split; [| split].
    + intros r w'. unfold mbind, lift, ret, raise.
      destruct (Client._get_http self) as [http | x]; [| discriminate].
      destruct (HTTPClient.request http _ w) as [[data | x] w1]; [| discriminate].
      destruct data; try discriminate.
      intros Hr. injection Hr as <- _. reflexivity.
    + intros K. unfold Client._get_http. rewrite K. reflexivity.
    + intros K. destruct (Client._api_key self) as [key |] eqn:Hk; [| congruence].
      unfold mbind at 1. unfold lift at 1. rewrite (get_http_ok self key Hk).
      destruct (request_invariant
                  (HTTPClient.init (Client._base_url self) key (Client._timeout self)
                     (Client._max_retries self))
                  (simple "POST" (Str "/v1/tts/dialogue")
                     (VDict [("model", VStr model); ("lines", VList lines);
                             ("gap_ms", VInt gap_ms)])) w HN)
        as (evs & Hw & Hn & _ & _ & Hall & _).
      exists evs. unfold mbind.
      destruct (HTTPClient.request _ _ w) as [[data | x] w1]; cbn [snd] in Hw;
        [destruct data |]; cbn [snd]; repeat split; assumption || apply Hn.
Qed.

(** ** [list_jobs] *)

Lemma comprehension_ok {A : Type} (f : value -> result A) (l : list value) (ys : list A) :
  Dataclass.comprehension f l = Ok ys <-> Forall2 (fun x y => f x = Ok y) l ys.
Proof.
  revert ys. induction l as [| x l IH]; intros ys; cbn [Dataclass.comprehension].
  - split.
    + intros H. injection H as <-. constructor.
    + intros H. inversion H. reflexivity.
  - split.
    + destruct (f x) as [y | e] eqn:Fx; cbn [Errors.bind]; [| discriminate].
      destruct (Dataclass.comprehension f l) as [ys' | e] eqn:C; cbn [Errors.bind];
        [| discriminate].
      intros H. injection H as <-. constructor; [exact Fx |]. apply IH. reflexivity.
    + intros H. inversion H as [| x' y l' ys' Fx Hrest]; subst.
      rewrite Fx. cbn [Errors.bind].
      apply IH in Hrest. rewrite Hrest. reflexivity.
Qed.

Lemma comprehension_raises {A : Type} (f : value -> result A) (l : list value) (x : value)
    (e : exn) :
  In x l -> f x = Raise e -> exists e', Dataclass.comprehension f l = Raise e'.
Proof.
  induction l as [| x' l IH]; intros Hin Fx; [destruct Hin |].
  cbn [Dataclass.comprehension]. destruct Hin as [-> | Hin].
  - rewrite Fx. cbn [Errors.bind]. eauto.
  - destruct (f x') as [y | e0]; cbn [Errors.bind]; [| eauto].
    destruct (IH Hin Fx) as (e' & ->). cbn [Errors.bind]. eauto.
Qed.

(** X16: [list_jobs] is all or nothing.  When the request returns a dict:
    without the key ["jobs"] the result is the empty list; with a list
    under ["jobs"], the call returns jobs exactly when every element of the
    list converts to a [Job], and then the jobs are the converted elements,
    one for one and in order; one element that does not convert (a job
    without ["id"], say) makes the whole call raise, whatever the other
    elements are.  In every case the effects are those of the one
    request. *)
Theorem list_jobs_all_or_nothing (self : Client.t) (key : value) (w w1 : world)
    (d : list (string * value)) :
  Client._api_key self = Some key ->
  HTTPClient.request
    (HTTPClient.init (Client._base_url self) key (Client._timeout self)
       (Client._max_retries self))
    (simple "GET" (Str "/v1/jobs") VNone) w = (Ok (VDict d), w1) ->
  snd (Leanvox.list_jobs self w) = w1
  /\ (lookup "jobs" d = None -> fst (Leanvox.list_jobs self w) = Ok [])
  /\ (forall l, lookup "jobs" d = Some (VList l) ->
        (forall jobs, fst (Leanvox.list_jobs self w) = Ok jobs
                      <-> Forall2 (fun x job => Job.of_data x = Ok job) l jobs)
        /\ (forall x e, In x l -> Job.of_data x = Raise e ->
                        exists e', fst (Leanvox.list_jobs self w) = Raise e')).
Proof.
  intros K R.
  assert (E : Leanvox.list_jobs self w
              = (Errors.bind (Dataclass.iterate (dict_get d "jobs" (VList [])))
                   (Dataclass.comprehension Job.of_data), w1)).
  { unfold Leanvox.list_jobs. unfold mbind at 1. unfold lift at 1.
    rewrite (get_http_ok self key K). unfold mbind at 1. rewrite R.
    unfold mbind, lift.
    destruct (Dataclass.iterate _); reflexivity. }
  rewrite E. cbn [fst snd]. split; [reflexivity |]. split.
  - intros L. unfold dict_get. rewrite L. reflexivity.
  - intros l L. unfold dict_get. rewrite L. cbn [Dataclass.iterate Errors.bind]. split.
    + intros jobs. apply comprehension_ok.
    + intros x e. apply comprehension_raises.
Qed.

(** Two jobs listed by the server. *)
Lemma list_jobs_all_or_nothing_witness :
  fst (Leanvox.list_jobs (Examples.leanvox 2 5000)
         (start (Examples.always
                   (Examples.response_with 200 None "{...}"
                      (Some (VDict [("jobs",
                                     VList [VDict [("id", VStr "a");
                                                   ("status", VStr "pending")];
                                            VDict [("status", VStr "completed")]])]))))))
  <> Ok [].
Proof.
  destruct (list_jobs_all_or_nothing (Examples.leanvox 2 5000) (VStr "lv_test_k")
              (start (Examples.always
                        (Examples.response_with 200 None "{...}"
                           (Some (VDict [("jobs",
                                          VList [VDict [("id", VStr "a");
                                                        ("status", VStr "pending")];
                                                 VDict [("status", VStr "completed")]])])))))
              _ _ eq_refl eq_refl) as (_ & _ & H).
  destruct (H _ eq_refl) as (_ & Hraise).
  destruct (Hraise (VDict [("status", VStr "completed")]) _ (or_intror (or_introl eq_refl))
              eq_refl) as (e' & ->).
  discriminate.
Defined.

(** ** A negative [max_retries] *)

Lemma request_no_attempt (self : HTTPClient.t) (a : args) (w : world) :
  HTTPClient._max_retries self < 0 ->
  HTTPClient.request self a w = (Ok empty_dict, w).
Proof.
  intros HN. unfold HTTPClient.request.
  replace (Z.to_nat (HTTPClient._max_retries self + 1)) with 0%nat by lia.
  reflexivity.
Qed.

(** X17: the loop of [request] runs [range(max_retries + 1)] times, so a
    client built with a negative [max_retries] never calls the transport:
    every request returns the empty dict at once.  [generate] of a text
    within the threshold then returns, without any effect, a result with an
    empty [audio_url], the model and the voice of the caller and zero
    characters and cost; [get_job] raises the [TypeError] of a [Job] built
    without its required fields. *)
Theorem negative_max_retries_no_request (self : Client.t) (key : value) (fuel : nat)
    (text : string) (p : Client.params) (job_id : value) (w : world) :
  Client._max_retries self < 0 ->
  Client._api_key self = Some key ->
  Client._validate_generate_params text (Client.model p) (Client.speed p)
    (Client.exaggeration p) = Ok tt ->
  len text <= Client._auto_async_threshold self ->
  (forall a, HTTPClient.request
               (HTTPClient.init (Client._base_url self) key (Client._timeout self)
                  (Client._max_retries self)) a w = (Ok empty_dict, w))
  /\ Client.generate self fuel text p w
     = (Ok (Some {| GenerateResult.audio_url := VStr "";
                    GenerateResult.model := VStr (Client.model p);
                    GenerateResult.voice := VStr (Client.voice p);
                    GenerateResult.characters := VInt 0;
                    GenerateResult.cost_cents := VInt 0;
                    GenerateResult.generated_voice_id := VNone;
                    GenerateResult.suggestion := VNone;
                    GenerateResult._http_client := true |}), w)
  /\ exists what, Client.get_job self job_id w = (Raise (TypeError what), w).
Proof.
  intros HN K V Hlen.
  assert (R : forall a, HTTPClient.request
                          (HTTPClient.init (Client._base_url self) key (Client._timeout self)
                             (Client._max_retries self)) a w = (Ok empty_dict, w)).
  { intros a. apply request_no_attempt. exact HN. }
  split; [exact R |]. split.
  - unfold Client.generate. unfold mbind at 1. unfold lift at 1. rewrite V.
    destruct (Z.ltb_spec (Client._auto_async_threshold self) (len text)); [lia |].
    unfold mbind at 1. unfold lift at 1. rewrite (get_http_ok self key K).
    unfold mbind. rewrite R. reflexivity.
  - unfold Client.get_job. unfold mbind at 1. unfold lift at 1.
    rewrite (get_http_ok self key K). unfold mbind. rewrite R.
    eexists. reflexivity.
Qed.

(** A client built with [max_retries=-1]. *)
Lemma negative_max_retries_no_request_witness :
  Client.generate (Examples.leanvox (-1) 5000) 0 "Hello" Client.defaults
    (start (Examples.always Examples.internal_error))
  = (Ok (Some {| GenerateResult.audio_url := VStr "";
                 GenerateResult.model := VStr "standard";
                 GenerateResult.voice := VStr "";
                 GenerateResult.characters := VInt 0;
                 GenerateResult.cost_cents := VInt 0;
                 GenerateResult.generated_voice_id := VNone;
                 GenerateResult.suggestion := VNone;
                 GenerateResult._http_client := true |}),
     start (Examples.always Examples.internal_error)).
Proof.
  refine (proj1 (proj2 (negative_max_retries_no_request (Examples.leanvox (-1) 5000)
                          (VStr "lv_test_k") 0 "Hello" Client.defaults (VStr "job_1")
                          (start (Examples.always Examples.internal_error)) _ _ _ _))).
  - simpl. lia.
  - reflexivity.
  - reflexivity.
  - simpl. unfold len. simpl. lia.
Defined.

(** ** The asynchronous client *)

(** Rewrites the two executors' runs of one request into a common
    outcome. *)
Ltac same_request base key timeout retries a w Hpat :=
  destruct (request_sync_async base key timeout retries a w Hpat) as [Hout Hworld];
  destruct (HTTPClient.request (HTTPClient.init base key timeout retries) a w)
    as [[data | x] w1];
  destruct (AsyncHTTPClient.request (AsyncHTTPClient.init base key timeout retries) a w)
    as [[data' | x'] w1'];
  cbn [fst snd] in Hout, Hworld; try discriminate Hout;
  injection Hout as <-.

(** X18: the asynchronous [generate] never promotes a text to the job
    path: whatever its own threshold and however long the text, it sends
    the text to [/v1/tts/generate] as the synchronous [generate] of a client
    with the same key, base URL, timeout and [max_retries] does for a text
    its threshold is not below.  On a server none of whose responses
    carries a Retry-After header read as a number [time.sleep] refuses, the
    two raise the same exception or return the same result, but for the
    transport handle, which the asynchronous result does not carry, and
    have the same effects up to the kind of the suspension points. *)
Theorem async_generate_never_promotes (api_key : option value) (base_url : string)
    (timeout : float) (max_retries threshold threshold' : Z) (fuel : nat)
    (text : string) (p : Client.params) (w : world) :
  len text <= threshold ->
  (forall n, Replies.patient (server w n) = true) ->
  match fst (Client.generate
               {| Client._api_key := api_key; Client._base_url := base_url;
                  Client._timeout := timeout; Client._max_retries := max_retries;
                  Client._auto_async_threshold := threshold |} fuel text p w) with
  | Ok (Some r) =>
      fst (AsyncLeanvox.generate
             {| AsyncLeanvox._api_key := api_key; AsyncLeanvox._base_url := base_url;
                AsyncLeanvox._timeout := timeout; AsyncLeanvox._max_retries := max_retries;
                AsyncLeanvox._auto_async_threshold := threshold' |} text p w)
      = Ok (Replies.detach r)
  | Ok None => False
  | Raise e =>
      fst (AsyncLeanvox.generate
             {| AsyncLeanvox._api_key := api_key; AsyncLeanvox._base_url := base_url;
                AsyncLeanvox._timeout := timeout; AsyncLeanvox._max_retries := max_retries;
                AsyncLeanvox._auto_async_threshold := threshold' |} text p w)
      = Raise e
  end
  /\ forget (snd (Client.generate
                    {| Client._api_key := api_key; Client._base_url := base_url;
                       Client._timeout := timeout; Client._max_retries := max_retries;
                       Client._auto_async_threshold := threshold |} fuel text p w))
     = forget (snd (AsyncLeanvox.generate
                      {| AsyncLeanvox._api_key := api_key;
                         AsyncLeanvox._base_url := base_url;
                         AsyncLeanvox._timeout := timeout;
                         AsyncLeanvox._max_retries := max_retries;
                         AsyncLeanvox._auto_async_threshold := threshold' |} text p w)).
Proof.
  intros Hlen Hpat. unfold Client.generate, AsyncLeanvox.generate.
  cbn [Client._auto_async_threshold].
  destruct (Z.ltb_spec threshold (len text)); [lia |].
  unfold Client._get_http, AsyncLeanvox._get_http.
  cbn [Client._api_key Client._base_url Client._timeout Client._max_retries
       AsyncLeanvox._api_key AsyncLeanvox._base_url AsyncLeanvox._timeout
       AsyncLeanvox._max_retries].
  unfold mbind, lift, ret, raise.
  destruct (Client._validate_generate_params _ _ _ _) as [[] | e]; [| split; reflexivity].
  destruct (Auth.ensure_api_key api_key) as [key | e]; cbn [Errors.bind];
    [| split; reflexivity].
  same_request base_url key timeout max_retries
    (simple "POST" (Str "/v1/tts/generate")
       (VDict (Client._build_generate_body text (Client.model p) (Client.voice p)
                 (Client.language p) (Client.format p) (Client.speed p)
                 (Client.exaggeration p)))) w Hpat.
  - destruct data; cbn [fst snd]; split; solve [reflexivity | exact Hworld].
  - cbn [fst snd]. split; [reflexivity | exact Hworld].
Qed.

(** A five-character text, a synchronous threshold of 5000 and an
    asynchronous threshold of 3. *)
Lemma async_generate_never_promotes_witness :
  exists e,
    fst (Client.generate
           {| Client._api_key := Some (VStr "lv_test_k");
              Client._base_url := "https://api.leanvox.com";
              Client._timeout := of_Z 30; Client._max_retries := 2;
              Client._auto_async_threshold := 5000 |} 0 "Hello" Client.defaults
           (start (Examples.always Examples.unauthorized))) = Raise e
    /\ fst (AsyncLeanvox.generate
              {| AsyncLeanvox._api_key := Some (VStr "lv_test_k");
                 AsyncLeanvox._base_url := "https://api.leanvox.com";
                 AsyncLeanvox._timeout := of_Z 30; AsyncLeanvox._max_retries := 2;
                 AsyncLeanvox._auto_async_threshold := 3 |} "Hello" Client.defaults
              (start (Examples.always Examples.unauthorized))) = Raise e.
Proof.
  assert (Hlen : len "Hello" <= 5000) by (unfold len; simpl; lia).
  pose proof (proj1 (async_generate_never_promotes (Some (VStr "lv_test_k"))
                       "https://api.leanvox.com" (of_Z 30) 2 5000 3 0 "Hello"
                       Client.defaults (start (Examples.always Examples.unauthorized))
                       Hlen (fun _ => eq_refl))) as H.
  eexists. split; [| exact H]. vm_compute. reflexivity.
Defined.

(** X19: the other methods of the asynchronous client are the synchronous
    ones run on the asynchronous executor.  For the same key, base URL,
    timeout and [max_retries], on a server none of whose responses carries
    a Retry-After header read as a number [time.sleep] refuses,
    [generate_async], [get_job] and [list_jobs] raise the same exception or
    return the same value as their synchronous counterparts, and [dialogue]
    the same result without the transport handle; the effects are the same
    up to the kind of the suspension points. *)
Theorem async_methods_same_run (api_key : option value) (base_url : string)
    (timeout : float) (max_retries threshold threshold' : Z) (w : world) :
  (forall n, Replies.patient (server w n) = true) ->
  let s := {| Client._api_key := api_key; Client._base_url := base_url;
              Client._timeout := timeout; Client._max_retries := max_retries;
              Client._auto_async_threshold := threshold |} in
  let a := {| AsyncLeanvox._api_key := api_key; AsyncLeanvox._base_url := base_url;
              AsyncLeanvox._timeout := timeout; AsyncLeanvox._max_retries := max_retries;
              AsyncLeanvox._auto_async_threshold := threshold' |} in
  (forall text p webhook_url,
      fst (AsyncLeanvox.generate_async a text p webhook_url w)
      = fst (Client.generate_async s text p webhook_url w)
      /\ forget (snd (AsyncLeanvox.generate_async a text p webhook_url w))
         = forget (snd (Client.generate_async s text p webhook_url w)))
  /\ (forall job_id,
         fst (AsyncLeanvox.get_job a job_id w) = fst (Client.get_job s job_id w)
         /\ forget (snd (AsyncLeanvox.get_job a job_id w))
            = forget (snd (Client.get_job s job_id w)))
  /\ (fst (AsyncLeanvox.list_jobs a w) = fst (Leanvox.list_jobs s w)
      /\ forget (snd (AsyncLeanvox.list_jobs a w)) = forget (snd (Leanvox.list_jobs s w)))
  /\ (forall lines model gap_ms,
         match fst (Leanvox.dialogue s lines model gap_ms w) with
         | Ok r => fst (AsyncLeanvox.dialogue a lines model gap_ms w)
                   = Ok (Replies.detach r)
         | Raise e => fst (AsyncLeanvox.dialogue a lines model gap_ms w) = Raise e
         end
         /\ forget (snd (AsyncLeanvox.dialogue a lines model gap_ms w))
            = forget (snd (Leanvox.dialogue s lines model gap_ms w))).
Proof.
  intros Hpat s a. subst s a. repeat split.
  - unfold Client.generate_async, AsyncLeanvox.generate_async,
      Client._get_http, AsyncLeanvox._get_http.
    cbn [Client._api_key Client._base_url Client._timeout Client._max_retries
         AsyncLeanvox._api_key AsyncLeanvox._base_url AsyncLeanvox._timeout
         AsyncLeanvox._max_retries].
    unfold mbind, lift, ret, raise.
    destruct (Client._validate_generate_params _ _ _ _) as [[] | e]; [| reflexivity].
    destruct (Auth.ensure_api_key api_key) as [key | e]; cbn [Errors.bind];
      [| reflexivity].
    match goal with
    | |- context [HTTPClient.request _ ?args w] =>
        same_request base_url key timeout max_retries args w Hpat
    end; [destruct data |]; reflexivity.
  - unfold Client.generate_async, AsyncLeanvox.generate_async,
      Client._get_http, AsyncLeanvox._get_http.
    cbn [Client._api_key Client._base_url Client._timeout Client._max_retries
         AsyncLeanvox._api_key AsyncLeanvox._base_url AsyncLeanvox._timeout
         AsyncLeanvox._max_retries].
    unfold mbind, lift, ret, raise.
    destruct (Client._validate_generate_params _ _ _ _) as [[] | e]; [| reflexivity].
    destruct (Auth.ensure_api_key api_key) as [key | e]; cbn [Errors.bind];
      [| reflexivity].
    match goal with
    | |- context [HTTPClient.request _ ?args w] =>
        same_request base_url key timeout max_retries args w Hpat
    end; [destruct data |]; cbn [snd]; congruence.
  - unfold Client.get_job, AsyncLeanvox.get_job, Client._get_http, AsyncLeanvox._get_http.
    cbn [Client._api_key Client._base_url Client._timeout Client._max_retries
         AsyncLeanvox._api_key AsyncLeanvox._base_url AsyncLeanvox._timeout
         AsyncLeanvox._max_retries].
    unfold mbind, lift, ret, raise.
    destruct (Auth.ensure_api_key api_key) as [key | e]; cbn [Errors.bind];
      [| reflexivity].
    same_request base_url key timeout max_retries
      (simple "GET" (fmt "/v1/jobs/" job_id "") VNone) w Hpat; reflexivity.
  - unfold Client.get_job, AsyncLeanvox.get_job, Client._get_http, AsyncLeanvox._get_http.
    cbn [Client._api_key Client._base_url Client._timeout Client._max_retries
         AsyncLeanvox._api_key AsyncLeanvox._base_url AsyncLeanvox._timeout
         AsyncLeanvox._max_retries].
    unfold mbind, lift, ret, raise.
    destruct (Auth.ensure_api_key api_key) as [key | e]; cbn [Errors.bind];
      [| reflexivity].
    same_request base_url key timeout max_retries
      (simple "GET" (fmt "/v1/jobs/" job_id "") VNone) w Hpat; cbn [snd]; congruence.
  - unfold Leanvox.list_jobs, AsyncLeanvox.list_jobs, Client._get_http,
      AsyncLeanvox._get_http.
    cbn [Client._api_key Client._base_url Client._timeout Client._max_retries
         AsyncLeanvox._api_key AsyncLeanvox._base_url AsyncLeanvox._timeout
         AsyncLeanvox._max_retries].
    unfold mbind, lift, ret, raise.
    destruct (Auth.ensure_api_key api_key) as [key | e]; cbn [Errors.bind];
      [| reflexivity].
    same_request base_url key timeout max_retries (simple "GET" (Str "/v1/jobs") VNone) w Hpat;
      [destruct data; try reflexivity; destruct (Dataclass.iterate _) |]; reflexivity.
  - unfold Leanvox.list_jobs, AsyncLeanvox.list_jobs, Client._get_http,
      AsyncLeanvox._get_http.
    cbn [Client._api_key Client._base_url Client._timeout Client._max_retries
         AsyncLeanvox._api_key AsyncLeanvox._base_url AsyncLeanvox._timeout
         AsyncLeanvox._max_retries].
    unfold mbind, lift, ret, raise.
    destruct (Auth.ensure_api_key api_key) as [key | e]; cbn [Errors.bind];
      [| reflexivity].
    same_request base_url key timeout max_retries (simple "GET" (Str "/v1/jobs") VNone) w Hpat;
      [destruct data; try (cbn [snd]; congruence); destruct (Dataclass.iterate _) |];
      cbn [snd]; congruence.
  - unfold Leanvox.dialogue, AsyncLeanvox.dialogue, Client._get_http,
      AsyncLeanvox._get_http.
    cbn [Client._api_key Client._base_url Client._timeout Client._max_retries
         AsyncLeanvox._api_key AsyncLeanvox._base_url AsyncLeanvox._timeout
         AsyncLeanvox._max_retries].
    destruct (Z.of_nat (List.length lines) <? 2); [reflexivity |].
    unfold mbind, lift, ret, raise.
    destruct (Auth.ensure_api_key api_key) as [key | e]; cbn [Errors.bind];
      [| reflexivity].
    match goal with
    | |- context [HTTPClient.request _ ?args w] =>
        same_request base_url key timeout max_retries args w Hpat
    end; [destruct data |]; reflexivity.
  - unfold Leanvox.dialogue, AsyncLeanvox.dialogue, Client._get_http,
      AsyncLeanvox._get_http.
    cbn [Client._api_key Client._base_url Client._timeout Client._max_retries
         AsyncLeanvox._api_key AsyncLeanvox._base_url AsyncLeanvox._timeout
         AsyncLeanvox._max_retries].
    destruct (Z.of_nat (List.length lines) <? 2); [reflexivity |].
    unfold mbind, lift, ret, raise.
    destruct (Auth.ensure_api_key api_key) as [key | e]; cbn [Errors.bind];
      [| reflexivity].
    match goal with
    | |- context [HTTPClient.request _ ?args w] =>
        same_request base_url key timeout max_retries args w Hpat
    end; [destruct data |]; cbn [snd]; congruence.
Qed.

(** A server that lists two jobs: both clients return them. *)
Lemma async_methods_same_run_witness :
  fst (AsyncLeanvox.list_jobs
         {| AsyncLeanvox._api_key := Some (VStr "lv_test_k");
            AsyncLeanvox._base_url := "https://api.leanvox.com";
            AsyncLeanvox._timeout := of_Z 30; AsyncLeanvox._max_retries := 2;
            AsyncLeanvox._auto_async_threshold := 5000 |}
         (start (Examples.always
                   (Examples.response_with 200 None "{...}"
                      (Some (VDict [("jobs",
                                     VList [VDict [("id", VStr "a");
                                                   ("status", VStr "pending")];
                                            VDict [("id", VStr "b");
                                                   ("status", VStr "failed")]])]))))))
  = fst (Leanvox.list_jobs
           {| Client._api_key := Some (VStr "lv_test_k");
              Client._base_url := "https://api.leanvox.com";
              Client._timeout := of_Z 30; Client._max_retries := 2;
              Client._auto_async_threshold := 5000 |}
           (start (Examples.always
                     (Examples.response_with 200 None "{...}"
                        (Some (VDict [("jobs",
                                       VList [VDict [("id", VStr "a");
                                                     ("status", VStr "pending")];
                                              VDict [("id", VStr "b");
                                                     ("status", VStr "failed")]])])))))).
Proof.
  refine (proj1 (proj1 (proj2 (proj2
            (async_methods_same_run (Some (VStr "lv_test_k")) "https://api.leanvox.com"
               (of_Z 30) 2 5000 5000
               (start (Examples.always
                         (Examples.response_with 200 None "{...}"
                            (Some (VDict [("jobs",
                                           VList [VDict [("id", VStr "a");
                                                         ("status", VStr "pending")];
                                                  VDict [("id", VStr "b");
                                                         ("status", VStr "failed")]])])))))
               (fun _ => eq_refl)))))).
Defined.

(** ** Dataclasses built from the answers of the server *)

Lemma lookup_filter_fields (fs : Dataclass.fields) (name : string)
    (d : list (string * value)) :
  Dataclass.is_field fs name = true ->
  lookup name (filter (fun kv => Dataclass.is_field fs (fst kv)) d) = lookup name d.
Proof.
  intros Hf. induction d as [| [k v] d IH]; [reflexivity |].
  cbn [filter fst lookup].
  destruct (Dataclass.is_field fs k) eqn:Fk; cbn [lookup].
  - rewrite IH. reflexivity.
  - destruct (String.eqb_spec k name) as [-> | _]; [congruence | exact IH].
Qed.

Lemma fill_filter (fs fs' : Dataclass.fields) (d : list (string * value)) :
  (forall f, In f fs' -> Dataclass.is_field fs (fst f) = true) ->
  Dataclass.fill fs' (filter (fun kv => Dataclass.is_field fs (fst kv)) d)
  = Dataclass.fill fs' d.
Proof.
  induction fs' as [| [name default] fs' IH]; intros Hin; [reflexivity |].
  cbn [Dataclass.fill].
  rewrite (lookup_filter_fields fs name d (Hin (name, default) (or_introl eq_refl))).
  rewrite IH; [reflexivity |].
  intros f Hf. apply Hin. right. exact Hf.
Qed.

Lemma is_field_self (fs : Dataclass.fields) (f : string * option value) :
  In f fs -> Dataclass.is_field fs (fst f) = true.
Proof.
  intros Hin. unfold Dataclass.is_field. apply existsb_exists.
  exists f. split; [exact Hin | apply String.eqb_refl].
Qed.

Lemma forallb_filter {A : Type} (f : A -> bool) (l : list A) :
  forallb f (filter f l) = true.
Proof.
  induction l as [| x l IH]; [reflexivity |].
  cbn [filter]. destruct (f x) eqn:Fx; [| exact IH].
  cbn [forallb]. rewrite Fx, IH. reflexivity.
Qed.

Lemma construct_filtered_fill (fs : Dataclass.fields) (d : list (string * value)) :
  Dataclass.construct_filtered fs (VDict d) = Dataclass.fill fs d.
Proof.
  unfold Dataclass.construct_filtered, Dataclass.construct.
  rewrite (forallb_filter (fun kv => Dataclass.is_field fs (fst kv)) d).
  apply fill_filter. intros f Hf. apply is_field_self. exact Hf.
Qed.

Lemma fill_type_error (fs : Dataclass.fields) (d : list (string * value)) (e : exn) :
  Dataclass.fill fs d = Raise e -> exists what, e = TypeError what.
Proof.
  induction fs as [| [name default] fs IH]; cbn [Dataclass.fill]; [discriminate |].
  destruct (lookup name d) as [v |]; [| destruct default as [v |]].
  - destruct (Dataclass.fill fs d) as [i | e']; cbn [Errors.bind]; [discriminate |].
    intros H. injection H as <-. apply IH. reflexivity.
  - destruct (Dataclass.fill fs d) as [i | e']; cbn [Errors.bind]; [discriminate |].
    intros H. injection H as <-. apply IH. reflexivity.
  - intros H. injection H as <-. eauto.
Qed.

Lemma construct_from_type_error (fs : Dataclass.fields) (v : value) (e : exn) :
  Dataclass.construct_from fs v = Raise e -> exists what, e = TypeError what.
Proof.
  unfold Dataclass.construct_from, Dataclass.construct.
  destruct v; try (intros H; injection H as <-; eauto).
  destruct (forallb _ _); [apply fill_type_error |].
  intros H. injection H as <-. eauto.
Qed.

Lemma construct_unexpected (fs : Dataclass.fields) (kwargs : list (string * value))
    (k : string) (v : value) :
  In (k, v) kwargs -> Dataclass.is_field fs k = false ->
  Dataclass.construct fs kwargs = Raise (TypeError "unexpected keyword argument").
Proof.
  intros Hin Hk. unfold Dataclass.construct.
  destruct (forallb _ kwargs) eqn:F; [| reflexivity].
  rewrite forallb_forall in F. specialize (F (k, v) Hin). cbn [fst] in F. congruence.
Qed.

Lemma comprehension_raises_type_error {A : Type} (f : value -> result A) (l : list value)
    (x : value) (e : exn) :
  (forall y e', f y = Raise e' -> exists what, e' = TypeError what) ->
  In x l -> f x = Raise e ->
  exists what, Dataclass.comprehension f l = Raise (TypeError what).
Proof.
  intros Hty. induction l as [| x' l IH]; intros Hin Fx; [destruct Hin |].
  cbn [Dataclass.comprehension]. destruct Hin as [-> | Hin].
  - rewrite Fx. cbn [Errors.bind]. destruct (Hty x e Fx) as (what & ->). eauto.
  - destruct (f x') as [y | e0] eqn:Fx'; cbn [Errors.bind].
    + destruct (IH Hin Fx) as (what & ->). cbn [Errors.bind]. eauto.
    + destruct (Hty x' e0 Fx') as (what & ->). eauto.
Qed.

(** X20: the listing methods build each [Voice] from the whole entry of
    the answer.  When [/v1/voices/curated] answers a dict whose list of
    voices holds an entry with a key that is no field of [Voice],
    [list_curated] raises a [TypeError] after the request, whatever the
    other entries are: no voice is returned. *)
Theorem list_curated_rejects_unknown_field (http : HTTPClient.t) (w w1 : world)
    (d : list (string * value)) (l : list value) (entry : list (string * value))
    (k : string) (v : value) :
  HTTPClient.request http (simple "GET" (Str "/v1/voices/curated") VNone) w
  = (Ok (VDict d), w1) ->
  lookup "voices" d = Some (VList l) ->
  In (VDict entry) l ->
  In (k, v) entry ->
  Dataclass.is_field Dataclass.Voice k = false ->
  exists what,
    Resources.VoicesResource.list_curated http w = (Raise (TypeError what), w1).
Proof.
  intros R L Hin Hk Hf. unfold Resources.VoicesResource.list_curated.
  unfold mbind. rewrite R. unfold lift, Resources.instances, dict_get. rewrite L.
  cbn [Dataclass.iterate Errors.bind].
  destruct (comprehension_raises_type_error (Dataclass.construct_from Dataclass.Voice) l
              (VDict entry) (TypeError "unexpected keyword argument"))
    as (what & ->).
  - intros y e'. apply construct_from_type_error.
  - exact Hin.
  - cbn [Dataclass.construct_from]. apply (construct_unexpected _ _ k v); assumption.
  - eauto.
Qed.

(** A curated voice that comes with a field [gender]. *)
Lemma list_curated_rejects_unknown_field_witness :
  exists what w1,
    Resources.VoicesResource.list_curated (Examples.executor 2)
      (start (Examples.always
                (Examples.response_with 200 None "{...}"
                   (Some (VDict [("voices",
                                  VList [VDict [("voice_id", VStr "v1");
                                                ("name", VStr "Ada");
                                                ("gender", VStr "f")]])])))))
    = (Raise (TypeError what), w1).
Proof.
  destruct (list_curated_rejects_unknown_field (Examples.executor 2)
              (start (Examples.always
                        (Examples.response_with 200 None "{...}"
                           (Some (VDict [("voices",
                                          VList [VDict [("voice_id", VStr "v1");
                                                        ("name", VStr "Ada");
                                                        ("gender", VStr "f")]])])))))
              _ _ _ _ "gender" (VStr "f") eq_refl eq_refl (or_introl eq_refl)
              (or_intror (or_intror (or_introl eq_refl))) eq_refl) as (what & H).
  exists what. eexists. exact H.
Defined.

Lemma attr_set_attr_same (i : Dataclass.instance) (name : string) (v : value) :
  lookup name i <> None -> Dataclass.attr (Dataclass.set_attr i name v) name = v.
Proof.
  unfold Dataclass.attr, dict_get.
  induction i as [| [k old] i IH]; cbn [lookup Dataclass.set_attr]; [congruence |].
  destruct (String.eqb_spec k name) as [-> | Hk]; cbn [lookup].
  - rewrite String.eqb_refl. reflexivity.
  - intros H. apply String.eqb_neq in Hk. rewrite Hk. apply IH. exact H.
Qed.

Lemma attr_set_attr_other (i : Dataclass.instance) (name other : string) (v : value) :
  other <> name ->
  Dataclass.attr (Dataclass.set_attr i name v) other = Dataclass.attr i other.
Proof.
  intros Hne. unfold Dataclass.attr, dict_get.
  induction i as [| [k old] i IH]; cbn [lookup Dataclass.set_attr]; [reflexivity |].
  destruct (String.eqb_spec k name) as [-> | Hk]; cbn [lookup].
  - destruct (String.eqb_spec name other) as [E | _]; [congruence | reflexivity].
  - destruct (k =? other)%string; [reflexivity | exact IH].
Qed.

(** X21: the methods that return one object keep only the entries of the
    answer that are fields of its class.  When [/v1/account/balance]
    answers a dict, [balance] returns the [AccountBalance] of its two
    entries [balance_cents] and [total_spent_cents] whatever else the dict
    holds, and raises a [TypeError] when one of the two is missing; an
    answer that is not a dict raises an [AttributeError]. *)
Theorem balance_keeps_fields_only (http : HTTPClient.t) (w w1 : world) (data : value) :
  HTTPClient.request http (simple "GET" (Str "/v1/account/balance") VNone) w
  = (Ok data, w1) ->
  match data with
  | VDict d =>
      match lookup "balance_cents" d, lookup "total_spent_cents" d with
      | Some b, Some t =>
          Resources.AccountResource.balance http w
          = (Ok [("balance_cents", b); ("total_spent_cents", t)], w1)
      | _, _ =>
          exists what,
            Resources.AccountResource.balance http w = (Raise (TypeError what), w1)
      end
  | _ => exists what,
           Resources.AccountResource.balance http w = (Raise (AttributeError what), w1)
  end.
Proof.
  intros R. unfold Resources.AccountResource.balance, mbind, lift. rewrite R.
  destruct data; try (eexists; reflexivity).
  rewrite construct_filtered_fill. unfold Dataclass.AccountBalance.
  cbn [Dataclass.fill].
  destruct (lookup "balance_cents" d) as [b |];
    destruct (lookup "total_spent_cents" d) as [t |]; cbn [Errors.bind];
    first [reflexivity | eexists; reflexivity].
Qed.

(** A balance that comes with a field [currency]. *)
Lemma balance_keeps_fields_only_witness :
  fst (Resources.AccountResource.balance (Examples.executor 2)
         (start (Examples.always
                   (Examples.response_with 200 None "{...}"
                      (Some (VDict [("currency", VStr "usd"); ("balance_cents", VInt 500);
                                    ("total_spent_cents", VInt 1200)]))))))
  = Ok [("balance_cents", VInt 500); ("total_spent_cents", VInt 1200)].
Proof.
  refine (f_equal fst
            (balance_keeps_fields_only (Examples.executor 2)
               (start (Examples.always
                         (Examples.response_with 200 None "{...}"
                            (Some (VDict [("currency", VStr "usd");
                                          ("balance_cents", VInt 500);
                                          ("total_spent_cents", VInt 1200)])))))
               _ (VDict [("currency", VStr "usd"); ("balance_cents", VInt 500);
                         ("total_spent_cents", VInt 1200)]) eq_refl)).
Defined.

(** X22: [clone] with [auto_unlock] set is [clone] without it followed,
    when the voice comes back with the status ["pending_unlock"], by one
    [unlock] of that voice: if the unlock returns, the result is the same
    voice with its status set to ["active"] and every other attribute
    unchanged; if the unlock raises, so does [clone], and the voice is
    lost.  With any other status no second request is made. *)
Theorem clone_auto_unlock (http : HTTPClient.t) (name : string)
    (a : Resources.VoicesResource.audio) (description : string) (w w1 : world)
    (voice : Dataclass.instance) :
  Resources.VoicesResource.clone http name a description false w = (Ok voice, w1) ->
  (eq_str (Dataclass.attr voice "status") "pending_unlock" = true ->
   Resources.VoicesResource.clone http name a description true w
   = (match fst (Resources.VoicesResource.unlock http (Dataclass.attr voice "voice_id") w1)
      with
      | Ok _ => Ok (Dataclass.set_attr voice "status" (VStr "active"))
      | Raise e => Raise e
      end,
      snd (Resources.VoicesResource.unlock http (Dataclass.attr voice "voice_id") w1))
   /\ Dataclass.attr (Dataclass.set_attr voice "status" (VStr "active")) "status"
      = VStr "active"
   /\ forall other, other <> "status" ->
                    Dataclass.attr (Dataclass.set_attr voice "status" (VStr "active")) other
                    = Dataclass.attr voice other)
  /\ (eq_str (Dataclass.attr voice "status") "pending_unlock" = false ->
      Resources.VoicesResource.clone http name a description true w = (Ok voice, w1)).
Proof.
  unfold Resources.VoicesResource.clone.
  set (req := match a with
              | Resources.VoicesResource.Base64 s => _
              | Resources.VoicesResource.File content => _
              end).
  unfold mbind, lift, ret. destruct (req w) as [[data | x] w0]; [| discriminate].
  destruct (Dataclass.construct_filtered Dataclass.Voice data) as [voice0 | x];
    [| discriminate].
  cbn [andb]. intros H. injection H as -> ->. split.
  - intros Hs. rewrite Hs.
    destruct (Resources.VoicesResource.unlock http _ w1) as [[u | x] w2]; cbn [fst snd].
    + split; [reflexivity |]. split.
      * apply attr_set_attr_same. intros Hl.
        unfold Dataclass.attr, dict_get in Hs. rewrite Hl in Hs. discriminate Hs.
      * intros other Hne. apply attr_set_attr_other. exact Hne.
    + split; [reflexivity |]. split.
      * apply attr_set_attr_same. intros Hl.
        unfold Dataclass.attr, dict_get in Hs. rewrite Hl in Hs. discriminate Hs.
      * intros other Hne. apply attr_set_attr_other. exact Hne.
  - intros Hs. rewrite Hs. reflexivity.
Qed.

(** A cloned voice that is pending, unlocked by the second request. *)
Lemma clone_auto_unlock_witness :
  fst (Resources.VoicesResource.clone (Examples.executor 2) "Ada"
         (Resources.VoicesResource.Base64 "UklGRg==") "" true
         (start (Examples.always
                   (Examples.response_with 200 None "{...}"
                      (Some (VDict [("voice_id", VStr "v1"); ("name", VStr "Ada");
                                    ("status", VStr "pending_unlock")]))))))
  = Ok (Dataclass.set_attr
          [("voice_id", VStr "v1"); ("name", VStr "Ada"); ("model", VStr "standard");
           ("language", VStr "en"); ("status", VStr "pending_unlock");
           ("description", VStr ""); ("preview_url", VStr "");
           ("unlock_cost_cents", VInt 0)] "status" (VStr "active")).
Proof.
  refine (f_equal fst
            (proj1 (proj1 (clone_auto_unlock (Examples.executor 2) "Ada"
                             (Resources.VoicesResource.Base64 "UklGRg==") ""
                             (start (Examples.always
                                       (Examples.response_with 200 None "{...}"
                                          (Some (VDict [("voice_id", VStr "v1");
                                                        ("name", VStr "Ada");
                                                        ("status",
                                                         VStr "pending_unlock")])))))
                             _ _ eq_refl) eq_refl))).
Defined.

(** ** The outcome of a request *)

(** One iteration of the loop, by what the reply makes the call end with. *)
Lemma attempts_ends (self : HTTPClient.t) (a : args) (todo : nat) (attempt : Z)
    (last_err : option transport_error) (w : world) :
  0 <= attempt ->
  match Replies.ends (HTTPClient._max_retries self) attempt (server w (sent w)) with
  | Some out =>
      HTTPClient.attempts self a (S todo) attempt last_err w
      = (out, after w [Send Blocking (build (HTTPClient._timeout self) a)] 1)
  | None =>
      attempt < HTTPClient._max_retries self
      /\ exists d last_err',
           HTTPClient.attempts self a (S todo) attempt last_err w
           = HTTPClient.attempts self a todo (attempt + 1) last_err'
               (after w [Send Blocking (build (HTTPClient._timeout self) a);
                         Sleep Blocking d] 1)
  end.
Proof.
  intros H0. destruct (server w (sent w)) as [resp | e] eqn:Hs; cbn [Replies.ends].
  - destruct (Z.ltb_spec (status_code resp) 400) as [Hlt | Hge].
    + apply (attempts_success self a todo attempt last_err w resp Hs Hlt).
    + destruct (retryable_status (status_code resp)
                && (attempt <? HTTPClient._max_retries self)) eqn:Hc.
      * apply andb_true_iff in Hc. destruct Hc as [Hr Hlt]. apply Z.ltb_lt in Hlt.
        rewrite get_backoff_any_sign by exact H0.
        destruct (sleep_error (Spec.backoff_any_sign attempt (header_Retry_After resp)))
          as [x |] eqn:Hsl.
        -- apply (attempts_retry_refused self a todo attempt last_err w resp x Hs);
             [lia | exact Hr | exact Hsl].
        -- split; [exact Hlt |]. eexists. exists last_err.
           apply (attempts_retry self a todo attempt last_err w resp Hs);
             [lia | exact Hr | exact Hsl].
      * destruct (attempts_raise self a todo attempt last_err w resp Hs Hge (or_intror Hc))
          as (x & Hx & Hrun).
        rewrite Hx. exact Hrun.
  - destruct (Replies.caught e) eqn:Hc.
    + destruct (Z.ltb_spec attempt (HTTPClient._max_retries self)) as [Hlt | Hge].
      * split; [exact Hlt |]. eexists. exists (Some e).
        apply (attempts_failure_retry self a todo attempt last_err w e Hs Hc). lia.
      * apply (attempts_failure_last self a todo attempt last_err w e Hs Hc Hge).
    + apply (attempts_failure_other self a todo attempt last_err w e Hs Hc).
Qed.

Lemma attempts_outcome (self : HTTPClient.t) (a : args) (todo : nat) :
  forall (attempt : Z) (last_err : option transport_error) (w : world),
    0 <= attempt ->
    attempt + Z.of_nat (S todo) = HTTPClient._max_retries self + 1 ->
    exists k : nat,
      (k <= todo)%nat
      /\ sent (snd (HTTPClient.attempts self a (S todo) attempt last_err w))
         = (sent w + S k)%nat
      /\ Replies.ends (HTTPClient._max_retries self) (attempt + Z.of_nat k)
           (server w (sent w + k))
         = Some (fst (HTTPClient.attempts self a (S todo) attempt last_err w))
      /\ forall i : nat,
           (i < k)%nat ->
           Replies.ends (HTTPClient._max_retries self) (attempt + Z.of_nat i)
             (server w (sent w + i))
           = None.
Proof.
  induction todo as [| todo IH]; intros attempt last_err w H0 Hrel;
    [pose proof (attempts_ends self a 0 attempt last_err w H0) as Hstep
    | pose proof (attempts_ends self a (S todo) attempt last_err w H0) as Hstep];
    destruct (Replies.ends (HTTPClient._max_retries self) attempt (server w (sent w)))
      as [out |] eqn:He.
  - exists 0%nat. rewrite Hstep, Z.add_0_r, Nat.add_0_r. cbn [fst snd after sent].
    repeat split; [lia | exact He | intros i Hi; lia].
  - lia.
  - exists 0%nat. rewrite Hstep, Z.add_0_r, Nat.add_0_r. cbn [fst snd after sent].
    repeat split; [lia | exact He | intros i Hi; lia].
  - destruct Hstep as (Hlt & d & last_err' & Hrun). rewrite Hrun.
    destruct (IH (attempt + 1) last_err'
                (after w [Send Blocking (build (HTTPClient._timeout self) a);
                          Sleep Blocking d] 1)) as (k & Hk & Hsent & Hlast & Hbefore);
      [lia | lia |].
    exists (S k). cbn [after sent server] in Hsent, Hlast, Hbefore.
    replace (attempt + Z.of_nat (S k)) with (attempt + 1 + Z.of_nat k) by lia.
    replace (sent w + S k)%nat with (sent w + 1 + k)%nat by lia.
    repeat split; [lia | lia | exact Hlast |].
    intros [| i] Hi.
    + rewrite Z.add_0_r, Nat.add_0_r. exact He.
    + replace (attempt + Z.of_nat (S i)) with (attempt + 1 + Z.of_nat i) by lia.
      replace (sent w + S i)%nat with (sent w + 1 + i)%nat by lia.
      apply Hbefore. lia.
Qed.

(** X23: with [max_retries >= 0], [request] receives [k + 1] replies for
    some [k <= max_retries], and what it returns or raises is decided by
    the last of them and its attempt number alone: the body of a response
    with a status below 400 (decoded, the empty dict when empty); for a
    retryable status with an attempt left, the exception [time.sleep]
    raises on the wait [_get_backoff] computed; for any other status from
    400 on what [_raise_for_status] raises; the connection error naming
    [max_retries + 1] attempts for a connection failure or a timeout at the
    last attempt; any other failure of the transport as it is.  Every
    earlier reply is one after which the executor slept and tried again.
    The failure remembered from earlier attempts has no part in it, and the
    statements after the loop are never reached. *)
Theorem request_outcome_is_last_reply (self : HTTPClient.t) (a : args) (w : world) :
  0 <= HTTPClient._max_retries self ->
  exists k : nat,
    Z.of_nat k <= HTTPClient._max_retries self
    /\ sent (snd (HTTPClient.request self a w)) = (sent w + S k)%nat
    /\ Replies.ends (HTTPClient._max_retries self) (Z.of_nat k) (server w (sent w + k))
       = Some (fst (HTTPClient.request self a w))
    /\ forall i : nat,
         (i < k)%nat ->
         Replies.ends (HTTPClient._max_retries self) (Z.of_nat i) (server w (sent w + i))
         = None.
Proof.
  intros HN. unfold HTTPClient.request.
  replace (Z.to_nat (HTTPClient._max_retries self + 1))
    with (S (Z.to_nat (HTTPClient._max_retries self))) by lia.
  destruct (attempts_outcome self a (Z.to_nat (HTTPClient._max_retries self)) 0 None w)
    as (k & Hk & Hsent & Hlast & Hbefore); [lia | lia |].
  exists k. repeat split; [lia | exact Hsent | exact Hlast | exact Hbefore].
Qed.

(** A refused connection, a 503, then the list of jobs. *)
Lemma request_outcome_is_last_reply_witness :
  exists k : nat,
    Z.of_nat k <= 2
    /\ sent (snd (HTTPClient.request (Examples.executor 2) Examples.list_jobs
                    (start (Replies.first_then 1 (Fails (ConnectError "Connection refused"))
                              (Replies.first_then 1
                                 (Response (Examples.response_with 503 None "" None))
                                 (Examples.always
                                    (Examples.response_with 200 None "{...}"
                                       (Some (VDict [("jobs", VList [])])))))))))
       = (0 + S k)%nat
    /\ Replies.ends 2 (Z.of_nat k)
         (Replies.first_then 1 (Fails (ConnectError "Connection refused"))
            (Replies.first_then 1
               (Response (Examples.response_with 503 None "" None))
               (Examples.always
                  (Examples.response_with 200 None "{...}"
                     (Some (VDict [("jobs", VList [])]))))) (0 + k)%nat)
       = Some (fst (HTTPClient.request (Examples.executor 2) Examples.list_jobs
                      (start (Replies.first_then 1 (Fails (ConnectError "Connection refused"))
                                (Replies.first_then 1
                                   (Response (Examples.response_with 503 None "" None))
                                   (Examples.always
                                      (Examples.response_with 200 None "{...}"
                                         (Some (VDict [("jobs", VList [])])))))))))
    /\ forall i : nat,
         (i < k)%nat ->
         Replies.ends 2 (Z.of_nat i)
           (Replies.first_then 1 (Fails (ConnectError "Connection refused"))
              (Replies.first_then 1
                 (Response (Examples.response_with 503 None "" None))
                 (Examples.always
                    (Examples.response_with 200 None "{...}"
                       (Some (VDict [("jobs", VList [])]))))) (0 + i)%nat)
         = None.
Proof.
  apply (request_outcome_is_last_reply (Examples.executor 2) Examples.list_jobs
           (start (Replies.first_then 1 (Fails (ConnectError "Connection refused"))
                     (Replies.first_then 1
                        (Response (Examples.response_with 503 None "" None))
                        (Examples.always
                           (Examples.response_with 200 None "{...}"
                              (Some (VDict [("jobs", VList [])])))))))).
  simpl. lia.
Defined.

(** The same run evaluated: three replies received, the list returned. *)
Example request_outcome_ex :
  HTTPClient.request (Examples.executor 2) Examples.list_jobs
    (start (Replies.first_then 1 (Fails (ConnectError "Connection refused"))
              (Replies.first_then 1
                 (Response (Examples.response_with 503 None "" None))
                 (Examples.always
                    (Examples.response_with 200 None "{...}"
                       (Some (VDict [("jobs", VList [])])))))))
  = (Ok (VDict [("jobs", VList [])]),
     after (start (Replies.first_then 1 (Fails (ConnectError "Connection refused"))
                     (Replies.first_then 1
                        (Response (Examples.response_with 503 None "" None))
                        (Examples.always
                           (Examples.response_with 200 None "{...}"
                              (Some (VDict [("jobs", VList [])])))))))
       [Send Blocking (build (of_Z 30) Examples.list_jobs);
        Sleep Blocking (of_Z 1);
        Send Blocking (build (of_Z 30) Examples.list_jobs);
        Sleep Blocking (of_Z 2);
        Send Blocking (build (of_Z 30) Examples.list_jobs)] 3).
Proof. vm_compute. reflexivity. Qed.
